(** * whatsapp-client: the webhook ingestion pipeline

    A shallow embedding of [whatsapp_client/_webhook/_types.py] (the
    notification parser) and [whatsapp_client/_webhook/__init__.py]
    (signature verification and handler dispatch), with the properties of
    the pipeline proved over it.

    Python values that reach the parser come out of [json.loads]; they are
    modelled by the type [json].  A Python [str] is represented by the
    Rocq [string] holding its UTF-8 encoding, so that [str.encode()] is the
    identity on the underlying bytes, a [str] is ASCII exactly when every
    byte is below 128, and prefix and substring tests agree with the ones
    on code points.  A [str] that holds a surrogate code point has no UTF-8
    encoding; the pipeline is first modelled on the strings that have one,
    and [verify_signature_full] adds what [str.encode()] does on the
    others. *)

From Stdlib Require Import List String Ascii ZArith NArith Bool Lia.
From Stdlib Require Import Strings.Byte.
From Stdlib Require DecimalString DecimalZ.
Import ListNotations.

#[local] Set Warnings "-register-all".

Local Open Scope string_scope.
Local Open Scope list_scope.

(** ** Python values produced by [json.loads] *)

(** [JNull] is Python's [None]; a [dict] is an association list in
    insertion order, looked up by its first binding of a key. Numbers are
    opaque to the parser: an [int] is a [Z], a [float] is kept as mantissa and
    binary exponent. *)
Inductive json : Type :=
| JNull
| JBool (b : bool)
| JInt (z : Z)
| JFloat (mantissa exponent : Z)
| JStr (s : string)
| JArr (items : list json)
| JObj (fields : list (string * json)).

Definition bytes := list byte.

(** ** Exceptions and the error monad *)

Inductive exn : Type :=
| KeyError (key : string)
| TypeError
| AttributeError
| WebhookVerificationError (msg : string)
| JSONDecodeError
| UnicodeEncodeError
| UserError (tag : string).

Inductive result (A : Type) : Type :=
| Ok (a : A)
| Raise (e : exn).

Arguments Ok {A} a.
Arguments Raise {A} e.

Definition bind {A B} (r : result A) (k : A -> result B) : result B :=
  match r with
  | Ok a => k a
  | Raise e => Raise e
  end.

Declare Scope py_scope.
Delimit Scope py_scope with py.
Notation "x <- r ;; k" := (bind r (fun x => k))
  (at level 61, r at next level, right associativity) : py_scope.
Local Open Scope py_scope.

(** A list comprehension [[f(x) for x in xs]]: elements are evaluated left to
    right and the first exception aborts the whole comprehension. *)
Fixpoint mapM {A B} (f : A -> result B) (xs : list A) : result (list B) :=
  match xs with
  | [] => Ok []
  | x :: xs' =>
      y <- f x ;;
      ys <- mapM f xs' ;;
      Ok (y :: ys)
  end.

(** A [for x in xs: body] loop threading the loop-carried state [acc]. *)
Fixpoint for_in {A S} (xs : list A) (acc : S) (body : S -> A -> result S)
  : result S :=
  match xs with
  | [] => Ok acc
  | x :: xs' =>
      acc' <- body acc x ;;
      for_in xs' acc' body
  end.

(** ** Python primitives on JSON values *)

Fixpoint lookup (k : string) (d : list (string * json)) : option json :=
  match d with
  | [] => None
  | (k', v) :: d' => if String.eqb k k' then Some v else lookup k d'
  end.

Definition has_key (k : string) (d : list (string * json)) : bool :=
  match lookup k d with
  | Some _ => true
  | None => false
  end.

(** [v[k]] for a [str] key [k]: a [dict] raises [KeyError] on a missing key,
    a [list] or a [str] refuses a [str] index, every other value is not
    subscriptable. *)
Definition py_getitem (v : json) (k : string) : result json :=
  match v with
  | JObj d =>
      match lookup k d with
      | Some x => Ok x
      | None => Raise (KeyError k)
      end
  | _ => Raise TypeError
  end.

(** [v.get(k, default)]: only a [dict] has the method. *)
Definition py_get (v : json) (k : string) (default : json) : result json :=
  match v with
  | JObj d =>
      match lookup k d with
      | Some x => Ok x
      | None => Ok default
      end
  | _ => Raise AttributeError
  end.

(** [v == s] for a [str] literal [s]: only an equal [str] compares equal. *)
Definition py_eq_str (v : json) (s : string) : bool :=
  match v with
  | JStr t => String.eqb t s
  | _ => false
  end.

Fixpoint is_substring (needle hay : string) : bool :=
  String.prefix needle hay ||
  match hay with
  | EmptyString => false
  | String _ hay' => is_substring needle hay'
  end.

(** [k in v]: key membership for a [dict], element membership for a [list],
    substring test for a [str]; the other values are not iterable. *)
Definition py_contains (k : string) (v : json) : result bool :=
  match v with
  | JObj d => Ok (has_key k d)
  | JArr l => Ok (existsb (fun x => py_eq_str x k) l)
  | JStr s => Ok (is_substring k s)
  | _ => Raise TypeError
  end.

(** A UTF-8 continuation byte has the form 10xxxxxx. *)
Definition is_continuation (c : ascii) : bool :=
  let n := nat_of_ascii c in
  (128 <=? n)%nat && (n <? 192)%nat.

(** The characters of a [str], each as a one-character [str]. *)
Fixpoint py_chars (s : string) : list string :=
  match s with
  | EmptyString => []
  | String c s' =>
      let tail := py_chars s' in
      match s', tail with
      | String c' _, ch :: rest =>
          if is_continuation c' then String c ch :: rest
          else String c EmptyString :: tail
      | _, _ => String c EmptyString :: tail
      end
  end.

(** The items a [for x in v] loop visits: the elements of a [list], the keys
    of a [dict], the characters of a [str]. *)
Definition py_iter (v : json) : result (list json) :=
  match v with
  | JArr l => Ok l
  | JObj d => Ok (map (fun kv => JStr (fst kv)) d)
  | JStr s => Ok (map JStr (py_chars s))
  | _ => Raise TypeError
  end.

(** ** Webhook payload types ([_types.py])

    The dataclasses do not check their field types at run time, so a field
    annotated [str] holds whatever JSON value the payload had at that place;
    a field annotated [... | None] that is filled by [.get(key)] holds [JNull]
    when the key is missing. *)

Record WebhookMetadata : Type := {
  display_phone_number : json;
  phone_number_id : json
}.

Record WebhookContact : Type := {
  wa_id : json;
  name : json
}.

Record MessageContext : Type := {
  context_from_ : json;
  context_id : json
}.

Inductive MessageContent : Type :=
| TextContent (body : json)
| MediaContent (id mime_type sha256 caption : json)
| LocationContent (latitude longitude name address : json)
| ButtonReplyContent (id title : json)
| ListReplyContent (id title description : json)
| ReactionContent (message_id emoji : json)
| UnsupportedContent (raw : json).

Record Message : Type := {
  message_id : json;
  message_from_ : json;
  message_timestamp : json;
  message_type : json;
  message_content : MessageContent;
  message_context : option MessageContext
}.

Record StatusError : Type := {
  error_code : json;
  error_title : json
}.

Record ConversationOrigin : Type := {
  origin_type : json
}.

Record Conversation : Type := {
  conversation_id : json;
  conversation_origin : ConversationOrigin
}.

Record Pricing : Type := {
  billable : json;
  pricing_model : json;
  category : json
}.

Record Status : Type := {
  status_id : json;
  status_status : json;
  status_timestamp : json;
  status_recipient_id : json;
  status_conversation : option Conversation;
  status_pricing : option Pricing;
  status_errors : option (list StatusError)
}.

Record WebhookNotification : Type := {
  metadata : WebhookMetadata;
  contacts : list WebhookContact;
  messages : list Message;
  statuses : list Status
}.

(** ** The notification parser *)

Definition media_tags : list string :=
  ["image"; "video"; "audio"; "document"; "sticker"].

Definition is_media_tag (t : string) : bool :=
  existsb (String.eqb t) media_tags.

(** [WebhookNotification._parse_content].  The [match] statement compares
    the subject with [str] literals, so a subject that is not a [str] falls
    through to [case _]. *)
Definition _parse_content (msg : json) : result MessageContent :=
  msg_type <- py_get msg "type" (JStr "") ;;
  match msg_type with
  | JStr t =>
      if t =? "text" then
        text <- py_getitem msg "text" ;;
        body <- py_getitem text "body" ;;
        Ok (TextContent body)
      else if is_media_tag t then
        media <- py_getitem msg t ;;
        id <- py_getitem media "id" ;;
        mime_type <- py_getitem media "mime_type" ;;
        sha256 <- py_getitem media "sha256" ;;
        caption <- py_get media "caption" JNull ;;
        Ok (MediaContent id mime_type sha256 caption)
      else if t =? "location" then
        loc <- py_getitem msg "location" ;;
        latitude <- py_getitem loc "latitude" ;;
        longitude <- py_getitem loc "longitude" ;;
        name <- py_get loc "name" JNull ;;
        address <- py_get loc "address" JNull ;;
        Ok (LocationContent latitude longitude name address)
      else if t =? "button" then
        button <- py_getitem msg "button" ;;
        payload <- py_getitem button "payload" ;;
        text <- py_getitem button "text" ;;
        Ok (ButtonReplyContent payload text)
      else if t =? "interactive" then
        interactive <- py_getitem msg "interactive" ;;
        interactive_type <- py_get interactive "type" (JStr "") ;;
        if py_eq_str interactive_type "button_reply" then
          reply <- py_getitem interactive "button_reply" ;;
          id <- py_getitem reply "id" ;;
          title <- py_getitem reply "title" ;;
          Ok (ButtonReplyContent id title)
        else if py_eq_str interactive_type "list_reply" then
          reply <- py_getitem interactive "list_reply" ;;
          id <- py_getitem reply "id" ;;
          title <- py_getitem reply "title" ;;
          description <- py_get reply "description" JNull ;;
          Ok (ListReplyContent id title description)
        else Ok (UnsupportedContent msg)
      else if t =? "reaction" then
        reaction <- py_getitem msg "reaction" ;;
        message_id <- py_getitem reaction "message_id" ;;
        emoji <- py_getitem reaction "emoji" ;;
        Ok (ReactionContent message_id emoji)
      else Ok (UnsupportedContent msg)
  | _ => Ok (UnsupportedContent msg)
  end.

(** [WebhookNotification._parse_message]. *)
Definition _parse_message (msg : json) : result Message :=
  has_context <- py_contains "context" msg ;;
  context <-
    (if has_context : bool then
       ctx <- py_getitem msg "context" ;;
       from_ <- py_getitem ctx "from" ;;
       id <- py_getitem ctx "id" ;;
       Ok (Some {| context_from_ := from_; context_id := id |})
     else Ok None) ;;
  id <- py_getitem msg "id" ;;
  from_ <- py_getitem msg "from" ;;
  timestamp <- py_getitem msg "timestamp" ;;
  type <- py_get msg "type" (JStr "") ;;
  content <- _parse_content msg ;;
  Ok {| message_id := id;
        message_from_ := from_;
        message_timestamp := timestamp;
        message_type := type;
        message_content := content;
        message_context := context |}.

(** The three optional parts of [_parse_status], each guarded by
    [if key in raw]. *)
Definition parse_conversation (raw : json) : result (option Conversation) :=
  present <- py_contains "conversation" raw ;;
  if present : bool then
    conv <- py_getitem raw "conversation" ;;
    id <- py_getitem conv "id" ;;
    origin <- py_getitem conv "origin" ;;
    type <- py_getitem origin "type" ;;
    Ok (Some {| conversation_id := id;
                conversation_origin := {| origin_type := type |} |})
  else Ok None.

Definition parse_pricing (raw : json) : result (option Pricing) :=
  present <- py_contains "pricing" raw ;;
  if present : bool then
    p <- py_getitem raw "pricing" ;;
    b <- py_getitem p "billable" ;;
    pm <- py_getitem p "pricing_model" ;;
    c <- py_getitem p "category" ;;
    Ok (Some {| billable := b; pricing_model := pm; category := c |})
  else Ok None.

Definition parse_status_error (e : json) : result StatusError :=
  code <- py_getitem e "code" ;;
  title <- py_getitem e "title" ;;
  Ok {| error_code := code; error_title := title |}.

Definition parse_errors (raw : json) : result (option (list StatusError)) :=
  present <- py_contains "errors" raw ;;
  if present : bool then
    errs <- py_getitem raw "errors" ;;
    items <- py_iter errs ;;
    errors <- mapM parse_status_error items ;;
    Ok (Some errors)
  else Ok None.

(** [WebhookNotification._parse_status]. *)
Definition _parse_status (raw : json) : result Status :=
  conversation <- parse_conversation raw ;;
  pricing <- parse_pricing raw ;;
  errors <- parse_errors raw ;;
  id <- py_getitem raw "id" ;;
  status <- py_getitem raw "status" ;;
  timestamp <- py_getitem raw "timestamp" ;;
  recipient_id <- py_getitem raw "recipient_id" ;;
  Ok {| status_id := id;
        status_status := status;
        status_timestamp := timestamp;
        status_recipient_id := recipient_id;
        status_conversation := conversation;
        status_pricing := pricing;
        status_errors := errors |}.

(** One element of the [contacts] comprehension of [from_dict]. *)
Definition parse_contact (c : json) : result WebhookContact :=
  wa <- py_getitem c "wa_id" ;;
  profile <- py_get c "profile" (JObj []) ;;
  nm <- py_get profile "name" JNull ;;
  Ok {| wa_id := wa; name := nm |}.

(** The body of the inner loop of [from_dict]: the notification built from
    one [change]. *)
Definition notification_of_change (change : json)
  : result WebhookNotification :=
  value <- py_get change "value" (JObj []) ;;
  meta <- py_get value "metadata" (JObj []) ;;
  dpn <- py_get meta "display_phone_number" (JStr "") ;;
  pni <- py_get meta "phone_number_id" (JStr "") ;;
  cs <- py_get value "contacts" (JArr []) ;;
  cs_items <- py_iter cs ;;
  contacts <- mapM parse_contact cs_items ;;
  ms <- py_get value "messages" (JArr []) ;;
  ms_items <- py_iter ms ;;
  messages <- mapM _parse_message ms_items ;;
  ss <- py_get value "statuses" (JArr []) ;;
  ss_items <- py_iter ss ;;
  statuses <- mapM _parse_status ss_items ;;
  Ok {| metadata := {| display_phone_number := dpn; phone_number_id := pni |};
        contacts := contacts;
        messages := messages;
        statuses := statuses |}.

(** [WebhookNotification.from_dict]: two nested loops appending to
    [notifications]. *)
Definition from_dict (data : json) : result (list WebhookNotification) :=
  entries <- py_get data "entry" (JArr []) ;;
  entry_items <- py_iter entries ;;
  for_in entry_items [] (fun notifications entry =>
    changes <- py_get entry "changes" (JArr []) ;;
    change_items <- py_iter changes ;;
    for_in change_items notifications (fun notifications change =>
      n <- notification_of_change change ;;
      Ok (notifications ++ [n]))).

(** ** Signature verification and dispatch ([__init__.py]) *)

(** [str.encode()] on a [str] that has a UTF-8 encoding: its bytes
    ([str_encode] below has the failure on the others). *)
Definition encode (s : string) : bytes := list_byte_of_string s.

Definition hex_digit (n : N) : ascii :=
  match n with
  | 0 => "0" | 1 => "1" | 2 => "2" | 3 => "3"
  | 4 => "4" | 5 => "5" | 6 => "6" | 7 => "7"
  | 8 => "8" | 9 => "9" | 10 => "a" | 11 => "b"
  | 12 => "c" | 13 => "d" | 14 => "e" | _ => "f"
  end%N%char.

(** [HMAC.hexdigest()]: two lowercase hexadecimal digits per digest byte. *)
Fixpoint hexdigest (digest : bytes) : string :=
  match digest with
  | [] => EmptyString
  | b :: rest =>
      let n := Byte.to_N b in
      String (hex_digit (n / 16)) (String (hex_digit (n mod 16)) (hexdigest rest))
  end.

Fixpoint is_ascii (s : string) : bool :=
  match s with
  | EmptyString => true
  | String c s' => (nat_of_ascii c <? 128)%nat && is_ascii s'
  end.

(** [s.startswith(p)]. *)
Definition startswith (s p : string) : bool := String.prefix p s.

Fixpoint drop (n : nat) (s : string) : string :=
  match n, s with
  | O, _ => s
  | S n', String _ s' => drop n' s'
  | S _, EmptyString => EmptyString
  end.

(** [s.removeprefix(p)]. *)
Definition removeprefix (s p : string) : string :=
  if startswith s p then drop (String.length p) s else s.

(** [hmac.compare_digest] on two [str] arguments: it accepts ASCII strings only
    and raises [TypeError] otherwise; its constant running time is not
    modelled. *)
Definition compare_digest (a b : string) : result bool :=
  if is_ascii a && is_ascii b then Ok (String.eqb a b) else Raise TypeError.

Definition malformed_signature : exn :=
  WebhookVerificationError "Invalid signature format: missing 'sha256=' prefix".

Definition signature_mismatch : exn :=
  WebhookVerificationError "Signature mismatch".

(** [verify_challenge]. *)
Definition verify_challenge (mode token challenge verify_token : string)
  : result string :=
  if negb (mode =? "subscribe") then
    Raise (WebhookVerificationError ("Unexpected mode: " ++ mode)%string)
  else if negb (token =? verify_token) then
    Raise (WebhookVerificationError "Token mismatch")
  else Ok challenge.

Declare Scope io_scope.
Delimit Scope io_scope with io.

Section Pipeline.

(** The outbound client handed to every callback. *)
Variable WhatsAppClient : Type.

(** [hmac.new(key, msg, hashlib.sha256).digest()] and [json.loads], both
    from the Python standard library. *)
Variable hmac_sha256 : bytes -> bytes -> bytes.
Variable json_loads : bytes -> result json.

(** The calls a run of the pipeline makes, in the order it makes them; a
    call is recorded whether it returns or raises. *)
Inductive event : Type :=
| HmacNew (key msg : bytes)
| JsonLoads (body : bytes)
| FromDict (data : json)
| OnMessage (client : WhatsAppClient) (notification : WebhookNotification)
    (message : Message)
| OnStatus (client : WhatsAppClient) (notification : WebhookNotification)
    (status : Status).

(** Computations that may raise and that extend the trace of events. *)
Definition io (A : Type) : Type := list event -> result A * list event.

Definition ret {A} (a : A) : io A := fun t => (Ok a, t).

Definition raise {A} (e : exn) : io A := fun t => (Raise e, t).

Definition bind_io {A B} (m : io A) (k : A -> io B) : io B :=
  fun t =>
    match m t with
    | (Ok a, t') => k a t'
    | (Raise e, t') => (Raise e, t')
    end.

(** Make the call [ev], whose outcome is [r]. *)
Definition step {A} (ev : event) (r : result A) : io A :=
  fun t => (r, t ++ [ev]).

(** A computation that makes no recorded call. *)
Definition lift {A} (r : result A) : io A := fun t => (r, t).

Notation "x <- m ;; k" := (bind_io m (fun x => k))
  (at level 61, m at next level, right associativity) : io_scope.
Notation "m ;; k" := (bind_io m (fun _ => k))
  (at level 61, right associativity) : io_scope.

Fixpoint for_each {A} (xs : list A) (body : A -> io unit) : io unit :=
  match xs with
  | [] => ret tt
  | x :: xs' => bind_io (body x) (fun _ => for_each xs' body)
  end.

(** [verify_signature]. *)
Definition verify_signature (body : bytes) (signature app_secret : string)
  : io unit :=
  (if negb (startswith signature "sha256=") then raise malformed_signature
   else
     expected <- step (HmacNew (encode app_secret) body)
                   (Ok (hexdigest (hmac_sha256 (encode app_secret) body))) ;;
     let received := removeprefix signature "sha256=" in
     same <- lift (compare_digest expected received) ;;
     if negb same then raise signature_mismatch else ret tt)%io.

(** A callback is awaited to completion: it returns or raises.  Callbacks
    are taken not to re-register handlers on the [WebhookHandler] that is
    dispatching to them. *)
Definition MessageCallback : Type :=
  WhatsAppClient -> WebhookNotification -> Message -> result unit.

Definition StatusCallback : Type :=
  WhatsAppClient -> WebhookNotification -> Status -> result unit.

Record WebhookHandler : Type := {
  _app_secret : string;
  _client : WhatsAppClient;
  _on_message : option MessageCallback;
  _on_status : option StatusCallback
}.

(** [WebhookHandler.on_message] and [WebhookHandler.on_status]: the
    single slot is overwritten. *)
Definition on_message (self : WebhookHandler) (func : MessageCallback)
  : WebhookHandler :=
  {| _app_secret := _app_secret self;
     _client := _client self;
     _on_message := Some func;
     _on_status := _on_status self |}.

Definition on_status (self : WebhookHandler) (func : StatusCallback)
  : WebhookHandler :=
  {| _app_secret := _app_secret self;
     _client := _client self;
     _on_message := _on_message self;
     _on_status := Some func |}.

(** The body of the loop over notifications in [handle]. *)
Definition dispatch (self : WebhookHandler)
    (notification : WebhookNotification) : io unit :=
  (match _on_message self with
   | Some cb =>
       for_each (messages notification) (fun message =>
         step (OnMessage (_client self) notification message)
              (cb (_client self) notification message))
   | None => ret tt
   end ;;
   match _on_status self with
   | Some cb =>
       for_each (statuses notification) (fun status =>
         step (OnStatus (_client self) notification status)
              (cb (_client self) notification status))
   | None => ret tt
   end)%io.

(** [WebhookHandler.handle]. *)
Definition handle (self : WebhookHandler) (body : bytes)
    (signature : string) : io unit :=
  (verify_signature body signature (_app_secret self) ;;
   data <- step (JsonLoads body) (json_loads body) ;;
   notifications <- step (FromDict data) (from_dict data) ;;
   for_each notifications (dispatch self))%io.

End Pipeline.

Arguments ret {WhatsAppClient A} a.
Arguments raise {WhatsAppClient A} e.
Arguments bind_io {WhatsAppClient A B} m k.
Arguments step {WhatsAppClient A} ev r.
Arguments lift {WhatsAppClient A} r.
Arguments for_each {WhatsAppClient A} xs body.
Arguments HmacNew {WhatsAppClient} key msg.
Arguments JsonLoads {WhatsAppClient} body.
Arguments FromDict {WhatsAppClient} data.
Arguments OnMessage {WhatsAppClient} client notification message.
Arguments OnStatus {WhatsAppClient} client notification status.

(** ** Shapes of payloads

    The parser expects objects and arrays at fixed places and subscripts
    some keys directly.  [strict = true] describes the payloads that have
    every directly subscripted key; [strict = false] only asks that the
    values that are present have the expected JSON kind. *)

Definition fields : Type := list (string * json).

Definition is_object (v : json) : bool :=
  match v with
  | JObj _ => true
  | _ => false
  end.

Definition object_with (strict : bool) (keys : list string) (v : json) : bool :=
  match v with
  | JObj d => negb strict || forallb (fun k => has_key k d) keys
  | _ => false
  end.

Definition optional (k : string) (d : fields) (p : json -> bool) : bool :=
  match lookup k d with
  | Some v => p v
  | None => true
  end.

Definition required (strict : bool) (k : string) (d : fields)
    (p : json -> bool) : bool :=
  match lookup k d with
  | Some v => p v
  | None => negb strict
  end.

Definition array_of (p : json -> bool) (v : json) : bool :=
  match v with
  | JArr l => forallb p l
  | _ => false
  end.

Definition contact_shape (strict : bool) (c : json) : bool :=
  match c with
  | JObj d => required strict "wa_id" d (fun _ => true)
              && optional "profile" d is_object
  | _ => false
  end.

Definition interactive_shape (strict : bool) (i : json) : bool :=
  match i with
  | JObj f =>
      match lookup "type" f with
      | Some (JStr t) =>
          if t =? "button_reply" then
            required strict "button_reply" f (object_with strict ["id"; "title"])
          else if t =? "list_reply" then
            required strict "list_reply" f (object_with strict ["id"; "title"])
          else true
      | _ => true
      end
  | _ => false
  end.

Definition content_shape (strict : bool) (d : fields) : bool :=
  match lookup "type" d with
  | Some (JStr t) =>
      if t =? "text" then
        required strict "text" d (object_with strict ["body"])
      else if is_media_tag t then
        required strict t d (object_with strict ["id"; "mime_type"; "sha256"])
      else if t =? "location" then
        required strict "location" d
          (object_with strict ["latitude"; "longitude"])
      else if t =? "button" then
        required strict "button" d (object_with strict ["payload"; "text"])
      else if t =? "interactive" then
        required strict "interactive" d (interactive_shape strict)
      else if t =? "reaction" then
        required strict "reaction" d
          (object_with strict ["message_id"; "emoji"])
      else true
  | _ => true
  end.

Definition message_shape (strict : bool) (m : json) : bool :=
  match m with
  | JObj d =>
      optional "context" d (object_with strict ["from"; "id"])
      && required strict "id" d (fun _ => true)
      && required strict "from" d (fun _ => true)
      && required strict "timestamp" d (fun _ => true)
      && content_shape strict d
  | _ => false
  end.

Definition conversation_shape (strict : bool) (v : json) : bool :=
  match v with
  | JObj c => required strict "id" c (fun _ => true)
              && required strict "origin" c (object_with strict ["type"])
  | _ => false
  end.

(** The values over which the [errors] comprehension runs without raising:
    an array of error objects, or one of the two empty iterables that are
    not arrays. *)
Definition errors_shape (strict : bool) (v : json) : bool :=
  match v with
  | JArr l => forallb (object_with strict ["code"; "title"]) l
  | JObj [] => true
  | JStr EmptyString => true
  | _ => false
  end.

Definition required_status_keys : list string :=
  ["id"; "status"; "timestamp"; "recipient_id"].

Definition status_fields_shape (strict : bool) (d : fields) : bool :=
  optional "conversation" d (conversation_shape strict)
  && optional "pricing" d
       (object_with strict ["billable"; "pricing_model"; "category"])
  && optional "errors" d (errors_shape strict)
  && (negb strict || forallb (fun k => has_key k d) required_status_keys).

Definition status_shape (strict : bool) (s : json) : bool :=
  match s with
  | JObj d => status_fields_shape strict d
  | _ => false
  end.

Definition value_shape (strict : bool) (v : json) : bool :=
  match v with
  | JObj d =>
      optional "metadata" d is_object
      && optional "contacts" d (array_of (contact_shape strict))
      && optional "messages" d (array_of (message_shape strict))
      && optional "statuses" d (array_of (status_shape strict))
  | _ => false
  end.

Definition change_shape (strict : bool) (c : json) : bool :=
  match c with
  | JObj d => optional "value" d (value_shape strict)
  | _ => false
  end.

Definition entry_shape (strict : bool) (e : json) : bool :=
  match e with
  | JObj d => optional "changes" d (array_of (change_shape strict))
  | _ => false
  end.

Definition payload_shape (strict : bool) (data : json) : bool :=
  match data with
  | JObj d => optional "entry" d (array_of (entry_shape strict))
  | _ => false
  end.

(** The outcomes a payload of a given shape can have: a strict payload
    parses, a payload with the right kinds but missing keys parses or
    raises [KeyError]. *)
Definition admissible {A} (strict : bool) (r : result A) : Prop :=
  match r with
  | Ok _ => True
  | Raise (KeyError _) => strict = false
  | Raise _ => False
  end.

(** ** Messages *)

(** [msg.get("type", "")]. *)
Definition type_tag (m : fields) : json :=
  match lookup "type" m with
  | Some v => v
  | None => JStr ""
  end.

Definition recognized_tags : list string :=
  "text" :: media_tags ++ ["location"; "button"; "interactive"; "reaction"].

(** The legacy quick-reply envelope
    [{type: "button", button: {payload: p, text: t}}]. *)
Definition quick_reply_button (m : fields) (p t : string) : Prop :=
  exists b,
    lookup "type" m = Some (JStr "button") /\
    lookup "button" m = Some (JObj b) /\
    lookup "payload" b = Some (JStr p) /\
    lookup "text" b = Some (JStr t).

(** The interactive envelope [{type: "interactive",
    interactive: {type: "button_reply", button_reply: {id: i, title: t}}}]. *)
Definition interactive_button_reply (m : fields) (i t : string) : Prop :=
  exists ia r,
    lookup "type" m = Some (JStr "interactive") /\
    lookup "interactive" m = Some (JObj ia) /\
    lookup "type" ia = Some (JStr "button_reply") /\
    lookup "button_reply" ia = Some (JObj r) /\
    lookup "id" r = Some (JStr i) /\
    lookup "title" r = Some (JStr t).

(** A message whose [type] is no recognized tag. *)
Definition unrecognized_type (m : fields) : Prop :=
  forall t, In t recognized_tags -> type_tag m <> JStr t.

(** An interactive message whose inner [type] is neither [button_reply] nor
    [list_reply]. *)
Definition unknown_interactive (m : fields) : Prop :=
  exists ia,
    lookup "type" m = Some (JStr "interactive") /\
    lookup "interactive" m = Some (JObj ia) /\
    type_tag ia <> JStr "button_reply" /\
    type_tag ia <> JStr "list_reply".

(** A message object that lacks one of [id], [from], [timestamp], or whose
    recognized [type] names a sub-object key that is absent. *)
Definition missing_subobject (m : fields) : bool :=
  match lookup "type" m with
  | Some (JStr t) => existsb (String.eqb t) recognized_tags && negb (has_key t m)
  | _ => false
  end.

Definition message_partial (m : fields) : bool :=
  negb (has_key "id" m) || negb (has_key "from" m)
  || negb (has_key "timestamp" m) || missing_subobject m.

(** The path [entry[*].changes[*].value.messages[*]] leads to [m]. *)
Definition message_at (data : json) (m : json) : Prop :=
  exists d es e cs c v ms,
    data = JObj d /\
    lookup "entry" d = Some (JArr es) /\ In (JObj e) es /\
    lookup "changes" e = Some (JArr cs) /\ In (JObj c) cs /\
    lookup "value" c = Some (JObj v) /\
    lookup "messages" v = Some (JArr ms) /\ In m ms.

(** ** The calls a dispatch is expected to make *)

Section Calls.

Context {WhatsAppClient : Type}.

(** The handler calls for one notification: every message, then every
    status, each category only when its handler is registered. *)
Definition calls_for (self : WebhookHandler WhatsAppClient)
    (n : WebhookNotification) : list (event WhatsAppClient) :=
  match _on_message _ self with
  | Some _ => map (OnMessage (_client _ self) n) (messages n)
  | None => []
  end
  ++
  match _on_status _ self with
  | Some _ => map (OnStatus (_client _ self) n) (statuses n)
  | None => []
  end.

Definition expected_calls (self : WebhookHandler WhatsAppClient)
    (ns : list WebhookNotification) : list (event WhatsAppClient) :=
  flat_map (calls_for self) ns.

(** Every registered callback returns normally on every event of [ns]. *)
Definition handlers_return (self : WebhookHandler WhatsAppClient)
    (ns : list WebhookNotification) : Prop :=
  (forall cb n m, _on_message _ self = Some cb -> In n ns ->
                  In m (messages n) -> cb (_client _ self) n m = Ok tt) /\
  (forall cb n s, _on_status _ self = Some cb -> In n ns ->
                  In s (statuses n) -> cb (_client _ self) n s = Ok tt).


(** A computation that, from any trace, adds an initial part of the calls
    [exp x], and all of them when it returns. *)
Definition in_order {A} (body : A -> io WhatsAppClient unit)
    (exp : A -> list (event WhatsAppClient)) (x : A) : Prop :=
  forall t, exists calls,
    snd (body x t) = t ++ calls /\
    (exists rest, exp x = calls ++ rest) /\
    (fst (body x t) = Ok tt -> calls = exp x).

End Calls.

(** The notifications of one [entry]. *)
Definition notifications_of_entry (entry : json)
  : result (list WebhookNotification) :=
  changes <- py_get entry "changes" (JArr []) ;;
  change_items <- py_iter changes ;;
  mapM notification_of_change change_items.

(** The header value the provider attaches to a body: ["sha256="] followed
    by the lowercase hexadecimal HMAC-SHA256 of the body under the secret. *)
Definition sign (hmac_sha256 : bytes -> bytes -> bytes) (body : bytes)
    (secret : string) : string :=
  ("sha256=" ++ hexdigest (hmac_sha256 (encode secret) body))%string.

(** ** Sample payloads

    [_wrap_payload] is the envelope the test suite puts around a change
    value. *)
Definition _wrap_payload (value : json) : json :=
  JObj [("object", JStr "whatsapp_business_account");
        ("entry",
         JArr [JObj [("id", JStr "BIZ_ID");
                     ("changes",
                      JArr [JObj [("value", value);
                                  ("field", JStr "messages")]])]])].

Definition METADATA : json :=
  JObj [("display_phone_number", JStr "15550001111");
        ("phone_number_id", JStr "123456")].

Definition text_message : fields :=
  [("id", JStr "wamid.abc"); ("from", JStr "5511999999999");
   ("timestamp", JStr "1700000000"); ("type", JStr "text");
   ("text", JObj [("body", JStr "Hello")])].

(** The same message without its [id]. *)
Definition text_message_without_id : fields :=
  [("from", JStr "5511999999999"); ("timestamp", JStr "1700000000");
   ("type", JStr "text"); ("text", JObj [("body", JStr "Hello")])].

(** The same message again, replying to nothing: [context] is [null]. *)
Definition text_message_null_context : fields :=
  ("context", JNull) :: text_message_without_id.

Definition messages_payload (ms : list fields) : json :=
  _wrap_payload (JObj [("metadata", METADATA);
                       ("messages", JArr (map JObj ms))]).

Definition status_sent : fields :=
  [("id", JStr "wamid.status1"); ("status", JStr "sent");
   ("timestamp", JStr "1700000000");
   ("recipient_id", JStr "5511999999999");
   ("conversation",
    JObj [("id", JStr "conv_123");
          ("origin", JObj [("type", JStr "business_initiated")])]);
   ("pricing",
    JObj [("billable", JBool true); ("pricing_model", JStr "CBP");
          ("category", JStr "business_initiated")])].

Definition status_failed : fields :=
  [("id", JStr "wamid.fail"); ("status", JStr "failed");
   ("timestamp", JStr "1700000000");
   ("recipient_id", JStr "5511999999999");
   ("errors",
    JArr [JObj [("code", JInt 131047);
                ("title", JStr "Message failed to send")]])].

(** A status with its four required keys whose [conversation] has no
    [origin]. *)
Definition status_conversation_without_origin : fields :=
  [("id", JStr "wamid.status1"); ("status", JStr "sent");
   ("timestamp", JStr "1700000000");
   ("recipient_id", JStr "5511999999999");
   ("conversation", JObj [("id", JStr "conv_123")])].

(** ** Dispatch as a run over a list of calls *)

Section Runs.

Context {WhatsAppClient : Type}.

(** What awaiting the callback behind a call gives. *)
Definition call_outcome (self : WebhookHandler WhatsAppClient)
    (ev : event WhatsAppClient) : result unit :=
  match ev with
  | OnMessage c n m =>
      match _on_message _ self with
      | Some cb => cb c n m
      | None => Ok tt
      end
  | OnStatus c n s =>
      match _on_status _ self with
      | Some cb => cb c n s
      | None => Ok tt
      end
  | _ => Ok tt
  end.

(** Make the calls one after the other and stop at the first that raises. *)
Fixpoint run_calls (self : WebhookHandler WhatsAppClient)
    (evs : list (event WhatsAppClient)) : io WhatsAppClient unit :=
  match evs with
  | [] => ret tt
  | ev :: evs' =>
      bind_io (step ev (call_outcome self ev)) (fun _ => run_calls self evs')
  end.

End Runs.

(** ** A secret that [str.encode()] rejects

    A [str] may hold surrogate code points (U+D800 to U+DFFF): this is what
    [os.fsdecode] gives for bytes that are not UTF-8.  Such a [str] has no
    UTF-8 encoding and [str.encode()] raises [UnicodeEncodeError] on it.  It
    is represented here by the bytes that the [surrogatepass] error handler
    writes for it, a surrogate being the three bytes [ED], [A0..BF],
    [80..BF].  No UTF-8 encoding holds [ED] followed by a byte above [9F], so
    the representation of the other strings is unchanged and a string holds
    a surrogate exactly when [has_surrogate] finds one. *)

Fixpoint has_surrogate (s : string) : bool :=
  match s with
  | EmptyString => false
  | String c s' =>
      match s' with
      | String c' _ =>
          (nat_of_ascii c =? 237)%nat
          && (160 <=? nat_of_ascii c')%nat && (nat_of_ascii c' <=? 191)%nat
      | EmptyString => false
      end
      || has_surrogate s'
  end.

(** [s.encode()], with its failure. *)
Definition str_encode (s : string) : result bytes :=
  if has_surrogate s then Raise UnicodeEncodeError else Ok (encode s).

(** What [os.fsdecode(b"\xff")] returns: the lone surrogate U+DCFF. *)
Definition fsdecoded_ff : string :=
  String "237" (String "179" (String "191" EmptyString)).

Section AnySecret.

Variable WhatsAppClient : Type.
Variable hmac_sha256 : bytes -> bytes -> bytes.

Notation "x <- m ;; k" := (bind_io m (fun x => k))
  (at level 61, m at next level, right associativity) : io_scope.

(** [verify_signature] for any secret: [app_secret.encode()] is evaluated
    after the prefix test and before [hmac.new] is called, and may raise. *)
Definition verify_signature_full (body : bytes) (signature app_secret : string)
  : io WhatsAppClient unit :=
  (if negb (startswith signature "sha256=") then raise malformed_signature
   else
     key <- lift (str_encode app_secret) ;;
     expected <- step (HmacNew key body)
                   (Ok (hexdigest (hmac_sha256 key body))) ;;
     let received := removeprefix signature "sha256=" in
     same <- lift (compare_digest expected received) ;;
     if negb same then raise signature_mismatch else ret tt)%io.

End AnySecret.

(** ** Where the parser looks in a payload *)

(** The array under [k], empty when the key is missing or holds another
    value. *)
Definition array_at (k : string) (d : fields) : list json :=
  match lookup k d with
  | Some (JArr l) => l
  | _ => []
  end.

(** The fields of the object under [k], none when the key is missing or
    holds another value. *)
Definition object_at (k : string) (d : fields) : fields :=
  match lookup k d with
  | Some (JObj f) => f
  | _ => []
  end.

Definition changes_of_entry (e : json) : list json :=
  match e with
  | JObj f => array_at "changes" f
  | _ => []
  end.

(** Every change of every entry, in payload order. *)
Definition all_changes (d : fields) : list json :=
  flat_map changes_of_entry (array_at "entry" d).

(** A payload that holds the entries [es] and nothing else. *)
Definition entries_payload (es : list json) : json :=
  JObj [("entry", JArr es)].

(** [d.get(k)] on a [dict]: the value, or [None]. *)
Definition get_or_none (k : string) (d : fields) : json :=
  match lookup k d with
  | Some v => v
  | None => JNull
  end.

(** ** The API error ([_exceptions.py]) *)

(** [d.get(k, default)] on a [dict]. *)
Definition get_or (k : string) (default : json) (d : fields) : json :=
  match lookup k d with
  | Some v => v
  | None => default
  end.

(** [WhatsAppAPIError]: the status code is the caller's [int], the other
    fields hold what the error envelope had. *)
Record WhatsAppAPIError : Type := {
  api_status_code : Z;
  api_error_code : json;
  api_error_type : json;
  api_message : json;
  api_error_subcode : json;
  api_fbtrace_id : json;
  api_details : json
}.

(** [WhatsAppAPIError.from_response]. *)
Definition from_response (status_code : Z) (body : json)
  : result WhatsAppAPIError :=
  error <- py_get body "error" (JObj []) ;;
  error_data <- py_get error "error_data" (JObj []) ;;
  code <- py_get error "code" (JInt 0) ;;
  type <- py_get error "type" (JStr "unknown") ;;
  message <- py_get error "message" (JStr "Unknown error") ;;
  subcode <- py_get error "error_subcode" JNull ;;
  fbtrace <- py_get error "fbtrace_id" JNull ;;
  details <- py_get error_data "details" JNull ;;
  Ok {| api_status_code := status_code;
        api_error_code := code;
        api_error_type := type;
        api_message := message;
        api_error_subcode := subcode;
        api_fbtrace_id := fbtrace;
        api_details := details |}.

(** The envelopes [from_response] reads without raising: an object whose
    [error], if present, is an object whose [error_data], if present, is an
    object. *)
Definition envelope_shape (body : json) : bool :=
  match body with
  | JObj d =>
      optional "error" d (fun e =>
        match e with
        | JObj f => optional "error_data" f is_object
        | _ => false
        end)
  | _ => false
  end.

(** ** The outbound client ([_types.py], [_client.py]) *)

(** [d[k] = v] on a [dict]: an existing key keeps its place. *)
Fixpoint dict_set (k : string) (v : json) (d : fields) : fields :=
  match d with
  | [] => [(k, v)]
  | (k', v') :: d' =>
      if String.eqb k k' then (k, v) :: d' else (k', v') :: dict_set k v d'
  end.

(** [if v is not None: d[k] = v] for an optional [str]. *)
Definition set_if_given (k : string) (v : option string) (d : fields)
  : fields :=
  match v with
  | Some s => dict_set k (JStr s) d
  | None => d
  end.

(** An optional [str] as a value: [None] is [null]. *)
Definition json_of_option (v : option string) : json :=
  match v with
  | Some s => JStr s
  | None => JNull
  end.

(** [str(i)] for an [int]. *)
Definition py_str_int (i : Z) : string :=
  DecimalString.NilEmpty.string_of_int (Z.to_int i).

Inductive TemplateParameter : Type :=
| TemplateTextParameter (text : string)
| TemplateImageParameter (link : string)
| TemplateVideoParameter (link : string)
| TemplateDocumentParameter (link : string) (filename : option string).

Inductive TemplateComponent : Type :=
| TemplateHeaderComponent (parameters : list TemplateParameter)
| TemplateBodyComponent (parameters : list TemplateParameter)
| TemplateButtonComponent (sub_type : string) (index : Z)
    (parameters : list TemplateParameter).

Record TemplateLanguage : Type := {
  language_code : string
}.

Record Template : Type := {
  template_name : string;
  template_language : TemplateLanguage;
  template_components : option (list TemplateComponent)
}.

Record ReplyButton : Type := {
  button_id : string;
  button_title : string
}.

Record ListRow : Type := {
  row_id : string;
  row_title : string;
  row_description : option string
}.

Record ListSection : Type := {
  section_title : string;
  section_rows : list ListRow
}.

Record ContactName : Type := {
  formatted_name : string;
  first_name : option string;
  last_name : option string;
  middle_name : option string;
  name_suffix : option string;
  name_prefix : option string
}.

Record ContactPhone : Type := {
  phone : string;
  phone_type : string;
  phone_wa_id : option string
}.

Record ContactEmail : Type := {
  email : string;
  email_type : string
}.

Record ContactAddress : Type := {
  street : option string;
  city : option string;
  state : option string;
  zip : option string;
  country : option string;
  country_code : option string;
  address_type : string
}.

Record ContactUrl : Type := {
  url : string;
  url_type : string
}.

Record ContactOrg : Type := {
  company : option string;
  department : option string;
  org_title : option string
}.

Record ContactInfo : Type := {
  info_name : ContactName;
  info_phones : option (list ContactPhone);
  info_emails : option (list ContactEmail);
  info_addresses : option (list ContactAddress);
  info_urls : option (list ContactUrl);
  info_org : option ContactOrg;
  info_birthday : option string
}.

(** [WhatsAppClient._serialize_parameter]. *)
Definition _serialize_parameter (param : TemplateParameter) : json :=
  match param with
  | TemplateTextParameter text =>
      JObj [("type", JStr "text"); ("text", JStr text)]
  | TemplateImageParameter link =>
      JObj [("type", JStr "image"); ("image", JObj [("link", JStr link)])]
  | TemplateVideoParameter link =>
      JObj [("type", JStr "video"); ("video", JObj [("link", JStr link)])]
  | TemplateDocumentParameter link filename =>
      let doc := set_if_given "filename" filename [("link", JStr link)] in
      JObj [("type", JStr "document"); ("document", JObj doc)]
  end.

(** [WhatsAppClient._serialize_component]. *)
Definition _serialize_component (component : TemplateComponent) : json :=
  match component with
  | TemplateHeaderComponent parameters =>
      JObj [("type", JStr "header");
            ("parameters", JArr (map _serialize_parameter parameters))]
  | TemplateBodyComponent parameters =>
      JObj [("type", JStr "body");
            ("parameters", JArr (map _serialize_parameter parameters))]
  | TemplateButtonComponent sub_type index parameters =>
      JObj [("type", JStr "button");
            ("sub_type", JStr sub_type);
            ("index", JStr (py_str_int index));
            ("parameters", JArr (map _serialize_parameter parameters))]
  end.

(** [dataclasses.asdict] on the contact dataclasses: every field in
    declaration order, nested dataclasses and lists converted in turn, an
    unset optional field as [None]. *)
Definition asdict_name (n : ContactName) : fields :=
  [("formatted_name", JStr (formatted_name n));
   ("first_name", json_of_option (first_name n));
   ("last_name", json_of_option (last_name n));
   ("middle_name", json_of_option (middle_name n));
   ("suffix", json_of_option (name_suffix n));
   ("prefix", json_of_option (name_prefix n))].

Definition asdict_phone (p : ContactPhone) : fields :=
  [("phone", JStr (phone p)); ("type", JStr (phone_type p));
   ("wa_id", json_of_option (phone_wa_id p))].

Definition asdict_email (e : ContactEmail) : fields :=
  [("email", JStr (email e)); ("type", JStr (email_type e))].

Definition asdict_address (a : ContactAddress) : fields :=
  [("street", json_of_option (street a));
   ("city", json_of_option (city a));
   ("state", json_of_option (state a));
   ("zip", json_of_option (zip a));
   ("country", json_of_option (country a));
   ("country_code", json_of_option (country_code a));
   ("type", JStr (address_type a))].

Definition asdict_url (u : ContactUrl) : fields :=
  [("url", JStr (url u)); ("type", JStr (url_type u))].

Definition asdict_org (o : ContactOrg) : fields :=
  [("company", json_of_option (company o));
   ("department", json_of_option (department o));
   ("title", json_of_option (org_title o))].

Definition asdict_list {A} (f : A -> fields) (l : option (list A)) : json :=
  match l with
  | Some xs => JArr (map (fun x => JObj (f x)) xs)
  | None => JNull
  end.

Definition asdict (c : ContactInfo) : fields :=
  [("name", JObj (asdict_name (info_name c)));
   ("phones", asdict_list asdict_phone (info_phones c));
   ("emails", asdict_list asdict_email (info_emails c));
   ("addresses", asdict_list asdict_address (info_addresses c));
   ("urls", asdict_list asdict_url (info_urls c));
   ("org", match info_org c with
           | Some o => JObj (asdict_org o)
           | None => JNull
           end);
   ("birthday", json_of_option (info_birthday c))].

Definition is_none (v : json) : bool :=
  match v with
  | JNull => true
  | _ => false
  end.

(** [WhatsAppClient._serialize_contact]. *)
Definition _serialize_contact (contact : ContactInfo) : json :=
  let raw := asdict contact in
  JObj (filter (fun kv => negb (is_none (snd kv))) raw).

(** No [null] at any depth. *)
Fixpoint no_null (v : json) : bool :=
  match v with
  | JNull => false
  | JArr l => forallb no_null l
  | JObj d => forallb (fun kv => no_null (snd kv)) d
  | _ => true
  end.

(** *** Requests and responses *)

(** A Python [float], as mantissa and binary exponent. *)
Record float : Type := {
  float_mantissa : Z;
  float_exponent : Z
}.

Definition json_of_float (x : float) : json :=
  JFloat (float_mantissa x) (float_exponent x).

(** What is handed to the HTTP client: the method, the URL and the [json=]
    argument. *)
Record request : Type := {
  request_method : string;
  request_url : string;
  request_json : option json
}.

(** What comes back: the status code and what [response.json()] gives. *)
Record http_response : Type := {
  status_code : Z;
  response_json : result json
}.

Record Contact : Type := {
  contact_input : json;
  contact_wa_id : json
}.

Record MessageId : Type := {
  sent_id : json
}.

Record MessageResponse : Type := {
  response_messaging_product : json;
  response_contacts : list Contact;
  response_messages : list MessageId
}.

(** How a call of the client ends: it returns, or raises a Python exception,
    or raises [WhatsAppAPIError]. *)
Inductive outcome (A : Type) : Type :=
| Returned (a : A)
| Raised (e : exn)
| RaisedAPI (err : WhatsAppAPIError).

Arguments Returned {A} a.
Arguments Raised {A} e.
Arguments RaisedAPI {A} err.

Definition outcome_of {A} (r : result A) : outcome A :=
  match r with
  | Ok a => Returned a
  | Raise e => Raised e
  end.

(** The first three lines of [_send], which change the payload in place:
    the product is set, and the recipient type when the recipient is a
    group. *)
Definition prepare_payload (payload : fields) : result fields :=
  let payload := dict_set "messaging_product" (JStr "whatsapp") payload in
  to <- py_get (JObj payload) "to" (JStr "") ;;
  is_group <- py_contains "@g.us" to ;;
  Ok (if is_group : bool
      then dict_set "recipient_type" (JStr "group") payload
      else payload).

Definition parse_response_contact (c : json) : result Contact :=
  input <- py_getitem c "input" ;;
  wa <- py_getitem c "wa_id" ;;
  Ok {| contact_input := input; contact_wa_id := wa |}.

Definition parse_response_message (m : json) : result MessageId :=
  id <- py_getitem m "id" ;;
  Ok {| sent_id := id |}.

(** The [MessageResponse] that [_send] builds from a decoded body. *)
Definition message_response_of (data : json) : result MessageResponse :=
  product <- py_getitem data "messaging_product" ;;
  cs <- py_getitem data "contacts" ;;
  cs_items <- py_iter cs ;;
  contacts <- mapM parse_response_contact cs_items ;;
  ms <- py_getitem data "messages" ;;
  ms_items <- py_iter ms ;;
  messages <- mapM parse_response_message ms_items ;;
  Ok {| response_messaging_product := product;
        response_contacts := contacts;
        response_messages := messages |}.

(** What both [_send] and [_api] do with a response: a status of 400 or
    more becomes a [WhatsAppAPIError] built from the decoded body, any other
    status gives the decoded body. *)
Definition decoded_or_api_error (response : http_response) : outcome json :=
  if (400 <=? status_code response)%Z then
    match response_json response with
    | Raise e => Raised e
    | Ok body =>
        match from_response (status_code response) body with
        | Raise e => Raised e
        | Ok err => RaisedAPI err
        end
    end
  else outcome_of (response_json response).

Section Client.

(** The HTTP client: a request gets a response, or the transport raises. *)
Variable http : request -> result http_response.

(** A call of the client gives an outcome and adds the requests it made to
    those made before. *)
Definition sent (A : Type) : Type := list request -> outcome A * list request.

(** [WhatsAppClient._send]. *)
Definition _send (payload : fields) : sent MessageResponse :=
  fun made =>
    match prepare_payload payload with
    | Raise e => (Raised e, made)
    | Ok payload =>
        let req := {| request_method := "POST";
                      request_url := "/messages";
                      request_json := Some (JObj payload) |} in
        (match http req with
         | Raise e => Raised e
         | Ok response =>
             match decoded_or_api_error response with
             | Returned data => outcome_of (message_response_of data)
             | Raised e => Raised e
             | RaisedAPI err => RaisedAPI err
             end
         end,
         made ++ [req])
    end.

End Client.

(** *** The payloads of the send methods *)

Definition send_text_payload (to body : string) (preview_url : bool)
  : fields :=
  [("to", JStr to); ("type", JStr "text");
   ("text", JObj [("body", JStr body); ("preview_url", JBool preview_url)])].

Definition send_image_payload (to link : string) (caption : option string)
  : fields :=
  let image := set_if_given "caption" caption [("link", JStr link)] in
  [("to", JStr to); ("type", JStr "image"); ("image", JObj image)].

Definition send_audio_payload (to link : string) : fields :=
  [("to", JStr to); ("type", JStr "audio");
   ("audio", JObj [("link", JStr link)])].

Definition send_video_payload (to link : string) (caption : option string)
  : fields :=
  let video := set_if_given "caption" caption [("link", JStr link)] in
  [("to", JStr to); ("type", JStr "video"); ("video", JObj video)].

Definition send_document_payload (to link : string)
    (caption filename : option string) : fields :=
  let document := set_if_given "caption" caption [("link", JStr link)] in
  let document := set_if_given "filename" filename document in
  [("to", JStr to); ("type", JStr "document"); ("document", JObj document)].

Definition send_sticker_payload (to link : string) : fields :=
  [("to", JStr to); ("type", JStr "sticker");
   ("sticker", JObj [("link", JStr link)])].

Definition send_location_payload (to : string) (latitude longitude : float)
    (name address : option string) : fields :=
  let location := [("latitude", json_of_float latitude);
                   ("longitude", json_of_float longitude)] in
  let location := set_if_given "name" name location in
  let location := set_if_given "address" address location in
  [("to", JStr to); ("type", JStr "location"); ("location", JObj location)].

Definition send_contacts_payload (to : string) (contacts : list ContactInfo)
  : fields :=
  [("to", JStr to); ("type", JStr "contacts");
   ("contacts", JArr (map _serialize_contact contacts))].

Definition send_template_payload (to : string) (template : Template)
  : fields :=
  let tmpl :=
    [("name", JStr (template_name template));
     ("language",
      JObj [("code", JStr (language_code (template_language template)))])] in
  let tmpl :=
    match template_components template with
    | Some components =>
        dict_set "components" (JArr (map _serialize_component components)) tmpl
    | None => tmpl
    end in
  [("to", JStr to); ("type", JStr "template"); ("template", JObj tmpl)].

(** [if header is not None: ...; if footer is not None: ...], shared by
    [send_buttons] and [send_list]. *)
Definition with_header_footer (header footer : option string)
    (interactive : fields) : fields :=
  let interactive :=
    match header with
    | Some h =>
        dict_set "header" (JObj [("type", JStr "text"); ("text", JStr h)])
          interactive
    | None => interactive
    end in
  match footer with
  | Some f => dict_set "footer" (JObj [("text", JStr f)]) interactive
  | None => interactive
  end.

Definition serialize_button (b : ReplyButton) : json :=
  JObj [("type", JStr "reply");
        ("reply", JObj [("id", JStr (button_id b));
                        ("title", JStr (button_title b))])].

Definition send_buttons_payload (to body : string)
    (buttons : list ReplyButton) (header footer : option string) : fields :=
  let action := [("buttons", JArr (map serialize_button buttons))] in
  let interactive :=
    [("type", JStr "button"); ("body", JObj [("text", JStr body)]);
     ("action", JObj action)] in
  let interactive := with_header_footer header footer interactive in
  [("to", JStr to); ("type", JStr "interactive");
   ("interactive", JObj interactive)].

Definition serialize_row (row : ListRow) : json :=
  JObj (set_if_given "description" (row_description row)
          [("id", JStr (row_id row)); ("title", JStr (row_title row))]).

Definition serialize_section (section : ListSection) : json :=
  JObj [("title", JStr (section_title section));
        ("rows", JArr (map serialize_row (section_rows section)))].

Definition send_list_payload (to body button_text : string)
    (sections : list ListSection) (header footer : option string) : fields :=
  let serialized_sections := map serialize_section sections in
  let interactive :=
    [("type", JStr "list"); ("body", JObj [("text", JStr body)]);
     ("action", JObj [("button", JStr button_text);
                      ("sections", JArr serialized_sections)])] in
  let interactive := with_header_footer header footer interactive in
  [("to", JStr to); ("type", JStr "interactive");
   ("interactive", JObj interactive)].

(** The payloads the public send methods hand to [_send], with their
    recipient and their [type]. *)
Inductive built_by_send : string -> string -> fields -> Prop :=
| by_send_text to body preview_url :
    built_by_send to "text" (send_text_payload to body preview_url)
| by_send_image to link caption :
    built_by_send to "image" (send_image_payload to link caption)
| by_send_audio to link :
    built_by_send to "audio" (send_audio_payload to link)
| by_send_video to link caption :
    built_by_send to "video" (send_video_payload to link caption)
| by_send_document to link caption filename :
    built_by_send to "document"
      (send_document_payload to link caption filename)
| by_send_sticker to link :
    built_by_send to "sticker" (send_sticker_payload to link)
| by_send_location to latitude longitude name address :
    built_by_send to "location"
      (send_location_payload to latitude longitude name address)
| by_send_contacts to contacts :
    built_by_send to "contacts" (send_contacts_payload to contacts)
| by_send_template to template :
    built_by_send to "template" (send_template_payload to template)
| by_send_buttons to body buttons header footer :
    built_by_send to "interactive"
      (send_buttons_payload to body buttons header footer)
| by_send_list to body button_text sections header footer :
    built_by_send to "interactive"
      (send_list_payload to body button_text sections header footer).

(** The request [_send] makes for a prepared payload. *)
Definition messages_request (payload : fields) : request :=
  {| request_method := "POST";
     request_url := "/messages";
     request_json := Some (JObj payload) |}.

(** *** Group management *)

Record WhatsAppClient : Type := {
  _phone_number_id : string;
  _access_token : string;
  _base_url : string
}.

Record GroupSummary : Type := {
  group_summary_id : json;
  group_summary_subject : json
}.

Definition parse_group_summary (g : json) : result GroupSummary :=
  id <- py_getitem g "id" ;;
  subject <- py_getitem g "subject" ;;
  Ok {| group_summary_id := id; group_summary_subject := subject |}.

Section GroupCalls.

Variable http : request -> result http_response.

(** The request [_api] makes. *)
Definition api_request (self : WhatsAppClient) (method path : string)
    (body : option json) : request :=
  {| request_method := method;
     request_url := (_base_url self ++ "/" ++ path)%string;
     request_json := body |}.

(** [WhatsAppClient._api]. *)
Definition _api (self : WhatsAppClient) (method path : string)
    (body : option json) : sent json :=
  fun made =>
    let req := api_request self method path body in
    (match http req with
     | Raise e => Raised e
     | Ok response => decoded_or_api_error response
     end,
     made ++ [req]).

(** [WhatsAppClient.get_groups]. *)
Definition get_groups (self : WhatsAppClient) : sent (list GroupSummary) :=
  fun made =>
    match _api self "GET" (_phone_number_id self ++ "/groups")%string None made
    with
    | (Returned data, made') =>
        (outcome_of (groups <- py_get data "data" (JArr []) ;;
                     items <- py_iter groups ;;
                     mapM parse_group_summary items),
         made')
    | (Raised e, made') => (Raised e, made')
    | (RaisedAPI err, made') => (RaisedAPI err, made')
    end.

(** The payload of [update_group]. *)
Definition update_group_payload (subject description : option string)
  : fields :=
  let payload := set_if_given "subject" subject [] in
  set_if_given "description" description payload.

(** [WhatsAppClient.update_group]. *)
Definition update_group (self : WhatsAppClient) (group_id : string)
    (subject description : option string) : sent unit :=
  fun made =>
    match _api self "POST" group_id
            (Some (JObj (update_group_payload subject description))) made
    with
    | (Returned _, made') => (Returned tt, made')
    | (Raised e, made') => (Raised e, made')
    | (RaisedAPI err, made') => (RaisedAPI err, made')
    end.

End GroupCalls.

(** * Properties *)

(** ** The cases of the test suite *)

Example test_text :
  from_dict (messages_payload [text_message])
  = Ok [ {| metadata := {| display_phone_number := JStr "15550001111";
                           phone_number_id := JStr "123456" |};
            contacts := [];
            messages := [ {| message_id := JStr "wamid.abc";
                             message_from_ := JStr "5511999999999";
                             message_timestamp := JStr "1700000000";
                             message_type := JStr "text";
                             message_content := TextContent (JStr "Hello");
                             message_context := None |} ];
            statuses := [] |} ].
Proof. reflexivity. Qed.

Example test_status_sent :
  _parse_status (JObj status_sent)
  = Ok {| status_id := JStr "wamid.status1";
          status_status := JStr "sent";
          status_timestamp := JStr "1700000000";
          status_recipient_id := JStr "5511999999999";
          status_conversation :=
            Some {| conversation_id := JStr "conv_123";
                    conversation_origin :=
                      {| origin_type := JStr "business_initiated" |} |};
          status_pricing :=
            Some {| billable := JBool true; pricing_model := JStr "CBP";
                    category := JStr "business_initiated" |};
          status_errors := None |}.
Proof. reflexivity. Qed.

Example test_status_with_errors :
  _parse_status (JObj status_failed)
  = Ok {| status_id := JStr "wamid.fail";
          status_status := JStr "failed";
          status_timestamp := JStr "1700000000";
          status_recipient_id := JStr "5511999999999";
          status_conversation := None;
          status_pricing := None;
          status_errors :=
            Some [ {| error_code := JInt 131047;
                      error_title := JStr "Message failed to send" |} ] |}.
Proof. reflexivity. Qed.

Example test_invalid_signature :
  verify_signature unit (fun key msg => msg) (encode "body") "sha256=bad"
    "test_app_secret" []
  = (Raise signature_mismatch,
     [HmacNew (encode "test_app_secret") (encode "body")]).
Proof. reflexivity. Qed.

(** ** The error monad and the loops *)

Lemma bind_ok {A B} (r : result A) (k : A -> result B) (b : B) :
  bind r k = Ok b -> exists a, r = Ok a /\ k a = Ok b.
Proof.
  destruct r as [a|e]; simpl; intros H; [eauto | discriminate].
Qed.

Lemma mapM_ok_Forall2 {A B} (f : A -> result B) xs ys :
  mapM f xs = Ok ys <-> Forall2 (fun x y => f x = Ok y) xs ys.
Proof.
  revert ys. induction xs as [|x xs IH]; intros ys; simpl.
  - split; intros H.
    + injection H as <-. constructor.
    + inversion H. reflexivity.
  - split; intros H.
    + apply bind_ok in H as (y & Hy & H).
      apply bind_ok in H as (ys' & Hys & H).
      injection H as <-. constructor; [assumption | now apply IH].
    + inversion H as [|? y ? ys' Hy Hys]; subst.
      rewrite Hy. simpl. apply IH in Hys. rewrite Hys. reflexivity.
Qed.

Lemma mapM_raises_at {A B} (f : A -> result B) xs x :
  In x xs -> (exists e, f x = Raise e) -> exists e, mapM f xs = Raise e.
Proof.
  induction xs as [|y xs IH]; simpl; [tauto|].
  intros [->|Hin] Hx.
  - destruct Hx as [e ->]. simpl. eauto.
  - destruct (f y); simpl; [|eauto].
    destruct (IH Hin Hx) as [e ->]. simpl. eauto.
Qed.

Lemma mapM_admissible {A B} strict (f : A -> result B) xs :
  Forall (fun x => admissible strict (f x)) xs -> admissible strict (mapM f xs).
Proof.
  induction 1 as [|x xs Hx _ IH]; simpl; [exact I|].
  destruct (f x); simpl; [|exact Hx].
  destruct (mapM f xs); simpl; [exact I | exact IH].
Qed.

Lemma bind_admissible {A B} strict (r : result A) (k : A -> result B) :
  admissible strict r -> (forall a, r = Ok a -> admissible strict (k a)) ->
  admissible strict (bind r k).
Proof.
  destruct r; simpl; auto.
Qed.

(** The loop that appends one parsed item per element is the comprehension
    appended to the accumulator. *)
Lemma for_in_append {A B} (f : A -> result B) xs acc :
  for_in xs acc (fun acc x => y <- f x ;; Ok (acc ++ [y])) =
  (ys <- mapM f xs ;; Ok (acc ++ ys)).
Proof.
  revert acc. induction xs as [|x xs IH]; intros acc; simpl.
  - now rewrite app_nil_r.
  - destruct (f x) as [y|e]; simpl; [|reflexivity].
    rewrite IH. destruct (mapM f xs); simpl; [|reflexivity].
    now rewrite <- app_assoc.
Qed.

Lemma for_in_nested {A B} (g : A -> result (list B)) xs (acc : list B) :
  for_in xs acc (fun acc x => ys <- g x ;; Ok (acc ++ ys)) =
  (yss <- mapM g xs ;; Ok (acc ++ List.concat yss)).
Proof.
  revert acc. induction xs as [|x xs IH]; intros acc; simpl.
  - now rewrite app_nil_r.
  - destruct (g x) as [ys|e]; simpl; [|reflexivity].
    rewrite IH. destruct (mapM g xs); simpl; [|reflexivity].
    now rewrite <- app_assoc.
Qed.

Lemma for_in_ext {A S} (xs : list A) (acc : S) body body' :
  (forall s x, body s x = body' s x) ->
  for_in xs acc body = for_in xs acc body'.
Proof.
  intros E. revert acc. induction xs as [|x xs IH]; intros acc; simpl.
  - reflexivity.
  - rewrite E. destruct (body' acc x); simpl; auto.
Qed.

(** [from_dict] as two nested comprehensions. *)
Lemma from_dict_unfold data :
  from_dict data =
  (entries <- py_get data "entry" (JArr []) ;;
   entry_items <- py_iter entries ;;
   nss <- mapM notifications_of_entry entry_items ;;
   Ok (List.concat nss)).
Proof.
  unfold from_dict.
  destruct (py_get data "entry" (JArr [])) as [entries|]; simpl; [|reflexivity].
  destruct (py_iter entries) as [items|]; simpl; [|reflexivity].
  change (nss <- mapM notifications_of_entry items ;; Ok (List.concat nss))
    with (nss <- mapM notifications_of_entry items ;; Ok ([] ++ List.concat nss)).
  rewrite <- (for_in_nested notifications_of_entry items []).
  apply for_in_ext. intros s x. unfold notifications_of_entry.
  destruct (py_get x "changes" (JArr [])) as [changes|]; simpl; [|reflexivity].
  destruct (py_iter changes) as [cs|]; simpl; [|reflexivity].
  apply for_in_append.
Qed.

(** ** Content parsing *)

Lemma py_get_type_tag m : py_get (JObj m) "type" (JStr "") = Ok (type_tag m).
Proof.
  unfold py_get, type_tag. destruct (lookup "type" m); reflexivity.
Qed.

Lemma eqb_false_of_neq (v : json) (t s : string) :
  v = JStr t -> v <> JStr s -> (t =? s) = false.
Proof.
  intros -> H. destruct (String.eqb_spec t s) as [->|]; [now elim H | reflexivity].
Qed.

(** C6. Both the legacy quick-reply envelope
    [{type: "button", button: {payload: p, text: t}}] and the interactive
    envelope [{type: "interactive", interactive: {type: "button_reply",
    button_reply: {id: p, title: t}}}] parse to the one content variant
    [ButtonReplyContent(id=p, title=t)], for all strings [p] and [t]. *)
Theorem button_reply_normalised (m : fields) (p t : string) :
  quick_reply_button m p t \/ interactive_button_reply m p t ->
  _parse_content (JObj m) = Ok (ButtonReplyContent (JStr p) (JStr t)).
Proof.
  intros [(b & Hty & Hb & Hp & Ht) | (ia & r & Hty & Hia & Hity & Hr & Hi & Ht)];
    unfold _parse_content; rewrite py_get_type_tag; unfold type_tag;
    rewrite Hty; cbn.
  - rewrite Hb. cbn. rewrite Hp. cbn. rewrite Ht. reflexivity.
  - rewrite Hia. cbn. rewrite Hity. cbn. rewrite Hr. cbn.
    rewrite Hi. cbn. rewrite Ht. reflexivity.
Qed.

Lemma button_reply_normalised_witness :
  _parse_content
    (JObj [("id", JStr "wamid.qr"); ("from", JStr "5511999999999");
           ("timestamp", JStr "1700000000"); ("type", JStr "button");
           ("button", JObj [("payload", JStr "btn_payload");
                            ("text", JStr "Quick Reply")])])
  = Ok (ButtonReplyContent (JStr "btn_payload") (JStr "Quick Reply"))
  /\
  _parse_content
    (JObj [("id", JStr "wamid.btn"); ("from", JStr "5511999999999");
           ("timestamp", JStr "1700000000"); ("type", JStr "interactive");
           ("interactive",
            JObj [("type", JStr "button_reply");
                  ("button_reply", JObj [("id", JStr "btn_1");
                                         ("title", JStr "Yes")])])])
  = Ok (ButtonReplyContent (JStr "btn_1") (JStr "Yes")).
Proof.
  split; apply button_reply_normalised.
  - left. eexists. repeat split; reflexivity.
  - right. do 2 eexists. repeat split; reflexivity.
Defined.

(** C7. A message object whose [type] is not a recognized tag, and an
    interactive message whose inner [type] is neither [button_reply] nor
    [list_reply], parse to [UnsupportedContent(raw=msg)] where [raw] is the
    input message object itself. *)
Theorem unsupported_keeps_raw (m : fields) :
  unrecognized_type m \/ unknown_interactive m ->
  _parse_content (JObj m) = Ok (UnsupportedContent (JObj m)).
Proof.
  intros [H | (ia & Hty & Hia & Hb & Hl)];
    unfold _parse_content; rewrite py_get_type_tag.
  - destruct (type_tag m) as [| | | |t| |] eqn:E; cbn; try reflexivity.
    assert (N : forall s, In s recognized_tags -> (t =? s) = false).
    { intros s Hs. apply (eqb_false_of_neq (type_tag m)); [exact E|].
      now apply H. }
    unfold is_media_tag. cbn.
    rewrite !N by (cbn; tauto). reflexivity.
  - unfold type_tag at 1. rewrite Hty. cbn. rewrite Hia. cbn.
    unfold type_tag in Hb, Hl.
    destruct (lookup "type" ia) as [[| | | |t| |]|]; cbn; try reflexivity.
    rewrite (eqb_false_of_neq _ _ _ eq_refl Hb),
      (eqb_false_of_neq _ _ _ eq_refl Hl).
    reflexivity.
Qed.

Lemma unsupported_keeps_raw_witness :
  let unknown :=
    [("id", JStr "wamid.unk"); ("from", JStr "5511999999999");
     ("timestamp", JStr "1700000000"); ("type", JStr "contacts");
     ("contacts", JArr [JObj []])] in
  let inner :=
    [("id", JStr "wamid.unk2"); ("from", JStr "5511999999999");
     ("timestamp", JStr "1700000000"); ("type", JStr "interactive");
     ("interactive", JObj [("type", JStr "unknown_type")])] in
  _parse_content (JObj unknown) = Ok (UnsupportedContent (JObj unknown)) /\
  _parse_content (JObj inner) = Ok (UnsupportedContent (JObj inner)).
Proof.
  split; apply unsupported_keeps_raw.
  - left. intros t Ht. cbn in Ht.
    repeat (destruct Ht as [<-|Ht]; [discriminate|]). destruct Ht.
  - right. eexists. repeat split; try reflexivity; discriminate.
Defined.

(** ** Payloads without events *)

(** C9. Parsing the empty object gives no notification; parsing a payload
    whose single change value has a [metadata] object and none of the keys
    [contacts], [messages], [statuses] gives exactly one notification with
    the three collections empty, a missing metadata key being read as the
    empty string. *)
Theorem from_dict_without_events :
  from_dict (JObj []) = Ok [] /\
  forall (data e c v meta : fields),
    lookup "entry" data = Some (JArr [JObj e]) ->
    lookup "changes" e = Some (JArr [JObj c]) ->
    lookup "value" c = Some (JObj v) ->
    lookup "metadata" v = Some (JObj meta) ->
    lookup "contacts" v = None ->
    lookup "messages" v = None ->
    lookup "statuses" v = None ->
    from_dict (JObj data) =
    Ok [ {| metadata :=
              {| display_phone_number :=
                   match lookup "display_phone_number" meta with
                   | Some x => x
                   | None => JStr ""
                   end;
                 phone_number_id :=
                   match lookup "phone_number_id" meta with
                   | Some x => x
                   | None => JStr ""
                   end |};
            contacts := [];
            messages := [];
            statuses := [] |} ].
Proof.
  split; [reflexivity|].
  intros data e c v meta He Hc Hv Hmeta Hcs Hms Hss.
  unfold from_dict. cbn. rewrite He. cbn. rewrite Hc. cbn.
  unfold notification_of_change. cbn. rewrite Hv. cbn.
  rewrite Hmeta, Hcs, Hms, Hss. cbn.
  destruct (lookup "display_phone_number" meta);
    destruct (lookup "phone_number_id" meta); reflexivity.
Qed.

Lemma from_dict_without_events_witness :
  let meta := [("display_phone_number", JStr "15550001111")] in
  let v := [("metadata", JObj meta)] in
  let c := [("value", JObj v); ("field", JStr "messages")] in
  let e := [("id", JStr "BIZ_ID"); ("changes", JArr [JObj c])] in
  let data := [("object", JStr "whatsapp_business_account");
               ("entry", JArr [JObj e])] in
  from_dict (JObj data)
  = Ok [ {| metadata := {| display_phone_number := JStr "15550001111";
                           phone_number_id := JStr "" |};
            contacts := []; messages := []; statuses := [] |} ].
Proof.
  intros meta v c e data.
  exact (proj2 from_dict_without_events data e c v meta
           eq_refl eq_refl eq_refl eq_refl eq_refl eq_refl eq_refl).
Defined.

(** ** Signature verification *)

Lemma hex_digit_ascii n : (nat_of_ascii (hex_digit n) <? 128)%nat = true.
Proof.
  destruct n as [|p]; [reflexivity|].
  do 4 (try reflexivity; destruct p as [p|p|]); reflexivity.
Qed.

Lemma hexdigest_is_ascii digest : is_ascii (hexdigest digest) = true.
Proof.
  induction digest as [|b rest IH]; [reflexivity|].
  cbn [hexdigest is_ascii]. now rewrite !hex_digit_ascii, IH.
Qed.

Lemma startswith_split s p :
  startswith s p = true -> s = (p ++ drop (String.length p) s)%string.
Proof.
  unfold startswith. revert s.
  induction p as [|c p IH]; intros s H; [reflexivity|].
  destruct s as [|c' s]; cbn in H; [discriminate|].
  destruct (Ascii.ascii_dec c c') as [->|]; [|discriminate].
  cbn. f_equal. now apply IH.
Qed.

Lemma startswith_app p h : startswith (p ++ h)%string p = true.
Proof.
  unfold startswith. induction p as [|c p IH]; cbn.
  - now destruct h.
  - destruct (Ascii.ascii_dec c c); [exact IH | congruence].
Qed.

Lemma removeprefix_app p h : removeprefix (p ++ h)%string p = h.
Proof.
  unfold removeprefix. rewrite startswith_app.
  induction p as [|c p IH]; [reflexivity | exact IH].
Qed.

Section PipelineProperties.

Variable WhatsAppClient : Type.
Variable hmac_sha256 : bytes -> bytes -> bytes.
Variable json_loads : bytes -> result json.

Local Abbreviation verify := (verify_signature WhatsAppClient hmac_sha256).
Local Abbreviation run := (handle WhatsAppClient hmac_sha256 json_loads).
Local Abbreviation handler := (WebhookHandler WhatsAppClient).
Local Abbreviation trace := (list (event WhatsAppClient)).

(** What [verify_signature] does once the prefix is there. *)
Lemma verify_signature_prefixed body h app_secret (t : trace) :
  verify body ("sha256=" ++ h)%string app_secret t =
  (match compare_digest (hexdigest (hmac_sha256 (encode app_secret) body)) h with
   | Raise e => Raise e
   | Ok same => if negb same then Raise signature_mismatch else Ok tt
   end,
   t ++ [HmacNew (encode app_secret) body]).
Proof.
  unfold verify_signature.
  rewrite startswith_app, removeprefix_app. cbn [negb].
  unfold bind_io, step, lift.
  destruct (compare_digest _ h) as [[|]|e]; reflexivity.
Qed.

(** A signed body verifies. *)
Lemma verify_signature_accepts_signed body app_secret (t : trace) :
  verify body (sign hmac_sha256 body app_secret) app_secret t =
  (Ok tt, t ++ [HmacNew (encode app_secret) body]).
Proof.
  unfold sign. rewrite verify_signature_prefixed. unfold compare_digest.
  now rewrite hexdigest_is_ascii, String.eqb_refl.
Qed.

(** An ASCII digest other than the expected one is a mismatch. *)
Lemma verify_signature_rejects_ascii body h app_secret (t : trace) :
  is_ascii h = true ->
  h <> hexdigest (hmac_sha256 (encode app_secret) body) ->
  verify body ("sha256=" ++ h)%string app_secret t =
  (Raise signature_mismatch, t ++ [HmacNew (encode app_secret) body]).
Proof.
  intros Ha Hne. rewrite verify_signature_prefixed. unfold compare_digest.
  rewrite hexdigest_is_ascii, Ha. cbn [andb].
  destruct (String.eqb_spec (hexdigest (hmac_sha256 (encode app_secret) body)) h)
    as [E|_]; [now elim Hne | reflexivity].
Qed.


(** C3. A signature that does not start with ["sha256="] is rejected as
    malformed whatever the body and the secret are, and before any HMAC is
    computed: the trace is left as it was. *)
Theorem malformed_signature_rejected body signature app_secret (t : trace) :
  startswith signature "sha256=" = false ->
  verify body signature app_secret t = (Raise malformed_signature, t).
Proof.
  intros H. unfold verify_signature. now rewrite H.
Qed.



End PipelineProperties.


Lemma malformed_signature_rejected_witness :
  verify_signature unit (fun key msg => msg) (encode "body") "invalid"
    "test_app_secret" []
  = (Raise malformed_signature, []).
Proof.
  exact (malformed_signature_rejected unit (fun key msg => msg)
           (encode "body") "invalid" "test_app_secret" [] eq_refl).
Defined.


(** ** Dispatch *)

Section DispatchProperties.

Variable WhatsAppClient : Type.
Variable hmac_sha256 : bytes -> bytes -> bytes.
Variable json_loads : bytes -> result json.

Local Abbreviation verify := (verify_signature WhatsAppClient hmac_sha256).
Local Abbreviation run := (handle WhatsAppClient hmac_sha256 json_loads).
Local Abbreviation handler := (WebhookHandler WhatsAppClient).
Local Abbreviation trace := (list (event WhatsAppClient)).
Local Abbreviation io := (io WhatsAppClient).

Lemma for_each_in_order {A} (body : A -> io unit) (exp : A -> trace) xs :
  (forall x, In x xs -> in_order body exp x) ->
  in_order (fun xs => for_each xs body) (flat_map exp) xs.
Proof.
  induction xs as [|x xs IH]; intros Hb t.
  - exists []. cbn. rewrite app_nil_r. repeat split. now exists [].
  - destruct (Hb x (or_introl eq_refl) t) as (c1 & Hs1 & (r1 & He1) & Hf1).
    cbn [for_each flat_map]. unfold bind_io.
    destruct (body x t) as [[[]|e] t1] eqn:E; cbn [fst snd] in *; subst t1.
    + specialize (Hf1 eq_refl). subst c1.
      destruct (IH (fun y Hy => Hb y (or_intror Hy)) (t ++ exp x))
        as (c2 & Hs2 & (r2 & He2) & Hf2).
      exists (exp x ++ c2). rewrite Hs2, app_assoc. repeat split.
      * exists r2. now rewrite He2, app_assoc.
      * intros H. now rewrite (Hf2 H).
    + exists c1. repeat split.
      * exists (r1 ++ flat_map exp xs). now rewrite He1, app_assoc.
      * discriminate.
Qed.

Lemma for_each_returns {A} (body : A -> io unit) xs :
  (forall x t, In x xs -> fst (body x t) = Ok tt) ->
  forall t, fst (for_each xs body t) = Ok tt.
Proof.
  induction xs as [|x xs IH]; intros Hb t; [reflexivity|].
  cbn [for_each]. unfold bind_io.
  specialize (Hb x t (or_introl eq_refl)) as Hx.
  destruct (body x t) as [[u|e] t1]; cbn in Hx; [|discriminate].
  apply IH. intros y t2 Hy. apply Hb. now right.
Qed.

Lemma step_in_order {A} (ev : A -> event WhatsAppClient)
    (r : A -> result unit) x :
  in_order (fun x => step (ev x) (r x)) (fun x => [ev x]) x.
Proof.
  intros t. exists [ev x]. repeat split. now exists [].
Qed.

Lemma flat_map_singleton {A B} (f : A -> B) xs :
  flat_map (fun x => [f x]) xs = map f xs.
Proof.
  induction xs as [|x xs IH]; cbn; [reflexivity | now rewrite IH].
Qed.

Lemma in_order_bind {A} (m1 m2 : A -> io unit) (e1 e2 : A -> trace) x :
  in_order m1 e1 x -> in_order m2 e2 x ->
  in_order (fun x => bind_io (m1 x) (fun _ => m2 x))
           (fun x => e1 x ++ e2 x) x.
Proof.
  intros H1 H2 t. unfold bind_io.
  destruct (H1 t) as (c1 & Hs1 & (r1 & He1) & Hf1).
  destruct (m1 x t) as [[[]|e] t1]; cbn [fst snd] in *; subst t1.
  - specialize (Hf1 eq_refl). subst c1.
    destruct (H2 (t ++ e1 x)) as (c2 & Hs2 & (r2 & He2) & Hf2).
    exists (e1 x ++ c2). rewrite Hs2, app_assoc. repeat split.
    + exists r2. now rewrite He2, app_assoc.
    + intros H. now rewrite (Hf2 H).
  - exists c1. repeat split.
    + exists (r1 ++ e2 x). now rewrite He1, app_assoc.
    + discriminate.
Qed.

Lemma dispatch_in_order (self : handler) n :
  in_order (dispatch _ self) (calls_for self) n.
Proof.
  unfold dispatch, calls_for.
  apply (in_order_bind
           (fun n => match _on_message _ self with
                     | Some cb => for_each (messages n) _
                     | None => ret tt
                     end)
           (fun n => match _on_status _ self with
                     | Some cb => for_each (statuses n) _
                     | None => ret tt
                     end)
           (fun n => match _on_message _ self with
                     | Some _ => map (OnMessage (_client _ self) n) (messages n)
                     | None => []
                     end)
           (fun n => match _on_status _ self with
                     | Some _ => map (OnStatus (_client _ self) n) (statuses n)
                     | None => []
                     end)).
  - destruct (_on_message _ self) as [cb|].
    + intros t. cbn beta. rewrite <- flat_map_singleton.
      exact (for_each_in_order
               (fun m => step (OnMessage (_client _ self) n m)
                              (cb (_client _ self) n m))
               (fun m => [OnMessage (_client _ self) n m]) (messages n)
               (fun m _ => step_in_order _ _ m) t).
    + intros t. exists []. cbn. rewrite app_nil_r. repeat split. now exists [].
  - destruct (_on_status _ self) as [cb|].
    + intros t. cbn beta. rewrite <- flat_map_singleton.
      exact (for_each_in_order
               (fun s => step (OnStatus (_client _ self) n s)
                              (cb (_client _ self) n s))
               (fun s => [OnStatus (_client _ self) n s]) (statuses n)
               (fun s _ => step_in_order _ _ s) t).
    + intros t. exists []. cbn. rewrite app_nil_r. repeat split. now exists [].
Qed.

Lemma dispatch_returns (self : handler) ns n t :
  handlers_return self ns -> In n ns -> fst (dispatch _ self n t) = Ok tt.
Proof.
  intros [Hm Hs] Hn. unfold dispatch, bind_io.
  assert (S : forall t1,
             fst (match _on_status _ self with
                  | Some cb =>
                      for_each (statuses n) (fun status =>
                        step (OnStatus (_client _ self) n status)
                             (cb (_client _ self) n status))
                  | None => ret tt
                  end t1) = Ok tt).
  { destruct (_on_status _ self) as [cb|] eqn:Es; [|reflexivity].
    apply for_each_returns. intros s t0 Hin. cbn. eauto. }
  destruct (_on_message _ self) as [cb|] eqn:Em; [|apply S].
  assert (M : fst (for_each (messages n) (fun message =>
                     step (OnMessage (_client _ self) n message)
                          (cb (_client _ self) n message)) t) = Ok tt).
  { apply for_each_returns. intros m t0 Hin. cbn. eauto. }
  destruct (for_each (messages n) _ t) as [[u|e] t1]; cbn in M;
    [apply S | discriminate].
Qed.

Lemma run_calls_app (self : handler) evs1 evs2 (t : trace) :
  run_calls self (evs1 ++ evs2) t =
  bind_io (run_calls self evs1) (fun _ => run_calls self evs2) t.
Proof.
  revert t. induction evs1 as [|ev evs1 IH]; intros t; [reflexivity|].
  cbn [app run_calls]. unfold bind_io at 1 3, step.
  destruct (call_outcome self ev); [apply IH | reflexivity].
Qed.

Lemma for_each_runs {A} (self : handler) (ev : A -> event WhatsAppClient)
    (r : A -> result unit) xs (t : trace) :
  (forall x, call_outcome self (ev x) = r x) ->
  for_each xs (fun x => step (ev x) (r x)) t = run_calls self (map ev xs) t.
Proof.
  intros H. revert t. induction xs as [|x xs IH]; intros t; [reflexivity|].
  cbn [for_each map run_calls]. unfold bind_io, step. rewrite H.
  destruct (r x); [apply IH | reflexivity].
Qed.

Lemma dispatch_runs (self : handler) n (t : trace) :
  dispatch _ self n t = run_calls self (calls_for self n) t.
Proof.
  unfold dispatch, calls_for. rewrite run_calls_app. unfold bind_io.
  assert (M : forall t0 : trace,
             match _on_message _ self with
             | Some cb =>
                 for_each (messages n) (fun message =>
                   step (OnMessage (_client _ self) n message)
                        (cb (_client _ self) n message))
             | None => ret tt
             end t0
             = run_calls self
                 match _on_message _ self with
                 | Some _ => map (OnMessage (_client _ self) n) (messages n)
                 | None => []
                 end t0).
  { intros t0. destruct (_on_message _ self) as [cb|] eqn:E; [|reflexivity].
    apply for_each_runs. intros m. cbn. now rewrite E. }
  rewrite M.
  destruct (run_calls self _ t) as [[u|e] t1]; [|reflexivity].
  destruct (_on_status _ self) as [cb|] eqn:E; [|reflexivity].
  apply for_each_runs. intros s. cbn. now rewrite E.
Qed.

Lemma for_each_dispatch_runs (self : handler) ns (t : trace) :
  for_each ns (dispatch _ self) t = run_calls self (expected_calls self ns) t.
Proof.
  revert t. induction ns as [|n ns IH]; intros t; [reflexivity|].
  cbn [for_each]. unfold expected_calls. cbn [flat_map].
  rewrite run_calls_app. unfold bind_io. rewrite dispatch_runs.
  destruct (run_calls self (calls_for self n) t) as [[u|e] t1];
    [apply IH | reflexivity].
Qed.

(** C5, as the code has it. Take a body whose signature verifies and that
    decodes to [data].  When [data] parses to the notifications [ns], what
    [handle] does is run the calls of [expected_calls] one after the other:
    notification by notification, within one all its messages in payload
    order and then all its statuses in payload order, a category without a
    handler contributing no call.  Each call is the registered handler
    applied to the client, the notification and the event ([call_outcome]),
    and its outcome decides whether the next call is made.  So the calls
    made are always an initial part of that sequence; they are the whole
    sequence and [handle] returns when the callbacks return; with no handler
    at all [handle] returns after making no call.  When [data] does not
    parse, [handle] raises what [from_dict] raised and makes no call,
    whether or not a handler is registered. *)
Theorem handle_dispatch_order (self : handler) body signature data
    (t t1 : trace) :
  verify body signature (_app_secret _ self) t = (Ok tt, t1) ->
  json_loads body = Ok data ->
  (forall ns, from_dict data = Ok ns ->
     run self body signature t
     = run_calls self (expected_calls self ns)
         (t1 ++ [JsonLoads body; FromDict data]) /\
     (exists calls rest,
         snd (run self body signature t)
         = t1 ++ [JsonLoads body; FromDict data] ++ calls /\
         expected_calls self ns = calls ++ rest) /\
     (handlers_return self ns ->
      run self body signature t
      = (Ok tt,
         t1 ++ [JsonLoads body; FromDict data] ++ expected_calls self ns)) /\
     (_on_message _ self = None -> _on_status _ self = None ->
      run self body signature t
      = (Ok tt, t1 ++ [JsonLoads body; FromDict data]))) /\
  (forall e, from_dict data = Raise e ->
     run self body signature t
     = (Raise e, t1 ++ [JsonLoads body; FromDict data])).
Proof.
  intros Hv Hj. split; [intros ns Hp | intros e Hp].
  2: { unfold handle, bind_io at 1. rewrite Hv.
       unfold bind_io at 1, step at 1. rewrite Hj.
       unfold bind_io, step. rewrite Hp. now rewrite <- app_assoc. }
  assert (E : run self body signature t
              = for_each ns (dispatch _ self)
                  (t1 ++ [JsonLoads body; FromDict data])).
  { unfold handle, bind_io at 1. rewrite Hv.
    unfold bind_io at 1, step at 1. rewrite Hj.
    unfold bind_io at 1, step at 1. rewrite Hp.
    now rewrite <- app_assoc. }
  destruct (for_each_in_order (dispatch _ self) (calls_for self) ns
              (fun n _ => dispatch_in_order self n)
              (t1 ++ [JsonLoads body; FromDict data]))
    as (calls & Hs & (rest & He) & Hf).
  assert (R : handlers_return self ns ->
              run self body signature t
              = (Ok tt, t1 ++ [JsonLoads body; FromDict data]
                           ++ expected_calls self ns)).
  { intros Hr. rewrite E.
    pose proof (for_each_returns (dispatch _ self) ns
                  (fun n t0 Hn => dispatch_returns self ns n t0 Hr Hn)
                  (t1 ++ [JsonLoads body; FromDict data])) as Hok.
    rewrite (surjective_pairing (for_each ns _ _)), Hok, Hs.
    rewrite (Hf Hok), <- app_assoc. reflexivity. }
  split; [|split; [|split]].
  - rewrite E. apply for_each_dispatch_runs.
  - exists calls, rest. rewrite E, Hs, <- app_assoc. now split.
  - exact R.
  - intros Hm Hst. rewrite R.
    + unfold expected_calls, calls_for. rewrite Hm, Hst.
      replace (flat_map _ ns) with (@nil (event WhatsAppClient));
        [now rewrite app_nil_r|].
      clear. induction ns; cbn; auto.
    + split; intros cb n x Hc; congruence.
Qed.

End DispatchProperties.

Lemma handle_dispatch_order_witness :
  let text_message i :=
    JObj [("id", JStr i); ("from", JStr "5511999999999");
          ("timestamp", JStr "1700000000"); ("type", JStr "text");
          ("text", JObj [("body", JStr "Hi")])] in
  let delivered i :=
    JObj [("id", JStr i); ("status", JStr "delivered");
          ("timestamp", JStr "1700000000");
          ("recipient_id", JStr "5511999999999")] in
  let data :=
    JObj [("entry",
           JArr [JObj [("changes",
                        JArr [JObj [("value",
                                     JObj [("statuses",
                                            JArr [delivered "wamid.s1";
                                                  delivered "wamid.s2"]);
                                           ("messages",
                                            JArr [text_message "wamid.1";
                                                  text_message "wamid.2"])])]])]])] in
  let accept := {| _app_secret := "test_app_secret"; _client := tt;
                   _on_message := Some (fun _ _ _ => Ok tt);
                   _on_status := Some (fun _ _ _ => Ok tt) |} in
  let refuse_status (_ : unit) (_ : WebhookNotification) (s : Status) :=
    if py_eq_str (status_id s) "wamid.s1" then Raise (UserError "refused")
    else Ok tt in
  let refuse := {| _app_secret := "test_app_secret"; _client := tt;
                   _on_message := Some (fun _ _ _ => Ok tt);
                   _on_status := Some refuse_status |} in
  exists n m1 m2 s1 s2,
    from_dict data = Ok [n] /\
    messages n = [m1; m2] /\ statuses n = [s1; s2] /\
    handle unit (fun key msg => msg) (fun _ => Ok data) accept
      (encode "{}") "sha256=7b7d" []
    = (Ok tt,
       [HmacNew (encode "test_app_secret") (encode "{}");
        JsonLoads (encode "{}"); FromDict data;
        OnMessage tt n m1; OnMessage tt n m2;
        OnStatus tt n s1; OnStatus tt n s2]) /\
    handle unit (fun key msg => msg) (fun _ => Ok data) refuse
      (encode "{}") "sha256=7b7d" []
    = (Raise (UserError "refused"),
       [HmacNew (encode "test_app_secret") (encode "{}");
        JsonLoads (encode "{}"); FromDict data;
        OnMessage tt n m1; OnMessage tt n m2;
        OnStatus tt n s1]).
Proof.
  intros text_message delivered data accept refuse_status refuse.
  do 5 eexists. split; [reflexivity|]. split; [reflexivity|].
  split; [reflexivity|]. split.
  - refine (proj1 (proj2 (proj2
              (proj1 (handle_dispatch_order unit (fun key msg => msg)
                        (fun _ => Ok data) accept (encode "{}") "sha256=7b7d"
                        data [] _ eq_refl eq_refl) _ eq_refl))) _).
    split; intros cb n x H _ _; injection H as <-; reflexivity.
  - refine (eq_trans
              (proj1 (proj1 (handle_dispatch_order unit (fun key msg => msg)
                               (fun _ => Ok data) refuse (encode "{}")
                               "sha256=7b7d" data [] _ eq_refl eq_refl)
                        _ eq_refl)) _).
    reflexivity.
Defined.

(** C5, as stated, fails: this body is verified and decoded, no handler is
    registered, and [handle] raises, because the decoded payload does not
    parse (its message has no [id]). *)
Lemma handle_raises_on_unparsed_payload :
  verify_signature unit (fun key msg => msg) (encode "{}") "sha256=7b7d"
    "test_app_secret" []
  = (Ok tt, [HmacNew (encode "test_app_secret") (encode "{}")]) /\
  handle unit (fun key msg => msg)
    (fun _ => Ok (messages_payload [text_message_without_id]))
    {| _app_secret := "test_app_secret"; _client := tt;
       _on_message := None; _on_status := None |}
    (encode "{}") "sha256=7b7d" []
  = (Raise (KeyError "id"),
     [HmacNew (encode "test_app_secret") (encode "{}");
      JsonLoads (encode "{}");
      FromDict (messages_payload [text_message_without_id])]).
Proof. split; reflexivity. Qed.

(** ** Payload shapes and the outcome of parsing *)

Lemma admissible_strict {A} (r : result A) :
  admissible true r -> exists a, r = Ok a.
Proof.
  destruct r as [a|[]]; cbn; try tauto; try discriminate. eauto.
Qed.

Lemma admissible_lenient {A} (r : result A) :
  admissible false r -> (exists a, r = Ok a) \/ (exists k, r = Raise (KeyError k)).
Proof.
  destruct r as [a|[]]; cbn; try tauto; eauto.
Qed.

Lemma bind_getitem_required {B} strict k d p (K : json -> result B) :
  required strict k d p = true ->
  (forall x, lookup k d = Some x -> p x = true -> admissible strict (K x)) ->
  admissible strict (bind (py_getitem (JObj d) k) K).
Proof.
  unfold required, py_getitem. destruct (lookup k d); cbn; intros H HK.
  - now apply HK.
  - now apply negb_true_iff.
Qed.

Lemma object_with_has_key strict keys d k :
  object_with strict keys (JObj d) = true -> In k keys ->
  negb strict || has_key k d = true.
Proof.
  cbn. destruct strict; cbn; [|reflexivity].
  rewrite forallb_forall. auto.
Qed.

Lemma bind_getitem_object_with {B} strict keys v k (K : json -> result B) :
  object_with strict keys v = true -> In k keys ->
  (forall x, admissible strict (K x)) ->
  admissible strict (bind (py_getitem v k) K).
Proof.
  intros Hv Hk HK. destruct v as [| | | | | |d]; try discriminate.
  pose proof (object_with_has_key _ _ _ _ Hv Hk) as H.
  unfold py_getitem, has_key in *. destruct (lookup k d); cbn; [apply HK|].
  rewrite orb_false_r in H. now apply negb_true_iff.
Qed.

Lemma bind_get_object_with {B} strict keys v k def (K : json -> result B) :
  object_with strict keys v = true ->
  (forall x, admissible strict (K x)) ->
  admissible strict (bind (py_get v k def) K).
Proof.
  intros Hv HK. destruct v as [| | | | | |d]; try discriminate.
  unfold py_get. destruct (lookup k d); cbn; apply HK.
Qed.

Lemma bind_get_optional {B} strict k d p def (K : json -> result B) :
  optional k d p = true -> p def = true ->
  (forall x, p x = true -> admissible strict (K x)) ->
  admissible strict (bind (py_get (JObj d) k def) K).
Proof.
  unfold optional, py_get. destruct (lookup k d); cbn; auto.
Qed.

Lemma bind_iter_array {B} strict p v (K : list json -> result B) :
  array_of p v = true ->
  (forall l, forallb p l = true -> admissible strict (K l)) ->
  admissible strict (bind (py_iter v) K).
Proof.
  destruct v; try discriminate. cbn. auto.
Qed.

Lemma bind_mapM_shape {A B} strict p (f : json -> result A) l
    (K : list A -> result B) :
  (forall x, p x = true -> admissible strict (f x)) ->
  forallb p l = true ->
  (forall ys, admissible strict (K ys)) ->
  admissible strict (bind (mapM f l) K).
Proof.
  intros Hf Hl HK. apply bind_admissible; [|auto].
  apply mapM_admissible. rewrite forallb_forall in Hl.
  apply Forall_forall. auto.
Qed.

Ltac sub_fields H :=
  repeat first
    [ apply (bind_getitem_object_with _ _ _ _ _ H); [cbn; tauto | intros ?]
    | apply (bind_get_object_with _ _ _ _ _ _ H); intros ? ];
  try exact I.

Lemma interactive_admissible strict msg ia :
  interactive_shape strict ia = true ->
  admissible strict
    (interactive_type <- py_get ia "type" (JStr "") ;;
     if py_eq_str interactive_type "button_reply" then
       reply <- py_getitem ia "button_reply" ;;
       id <- py_getitem reply "id" ;;
       title <- py_getitem reply "title" ;;
       Ok (ButtonReplyContent id title)
     else if py_eq_str interactive_type "list_reply" then
       reply <- py_getitem ia "list_reply" ;;
       id <- py_getitem reply "id" ;;
       title <- py_getitem reply "title" ;;
       description <- py_get reply "description" JNull ;;
       Ok (ListReplyContent id title description)
     else Ok (UnsupportedContent msg)).
Proof.
  destruct ia as [| | | | | |f]; try discriminate.
  unfold interactive_shape. rewrite py_get_type_tag. unfold type_tag.
  destruct (lookup "type" f) as [[| | | |t| |]|]; cbn [bind py_eq_str];
    try (intros _; exact I).
  destruct (t =? "button_reply"); [|destruct (t =? "list_reply")]; intros H.
  - apply (bind_getitem_required _ _ _ _ _ H). intros reply _ Hr.
    sub_fields Hr.
  - apply (bind_getitem_required _ _ _ _ _ H). intros reply _ Hr.
    sub_fields Hr.
  - exact I.
Qed.

Lemma parse_content_admissible strict d :
  content_shape strict d = true ->
  admissible strict (_parse_content (JObj d)).
Proof.
  unfold content_shape, _parse_content.
  rewrite py_get_type_tag. unfold type_tag.
  destruct (lookup "type" d) as [[| | | |t| |]|]; cbn [bind];
    try (intros _; exact I).
  destruct (t =? "text"); [|destruct (is_media_tag t);
    [|destruct (t =? "location"); [|destruct (t =? "button");
    [|destruct (t =? "interactive"); [|destruct (t =? "reaction")]]]]];
    intros H; try exact I;
    apply (bind_getitem_required _ _ _ _ _ H); intros sub _ Hs;
    try (sub_fields Hs; fail).
  now apply interactive_admissible.
Qed.

Lemma andb_true_split a b : a && b = true -> a = true /\ b = true.
Proof. apply andb_true_iff. Qed.

Ltac split_shape H :=
  repeat match type of H with
         | _ && _ = true =>
             let H' := fresh H in
             apply andb_true_split in H as [H H']
         end.

(** The guard [if key in raw] followed by [raw[key]]. *)
Lemma guarded_getitem {A B} strict k d p (then_ : json -> result (option A))
    (K : option A -> result B) :
  optional k d p = true ->
  (forall x, p x = true -> admissible strict (bind (then_ x) K)) ->
  admissible strict (K None) ->
  admissible strict
    (bind (present <- py_contains k (JObj d) ;;
           if present : bool then
             x <- py_getitem (JObj d) k ;;
             then_ x
           else Ok None) K).
Proof.
  unfold optional, py_contains, py_getitem, has_key.
  destruct (lookup k d); cbn; auto.
Qed.

Lemma parse_message_admissible strict m :
  message_shape strict m = true -> admissible strict (_parse_message m).
Proof.
  destruct m as [| | | | | |d]; try discriminate.
  unfold message_shape, _parse_message. intros H. split_shape H.
  assert (R : forall context,
             admissible strict
               (id <- py_getitem (JObj d) "id" ;;
                from_ <- py_getitem (JObj d) "from" ;;
                timestamp <- py_getitem (JObj d) "timestamp" ;;
                type <- py_get (JObj d) "type" (JStr "") ;;
                content <- _parse_content (JObj d) ;;
                Ok {| message_id := id;
                      message_from_ := from_;
                      message_timestamp := timestamp;
                      message_type := type;
                      message_content := content;
                      message_context := context |})).
  { intros context.
    apply (bind_getitem_required _ _ _ _ _ H3). intros id _ _.
    apply (bind_getitem_required _ _ _ _ _ H2). intros from_ _ _.
    apply (bind_getitem_required _ _ _ _ _ H1). intros timestamp _ _.
    rewrite py_get_type_tag. cbn [bind].
    apply bind_admissible; [now apply parse_content_admissible|].
    intros; exact I. }
  apply (guarded_getitem strict "context" d _
           (fun ctx =>
              from_ <- py_getitem ctx "from" ;;
              id <- py_getitem ctx "id" ;;
              Ok (Some {| context_from_ := from_; context_id := id |}))
           _ H); [|apply R].
  intros ctx Hc. cbn [bind].
  destruct ctx as [| | | | | |c]; try discriminate.
  pose proof (object_with_has_key _ _ _ "from" Hc) as Hf.
  pose proof (object_with_has_key _ _ _ "id" Hc) as Hi.
  unfold has_key in Hf, Hi. unfold py_getitem at 1 2.
  destruct (lookup "from" c); cbn [bind admissible];
    [|rewrite orb_false_r in Hf; apply negb_true_iff, Hf; cbn; tauto].
  destruct (lookup "id" c); cbn [bind admissible];
    [apply R|rewrite orb_false_r in Hi; apply negb_true_iff, Hi; cbn; tauto].
Qed.

Lemma parse_status_error_admissible strict e :
  object_with strict ["code"; "title"] e = true ->
  admissible strict (parse_status_error e).
Proof.
  intros H. unfold parse_status_error. sub_fields H.
Qed.

Lemma errors_items_admissible {B} strict errs (K : _ -> result B) :
  errors_shape strict errs = true ->
  (forall x, admissible strict (K x)) ->
  admissible strict
    (bind (items <- py_iter errs ;;
           errors <- mapM parse_status_error items ;;
           Ok (Some errors)) K).
Proof.
  intros H HK. destruct errs as [| | | |s|l|[|]]; try discriminate; cbn [py_iter bind].
  - destruct s; [|discriminate]. apply HK.
  - assert (M : admissible strict (mapM parse_status_error l)).
    { apply mapM_admissible, Forall_forall. cbn in H.
      rewrite forallb_forall in H. intros x Hx.
      now apply parse_status_error_admissible, H. }
    destruct (mapM parse_status_error l); [apply HK | exact M].
  - apply HK.
Qed.

Lemma parse_status_admissible strict s :
  status_shape strict s = true -> admissible strict (_parse_status s).
Proof.
  destruct s as [| | | | | |d]; try discriminate.
  unfold status_shape, status_fields_shape, _parse_status. intros H.
  split_shape H.
  assert (R : forall conversation pricing errors,
             admissible strict
               (id <- py_getitem (JObj d) "id" ;;
                status <- py_getitem (JObj d) "status" ;;
                timestamp <- py_getitem (JObj d) "timestamp" ;;
                recipient_id <- py_getitem (JObj d) "recipient_id" ;;
                Ok {| status_id := id;
                      status_status := status;
                      status_timestamp := timestamp;
                      status_recipient_id := recipient_id;
                      status_conversation := conversation;
                      status_pricing := pricing;
                      status_errors := errors |})).
  { intros conversation pricing errors.
    change (object_with strict required_status_keys (JObj d) = true) in H0.
    sub_fields H0. }
  assert (E : forall conversation pricing,
             admissible strict
               (errors <- parse_errors (JObj d) ;;
                id <- py_getitem (JObj d) "id" ;;
                status <- py_getitem (JObj d) "status" ;;
                timestamp <- py_getitem (JObj d) "timestamp" ;;
                recipient_id <- py_getitem (JObj d) "recipient_id" ;;
                Ok {| status_id := id;
                      status_status := status;
                      status_timestamp := timestamp;
                      status_recipient_id := recipient_id;
                      status_conversation := conversation;
                      status_pricing := pricing;
                      status_errors := errors |})).
  { intros conversation pricing. unfold parse_errors.
    apply (guarded_getitem strict "errors" d _
             (fun errs =>
                items <- py_iter errs ;;
                errors <- mapM parse_status_error items ;;
                Ok (Some errors)) _ H1); [|apply R].
    intros errs He. apply errors_items_admissible; [exact He|]. intros; apply R. }
  assert (P : forall conversation,
             admissible strict
               (pricing <- parse_pricing (JObj d) ;;
                errors <- parse_errors (JObj d) ;;
                id <- py_getitem (JObj d) "id" ;;
                status <- py_getitem (JObj d) "status" ;;
                timestamp <- py_getitem (JObj d) "timestamp" ;;
                recipient_id <- py_getitem (JObj d) "recipient_id" ;;
                Ok {| status_id := id;
                      status_status := status;
                      status_timestamp := timestamp;
                      status_recipient_id := recipient_id;
                      status_conversation := conversation;
                      status_pricing := pricing;
                      status_errors := errors |})).
  { intros conversation. unfold parse_pricing.
    apply (guarded_getitem strict "pricing" d _
             (fun p =>
                b <- py_getitem p "billable" ;;
                pm <- py_getitem p "pricing_model" ;;
                c <- py_getitem p "category" ;;
                Ok (Some {| billable := b; pricing_model := pm;
                            category := c |})) _ H2); [|apply E].
    intros p Hp. cbn [bind].
    destruct p as [| | | | | |f]; try discriminate.
    pose proof (fun k => object_with_has_key _ _ _ k Hp) as Hk.
    unfold has_key in Hk. unfold py_getitem at 1 2 3.
    pose proof (Hk "billable") as H1'. pose proof (Hk "pricing_model") as H2'.
    pose proof (Hk "category") as H3'. clear Hk.
    destruct (lookup "billable" f); cbn [bind admissible];
      [|rewrite orb_false_r in H1'; apply negb_true_iff, H1'; cbn; tauto].
    destruct (lookup "pricing_model" f); cbn [bind admissible];
      [|rewrite orb_false_r in H2'; apply negb_true_iff, H2'; cbn; tauto].
    destruct (lookup "category" f); cbn [bind admissible];
      [apply E|rewrite orb_false_r in H3'; apply negb_true_iff, H3'; cbn; tauto]. }
  unfold parse_conversation.
  apply (guarded_getitem strict "conversation" d _
           (fun conv =>
              id <- py_getitem conv "id" ;;
              origin <- py_getitem conv "origin" ;;
              type <- py_getitem origin "type" ;;
              Ok (Some {| conversation_id := id;
                          conversation_origin := {| origin_type := type |} |}))
           _ H); [|apply P].
  intros conv Hc. cbn [bind].
  destruct conv as [| | | | | |c]; try discriminate.
  unfold conversation_shape, required in Hc. split_shape Hc.
  unfold py_getitem at 1 2.
  destruct (lookup "id" c); cbn [bind admissible];
    [|now apply negb_true_iff].
  destruct (lookup "origin" c) as [origin|]; cbn [bind admissible];
    [|now apply negb_true_iff].
  destruct origin as [| | | | | |o]; try discriminate.
  pose proof (object_with_has_key _ _ _ "type" Hc0) as Ht.
  unfold has_key in Ht. unfold py_getitem at 1.
  destruct (lookup "type" o); cbn [bind admissible];
    [apply P|rewrite orb_false_r in Ht; apply negb_true_iff, Ht; cbn; tauto].
Qed.

Lemma parse_contact_admissible strict c :
  contact_shape strict c = true -> admissible strict (parse_contact c).
Proof.
  destruct c as [| | | | | |d]; try discriminate.
  unfold contact_shape, parse_contact. intros H. split_shape H.
  apply (bind_getitem_required _ _ _ _ _ H). intros wa _ _.
  apply (bind_get_optional _ _ _ _ _ _ H0); [reflexivity|].
  intros profile Hp. destruct profile; try discriminate.
  unfold py_get. destruct (lookup "name" fields0); exact I.
Qed.

Lemma notification_of_change_admissible strict c :
  change_shape strict c = true ->
  admissible strict (notification_of_change c).
Proof.
  destruct c as [| | | | | |d]; try discriminate.
  unfold change_shape, notification_of_change. intros H.
  apply (bind_get_optional _ _ _ _ _ _ H); [reflexivity|].
  intros value Hv. destruct value as [| | | | | |v]; try discriminate.
  unfold value_shape in Hv. split_shape Hv.
  apply (bind_get_optional _ _ _ _ _ _ Hv); [reflexivity|].
  intros meta Hm. destruct meta as [| | | | | |meta]; try discriminate.
  unfold py_get at 1 2.
  destruct (lookup "display_phone_number" meta);
    destruct (lookup "phone_number_id" meta); cbn [bind];
    (apply (bind_get_optional _ _ _ _ _ _ Hv2); [reflexivity|];
     intros cs Hcs; apply (bind_iter_array _ _ _ _ Hcs); intros csl Hcsl;
     apply (bind_mapM_shape _ _ _ _ _ (parse_contact_admissible strict) Hcsl);
     intros contacts;
     apply (bind_get_optional _ _ _ _ _ _ Hv1); [reflexivity|];
     intros ms Hms; apply (bind_iter_array _ _ _ _ Hms); intros msl Hmsl;
     apply (bind_mapM_shape _ _ _ _ _ (parse_message_admissible strict) Hmsl);
     intros messages;
     apply (bind_get_optional _ _ _ _ _ _ Hv0); [reflexivity|];
     intros ss Hss; apply (bind_iter_array _ _ _ _ Hss); intros ssl Hssl;
     apply (bind_mapM_shape _ _ _ _ _ (parse_status_admissible strict) Hssl);
     intros statuses; exact I).
Qed.

Lemma notifications_of_entry_admissible strict e :
  entry_shape strict e = true ->
  admissible strict (notifications_of_entry e).
Proof.
  destruct e as [| | | | | |d]; try discriminate.
  unfold entry_shape, notifications_of_entry. intros H.
  apply (bind_get_optional _ _ _ _ _ _ H); [reflexivity|].
  intros cs Hcs. apply (bind_iter_array _ _ _ _ Hcs). intros l Hl.
  apply mapM_admissible, Forall_forall. rewrite forallb_forall in Hl.
  intros x Hx. now apply notification_of_change_admissible, Hl.
Qed.

(** A payload of a given shape has an admissible outcome. *)
Lemma from_dict_admissible strict data :
  payload_shape strict data = true -> admissible strict (from_dict data).
Proof.
  rewrite from_dict_unfold.
  destruct data as [| | | | | |d]; try discriminate.
  unfold payload_shape. intros H.
  apply (bind_get_optional _ _ _ _ _ _ H); [reflexivity|].
  intros es Hes. apply (bind_iter_array _ _ _ _ Hes). intros l Hl.
  apply (bind_mapM_shape _ _ _ _ _ (notifications_of_entry_admissible strict) Hl).
  intros; exact I.
Qed.

(** ** Totality of the parser *)

(** C1, as the code has it. [from_dict] returns a list of notifications
    without raising on every payload of the strict shape: the containers
    are objects and arrays where the parser expects them, their optional
    keys may be missing, and each contact, message and status has the keys
    the parser subscripts directly. *)
Theorem from_dict_total_on_strict_shape data :
  payload_shape true data = true -> exists ns, from_dict data = Ok ns.
Proof.
  intros H. now apply admissible_strict, from_dict_admissible.
Qed.

Lemma from_dict_total_on_strict_shape_witness :
  exists ns, from_dict (messages_payload [text_message]) = Ok ns.
Proof.
  exact (from_dict_total_on_strict_shape (messages_payload [text_message])
           eq_refl).
Defined.

(** C1, as stated, fails: a message object without [id] makes [from_dict]
    raise [KeyError]. *)
Lemma from_dict_raises_on_message_without_id :
  from_dict (messages_payload [text_message_without_id])
  = Raise (KeyError "id").
Proof. reflexivity. Qed.

(** ** Partial messages *)

Lemma bind_always_raises {A B} (r : result A) (K : A -> result B) :
  (forall a, exists e, K a = Raise e) -> exists e, bind r K = Raise e.
Proof.
  intros HK. destruct r as [a|e]; cbn; [apply HK | eauto].
Qed.

Lemma parse_content_missing_subobject m :
  missing_subobject m = true -> exists e, _parse_content (JObj m) = Raise e.
Proof.
  unfold missing_subobject, _parse_content. rewrite py_get_type_tag.
  unfold type_tag.
  destruct (lookup "type" m) as [[| | | |t| |]|]; try discriminate.
  intros H. apply andb_true_split in H as [Ht Hk].
  apply existsb_exists in Ht as (s & Hs & E).
  apply String.eqb_eq in E. subst s.
  unfold has_key in Hk.
  cbn in Hs.
  repeat (destruct Hs as [<-|Hs];
          [cbn; destruct (lookup _ m); [discriminate | cbn; eauto]|]).
  destruct Hs.
Qed.

Lemma parse_message_partial_raises m :
  message_partial m = true -> exists e, _parse_message (JObj m) = Raise e.
Proof.
  intros H. unfold _parse_message.
  apply bind_always_raises. intros has_context.
  apply bind_always_raises. intros context.
  unfold message_partial, has_key in H. unfold py_getitem.
  destruct (lookup "id" m); cbn [bind]; [|eauto].
  destruct (lookup "from" m); cbn [bind]; [|eauto].
  destruct (lookup "timestamp" m); cbn [bind]; [|eauto].
  cbn in H. rewrite py_get_type_tag. cbn [bind].
  destruct (parse_content_missing_subobject m H) as [e ->]. cbn. eauto.
Qed.

Lemma notification_of_change_raises c v ms m :
  lookup "value" c = Some (JObj v) ->
  lookup "messages" v = Some (JArr ms) ->
  In m ms -> (exists e, _parse_message m = Raise e) ->
  exists e, notification_of_change (JObj c) = Raise e.
Proof.
  intros Hv Hms Hin Hm. unfold notification_of_change.
  unfold py_get at 1. rewrite Hv. cbn [bind].
  do 6 (apply bind_always_raises; intros ?).
  unfold py_get at 1. rewrite Hms. cbn [bind py_iter].
  destruct (mapM_raises_at _parse_message ms m Hin Hm) as [e ->].
  cbn. eauto.
Qed.

Lemma from_dict_raises_at data m :
  message_at data m -> (exists e, _parse_message m = Raise e) ->
  exists e, from_dict data = Raise e.
Proof.
  intros (d & es & e & cs & c & v & ms & -> & Hes & Hie & Hcs & Hic & Hv
          & Hms & Him) Hm.
  rewrite from_dict_unfold. unfold py_get at 1. rewrite Hes. cbn [bind py_iter].
  assert (He : exists x, notifications_of_entry (JObj e) = Raise x).
  { unfold notifications_of_entry, py_get at 1. rewrite Hcs. cbn [bind py_iter].
    apply (mapM_raises_at _ _ _ Hic).
    now apply (notification_of_change_raises c v ms m). }
  destruct (mapM_raises_at _ _ _ Hie He) as [x ->]. cbn. eauto.
Qed.

(** C10, as the code has it. When [entry[*].changes[*].value.messages[*]]
    leads to a message object that lacks [id], [from] or [timestamp], or the
    sub-object its recognized [type] names, [from_dict] raises instead of
    returning; on a payload whose values all have the JSON kind the parser
    expects, what it raises is a [KeyError]. *)
Theorem partial_message_raises data m :
  message_at data (JObj m) -> message_partial m = true ->
  (exists e, from_dict data = Raise e) /\
  (payload_shape false data = true ->
   exists k, from_dict data = Raise (KeyError k)).
Proof.
  intros Hat Hp.
  destruct (from_dict_raises_at data (JObj m) Hat
              (parse_message_partial_raises m Hp)) as [e He].
  split; [eauto|]. intros Hs.
  apply from_dict_admissible, admissible_lenient in Hs.
  destruct Hs as [[ns Hns]|Hk]; [congruence | exact Hk].
Qed.

Lemma message_at_messages_payload ms m :
  In m ms -> message_at (messages_payload ms) (JObj m).
Proof.
  intros H. unfold messages_payload, _wrap_payload.
  do 7 eexists. split; [reflexivity|].
  repeat (split; [reflexivity || (left; reflexivity)|]).
  now apply in_map.
Qed.

Lemma partial_message_raises_witness :
  exists k,
    from_dict (messages_payload [text_message; text_message_without_id])
    = Raise (KeyError k).
Proof.
  exact (proj2 (partial_message_raises
                  (messages_payload [text_message; text_message_without_id])
                  text_message_without_id
                  (message_at_messages_payload
                     [text_message; text_message_without_id]
                     text_message_without_id
                     (or_intror (or_introl eq_refl)))
                  eq_refl)
           eq_refl).
Defined.

(** C10, as stated, fails: the message lacks [id], and what [from_dict]
    raises is the [TypeError] of subscripting its [null] context. *)
Lemma null_context_raises_type_error :
  message_at (messages_payload [text_message_null_context])
    (JObj text_message_null_context) /\
  message_partial text_message_null_context = true /\
  from_dict (messages_payload [text_message_null_context]) = Raise TypeError.
Proof.
  split; [|split; reflexivity].
  apply message_at_messages_payload. now left.
Qed.

(** ** Status parsing *)

Lemma py_chars_cons a s : py_chars (String a s) <> [].
Proof.
  cbn. destruct s as [|c s']; [discriminate|].
  destruct (py_chars (String c s')); [discriminate|].
  destruct (is_continuation c); discriminate.
Qed.

Lemma parse_status_error_ok e x :
  parse_status_error e = Ok x -> object_with true ["code"; "title"] e = true.
Proof.
  destruct e as [| | | | | |d]; try discriminate.
  unfold parse_status_error, py_getitem, has_key. cbn.
  unfold has_key.
  destruct (lookup "code" d); [|discriminate].
  destruct (lookup "title" d); [reflexivity|discriminate].
Qed.

Lemma mapM_status_errors_ok l xs :
  mapM parse_status_error l = Ok xs ->
  forallb (object_with true ["code"; "title"]) l = true.
Proof.
  intros H. apply mapM_ok_Forall2 in H. apply forallb_forall.
  induction H as [|e x l xs He _ IH]; intros y Hy; [destruct Hy|].
  destruct Hy as [<-|Hy]; [now apply parse_status_error_ok in He | now apply IH].
Qed.

Lemma parse_conversation_ok r c :
  parse_conversation (JObj r) = Ok c ->
  optional "conversation" r (conversation_shape true) = true /\
  (c <> None <-> has_key "conversation" r = true).
Proof.
  unfold parse_conversation, optional, py_contains, py_getitem at 1, has_key.
  destruct (lookup "conversation" r) as [conv|]; cbn [bind].
  - destruct conv as [| | | | | |f]; try discriminate.
    unfold conversation_shape, required, py_getitem at 1 2.
    destruct (lookup "id" f); [|discriminate].
    destruct (lookup "origin" f) as [[| | | | | |o]|]; try discriminate.
    cbn. unfold has_key.
    destruct (lookup "type" o); [|discriminate].
    intros H. injection H as <-. repeat split; congruence.
  - intros H. injection H as <-. repeat split; congruence.
Qed.

Lemma parse_pricing_ok r p :
  parse_pricing (JObj r) = Ok p ->
  optional "pricing" r
    (object_with true ["billable"; "pricing_model"; "category"]) = true /\
  (p <> None <-> has_key "pricing" r = true).
Proof.
  unfold parse_pricing, optional, py_contains, py_getitem at 1, has_key.
  destruct (lookup "pricing" r) as [pr|]; cbn [bind].
  - destruct pr as [| | | | | |f]; try discriminate.
    unfold py_getitem. cbn. unfold has_key.
    destruct (lookup "billable" f); [|discriminate].
    destruct (lookup "pricing_model" f); [|discriminate].
    destruct (lookup "category" f); [|discriminate].
    intros H. injection H as <-. repeat split; congruence.
  - intros H. injection H as <-. repeat split; congruence.
Qed.

Lemma parse_errors_ok r e :
  parse_errors (JObj r) = Ok e ->
  optional "errors" r (errors_shape true) = true /\
  (e <> None <-> has_key "errors" r = true).
Proof.
  unfold parse_errors, optional, py_contains, py_getitem at 1, has_key.
  destruct (lookup "errors" r) as [errs|]; cbn [bind].
  - intros H. apply bind_ok in H as (items & Hi & H).
    apply bind_ok in H as (xs & Hx & H). injection H as <-.
    split; [|repeat split; congruence].
    destruct errs as [| | | |s|l|d]; try discriminate;
      cbn in Hi; injection Hi as <-.
    + destruct s as [|a s]; [reflexivity|].
      pose proof (py_chars_cons a s) as N.
      destruct (py_chars (String a s)); [congruence | discriminate].
    + now apply mapM_status_errors_ok in Hx.
    + destruct d; [reflexivity | discriminate].
  - intros H. injection H as <-. repeat split; congruence.
Qed.

Lemma getitem_ok_has_key d k x :
  py_getitem (JObj d) k = Ok x -> has_key k d = true.
Proof.
  unfold py_getitem, has_key. destruct (lookup k d); [reflexivity|discriminate].
Qed.

Lemma parse_status_ok r st :
  _parse_status (JObj r) = Ok st ->
  status_fields_shape true r = true /\
  (status_conversation st <> None <-> has_key "conversation" r = true) /\
  (status_pricing st <> None <-> has_key "pricing" r = true) /\
  (status_errors st <> None <-> has_key "errors" r = true).
Proof.
  unfold _parse_status. intros H.
  apply bind_ok in H as (c & Hc & H). apply bind_ok in H as (p & Hp & H).
  apply bind_ok in H as (e & He & H). apply bind_ok in H as (i & Hi & H).
  apply bind_ok in H as (s & Hs & H). apply bind_ok in H as (t & Ht & H).
  apply bind_ok in H as (rc & Hr & H). injection H as <-. cbn.
  apply parse_conversation_ok in Hc as [Hc1 Hc2].
  apply parse_pricing_ok in Hp as [Hp1 Hp2].
  apply parse_errors_ok in He as [He1 He2].
  apply getitem_ok_has_key in Hi, Hs, Ht, Hr.
  repeat split; try tauto.
  unfold status_fields_shape. rewrite Hc1, Hp1, He1. cbn.
  now rewrite Hi, Hs, Ht, Hr.
Qed.

(** C8, as the code has it. Status parsing succeeds exactly on the status
    objects of the strict shape: the four required keys are present and each
    of [conversation], [pricing] and [errors] that is present is well
    formed.  So it fails whenever a required key is absent, and with all four
    present it fails only on a malformed optional value.  When it succeeds,
    each optional field is parsed if and only if its key is present, and is
    [None] otherwise. *)
Theorem parse_status_outcome (r : fields) :
  ((exists st, _parse_status (JObj r) = Ok st)
   <-> status_fields_shape true r = true) /\
  (forall k, In k required_status_keys -> has_key k r = false ->
             exists e, _parse_status (JObj r) = Raise e) /\
  (forall st, _parse_status (JObj r) = Ok st ->
     (status_conversation st <> None <-> has_key "conversation" r = true) /\
     (status_pricing st <> None <-> has_key "pricing" r = true) /\
     (status_errors st <> None <-> has_key "errors" r = true)).
Proof.
  split; [split|split].
  - intros [st H]. now apply parse_status_ok in H.
  - intros H. now apply admissible_strict, (parse_status_admissible true (JObj r)).
  - intros k Hk Hn.
    destruct (_parse_status (JObj r)) as [st|e] eqn:E; [|eauto].
    apply parse_status_ok in E as [E _].
    unfold status_fields_shape in E. split_shape E. cbn [negb orb] in E0.
    rewrite forallb_forall in E0. rewrite (E0 k Hk) in Hn. discriminate.
  - intros st H. now apply parse_status_ok in H.
Qed.

Lemma parse_status_outcome_witness :
  (exists st, _parse_status (JObj status_sent) = Ok st) /\
  exists e, _parse_status (JObj (tl status_sent)) = Raise e.
Proof.
  split.
  - exact (proj2 (proj1 (parse_status_outcome status_sent)) eq_refl).
  - exact (proj1 (proj2 (parse_status_outcome (tl status_sent)))
             "id" (or_introl eq_refl) eq_refl).
Defined.

(** C8, as stated, fails: this status has its four required keys, and
    parsing it raises because its [conversation] has no [origin]. *)
Lemma status_with_required_keys_raises :
  forallb (fun k => has_key k status_conversation_without_origin)
    required_status_keys = true /\
  _parse_status (JObj status_conversation_without_origin)
  = Raise (KeyError "origin").
Proof. split; reflexivity. Qed.

(** * Further properties of the webhook module *)

(** ** Verification *)

Section VerificationProperties.

Variable WhatsAppClient : Type.
Variable hmac_sha256 : bytes -> bytes -> bytes.

Local Abbreviation verify := (verify_signature WhatsAppClient hmac_sha256).
Local Abbreviation trace := (list (event WhatsAppClient)).

(** With a secret that encodes, [verify_signature] returns normally for
    exactly one header value. *)
Lemma verify_signature_returns_iff body signature app_secret (t : trace) :
  fst (verify body signature app_secret t) = Ok tt <->
  signature = sign hmac_sha256 body app_secret.
Proof.
  split.
  - destruct (startswith signature "sha256=") eqn:E.
    + apply startswith_split in E. rewrite E at 1.
      rewrite verify_signature_prefixed. cbn [fst]. unfold sign, compare_digest.
      destruct (is_ascii _ && is_ascii _); [|discriminate].
      destruct (String.eqb_spec
                  (hexdigest (hmac_sha256 (encode app_secret) body))
                  (drop (String.length "sha256=") signature)) as [Q|_];
        [|discriminate].
      intros _. rewrite E at 1. now rewrite Q.
    + unfold verify_signature. rewrite E. discriminate.
  - intros ->. now rewrite verify_signature_accepts_signed.
Qed.

(** With a secret that encodes, the ways [verify_signature] fails. *)
Lemma verify_signature_raises_iff body signature app_secret (t : trace) e :
  fst (verify body signature app_secret t) = Raise e <->
  (e = malformed_signature /\ startswith signature "sha256=" = false) \/
  (e = TypeError /\ startswith signature "sha256=" = true /\
   is_ascii (removeprefix signature "sha256=") = false) \/
  (e = signature_mismatch /\ startswith signature "sha256=" = true /\
   is_ascii (removeprefix signature "sha256=") = true /\
   signature <> sign hmac_sha256 body app_secret).
Proof.
  destruct (startswith signature "sha256=") eqn:E.
  - pose proof (startswith_split _ _ E) as S.
    set (h := drop (String.length "sha256=") signature) in *.
    assert (R : removeprefix signature "sha256=" = h).
    { rewrite S. apply removeprefix_app. }
    rewrite R. rewrite S at 1. rewrite verify_signature_prefixed. cbn [fst].
    unfold compare_digest. rewrite hexdigest_is_ascii. cbn [andb].
    assert (Q : signature = sign hmac_sha256 body app_secret <->
                hexdigest (hmac_sha256 (encode app_secret) body) = h).
    { unfold sign. rewrite S at 1. split; intros C.
      - now injection C.
      - now rewrite C. }
    destruct (is_ascii h) eqn:A.
    + destruct (String.eqb_spec
                  (hexdigest (hmac_sha256 (encode app_secret) body)) h)
        as [D|D]; cbn; split.
      * discriminate.
      * intros [[_ C]|[(_ & _ & C)|(_ & _ & _ & C)]]; try discriminate.
        elim C. now apply Q.
      * intros H. injection H as <-. right; right. repeat split.
        intros C. now apply D, Q.
      * intros [[_ C]|[(_ & _ & C)|(-> & _)]]; try discriminate.
        reflexivity.
    + split.
      * intros H. injection H as <-. right; left. now repeat split.
      * intros [[_ C]|[(-> & _)|(_ & _ & C & _)]]; try discriminate.
        reflexivity.
  - unfold verify_signature. rewrite E. cbn. split.
    + intros H. injection H as <-. left. now split.
    + intros [[-> _]|[(_ & C & _)|(_ & C & _)]]; try discriminate.
      reflexivity.
Qed.

(** On a secret that encodes, [verify_signature_full] is
    [verify_signature]. *)
Lemma verify_signature_full_encodable body signature app_secret (t : trace) :
  has_surrogate app_secret = false ->
  verify_signature_full WhatsAppClient hmac_sha256 body signature app_secret t
  = verify body signature app_secret t.
Proof.
  intros H. unfold verify_signature_full, verify_signature, str_encode.
  rewrite H. destruct (startswith signature "sha256="); reflexivity.
Qed.

(** On a secret that does not encode, nothing happens after the prefix
    test: [hmac.new] is not called. *)
Lemma verify_signature_full_unencodable body signature app_secret
    (t : trace) :
  has_surrogate app_secret = true ->
  verify_signature_full WhatsAppClient hmac_sha256 body signature app_secret t
  = (Raise (if startswith signature "sha256=" then UnicodeEncodeError
            else malformed_signature), t).
Proof.
  intros H. unfold verify_signature_full, str_encode.
  rewrite H. destruct (startswith signature "sha256="); reflexivity.
Qed.

(** X1. [verify_signature] returns normally exactly when the secret can be
    encoded and the header value is ["sha256="] followed by the lowercase
    hexadecimal HMAC of the body under the encoded secret.  No other
    signature is accepted, and under a secret that [str.encode()] rejects no
    signature is accepted at all. *)
Theorem verify_signature_accepts_only_signed body signature app_secret
    (t : trace) :
  fst (verify_signature_full WhatsAppClient hmac_sha256 body signature
         app_secret t) = Ok tt <->
  has_surrogate app_secret = false /\
  signature = sign hmac_sha256 body app_secret.
Proof.
  destruct (has_surrogate app_secret) eqn:S.
  - rewrite verify_signature_full_unencodable by assumption. cbn [fst].
    split; [discriminate | intros [C _]; discriminate].
  - rewrite verify_signature_full_encodable by assumption.
    rewrite verify_signature_returns_iff. tauto.
Qed.

(** X2. The ways [verify_signature] fails: with the missing-prefix error
    exactly when the prefix is missing; with [UnicodeEncodeError] exactly
    when the prefix is there and the secret holds a surrogate; with
    [TypeError] exactly when the prefix is there, the secret encodes and
    what follows the prefix is not ASCII; with the mismatch error exactly
    when the secret encodes and what follows the prefix is ASCII and is not
    the expected digest.  It raises nothing else. *)
Theorem verify_signature_failures body signature app_secret (t : trace) e :
  fst (verify_signature_full WhatsAppClient hmac_sha256 body signature
         app_secret t) = Raise e <->
  (e = malformed_signature /\ startswith signature "sha256=" = false) \/
  (e = UnicodeEncodeError /\ startswith signature "sha256=" = true /\
   has_surrogate app_secret = true) \/
  (e = TypeError /\ startswith signature "sha256=" = true /\
   has_surrogate app_secret = false /\
   is_ascii (removeprefix signature "sha256=") = false) \/
  (e = signature_mismatch /\ startswith signature "sha256=" = true /\
   has_surrogate app_secret = false /\
   is_ascii (removeprefix signature "sha256=") = true /\
   signature <> sign hmac_sha256 body app_secret).
Proof.
  destruct (has_surrogate app_secret) eqn:S.
  - rewrite verify_signature_full_unencodable by assumption. cbn [fst].
    destruct (startswith signature "sha256="); split.
    + intros H. injection H as <-. right; left. now repeat split.
    + intros [[_ C]|[(-> & _)|[(_ & _ & C & _)|(_ & _ & C & _)]]];
        try discriminate. reflexivity.
    + intros H. injection H as <-. left. now split.
    + intros [[-> _]|[(_ & C & _)|[(_ & C & _)|(_ & C & _)]]];
        try discriminate. reflexivity.
  - rewrite verify_signature_full_encodable by assumption.
    rewrite verify_signature_raises_iff. split.
    + intros [H|[(He & Hp & Ha)|(He & Hp & Ha & Hn)]].
      * now left.
      * right; right; left. now repeat split.
      * right; right; right. now repeat split.
    + intros [H|[(_ & _ & C)|[(He & Hp & _ & Ha)|(He & Hp & _ & Ha & Hn)]]].
      * now left.
      * discriminate.
      * right; left. now repeat split.
      * right; right. now repeat split.
Qed.

End VerificationProperties.

Lemma verify_signature_accepts_only_signed_witness :
  fst (verify_signature_full unit (fun key msg => msg) [x0b; xad]%list
         "sha256=0bad" "secret" [])
  = Ok tt /\
  fst (verify_signature_full unit (fun key msg => msg) [x0b; xad]%list
         "sha256=0bad" fsdecoded_ff [])
  <> Ok tt.
Proof.
  split.
  - apply (proj2 (verify_signature_accepts_only_signed unit
                    (fun key msg => msg) [x0b; xad]%list "sha256=0bad"
                    "secret" [])).
    split; reflexivity.
  - intros H.
    apply (proj1 (verify_signature_accepts_only_signed unit
                    (fun key msg => msg) [x0b; xad]%list "sha256=0bad"
                    fsdecoded_ff [])) in H.
    destruct H as [H _]. discriminate H.
Defined.

Lemma verify_signature_failures_witness :
  fst (verify_signature_full unit (fun key msg => msg) [x0b; xad]%list
         "sha256=0BAD" "secret" [])
  = Raise signature_mismatch /\
  fst (verify_signature_full unit (fun key msg => msg) [x0b; xad]%list
         "sha256=0bad" fsdecoded_ff [])
  = Raise UnicodeEncodeError.
Proof.
  split.
  - apply (proj2 (verify_signature_failures unit (fun key msg => msg)
                    [x0b; xad]%list "sha256=0BAD" "secret" []
                    signature_mismatch)).
    right; right; right. repeat split. discriminate.
  - apply (proj2 (verify_signature_failures unit (fun key msg => msg)
                    [x0b; xad]%list "sha256=0bad" fsdecoded_ff []
                    UnicodeEncodeError)).
    right; left. repeat split.
Defined.

(** X3. [verify_challenge] echoes the challenge exactly when the mode is
    ["subscribe"] and the token is the verify token; a wrong mode is reported
    first, with the mode in the message, whatever the token is; a wrong
    token with the right mode is a token mismatch. *)
Theorem verify_challenge_outcome (mode token challenge verify_token : string) :
  (forall c, verify_challenge mode token challenge verify_token = Ok c <->
             mode = "subscribe" /\ token = verify_token /\ c = challenge) /\
  (mode <> "subscribe" ->
   verify_challenge mode token challenge verify_token
   = Raise (WebhookVerificationError ("Unexpected mode: " ++ mode)%string)) /\
  (mode = "subscribe" -> token <> verify_token ->
   verify_challenge mode token challenge verify_token
   = Raise (WebhookVerificationError "Token mismatch")).
Proof.
  unfold verify_challenge.
  destruct (String.eqb_spec mode "subscribe") as [M|M];
    destruct (String.eqb_spec token verify_token) as [T|T]; cbn [negb];
    (split; [intros c; split;
               [intros H; try discriminate; injection H as <-; auto
               |intros (? & ? & ->); congruence]
            |split; intros; congruence]).
Qed.

Lemma verify_challenge_outcome_witness :
  verify_challenge "subscribe" "mytoken" "challenge_string" "mytoken"
  = Ok "challenge_string" /\
  verify_challenge "unsubscribe" "mytoken" "c" "mytoken"
  = Raise (WebhookVerificationError "Unexpected mode: unsubscribe") /\
  verify_challenge "subscribe" "wrong" "c" "mytoken"
  = Raise (WebhookVerificationError "Token mismatch").
Proof.
  split; [|split].
  - apply (proj1 (verify_challenge_outcome "subscribe" "mytoken"
                    "challenge_string" "mytoken")). auto.
  - apply (proj1 (proj2 (verify_challenge_outcome "unsubscribe" "mytoken"
                           "c" "mytoken"))). discriminate.
  - apply (proj2 (proj2 (verify_challenge_outcome "subscribe" "wrong"
                           "c" "mytoken"))); [reflexivity | discriminate].
Defined.

(** ** What [handle] does after verification *)

Section HandleProperties.

Variable WhatsAppClient : Type.
Variable hmac_sha256 : bytes -> bytes -> bytes.
Variable json_loads : bytes -> result json.

Local Abbreviation verify := (verify_signature WhatsAppClient hmac_sha256).
Local Abbreviation run := (handle WhatsAppClient hmac_sha256 json_loads).
Local Abbreviation handler := (WebhookHandler WhatsAppClient).
Local Abbreviation trace := (list (event WhatsAppClient)).

Lemma run_calls_stops (self : handler) done ev rest e (t : trace) :
  (forall x, In x done -> call_outcome self x = Ok tt) ->
  call_outcome self ev = Raise e ->
  run_calls self (done ++ ev :: rest) t = (Raise e, t ++ done ++ [ev]).
Proof.
  intros Hd He. revert t. induction done as [|x done IH]; intros t.
  - cbn. unfold bind_io, step. now rewrite He.
  - cbn [app run_calls]. unfold bind_io at 1, step.
    rewrite (Hd x (or_introl eq_refl)).
    rewrite IH by (intros y Hy; apply Hd; now right).
    now rewrite <- app_assoc.
Qed.

(** X4. A body that verifies but does not decode: [handle] raises what
    [json.loads] raised, after decoding was attempted and before anything
    is parsed or any handler called. *)
Theorem handle_propagates_decode_error (self : handler) body signature e
    (t t1 : trace) :
  verify_signature WhatsAppClient hmac_sha256 body signature
    (_app_secret _ self) t = (Ok tt, t1) ->
  json_loads body = Raise e ->
  handle WhatsAppClient hmac_sha256 json_loads self body signature t
  = (Raise e, t1 ++ [JsonLoads body]).
Proof.
  intros Hv Hj. unfold handle, bind_io at 1. rewrite Hv.
  unfold bind_io, step. now rewrite Hj.
Qed.

(** X5. A body that verifies and decodes but does not parse: [handle]
    raises what [from_dict] raised and calls no handler, not even for the
    notifications that come before the one that fails to parse. *)
Theorem handle_propagates_parse_error (self : handler) body signature data e
    (t t1 : trace) :
  verify body signature (_app_secret _ self) t = (Ok tt, t1) ->
  json_loads body = Ok data ->
  from_dict data = Raise e ->
  run self body signature t
  = (Raise e, t1 ++ [JsonLoads body; FromDict data]).
Proof.
  intros Hv Hj Hp. unfold handle, bind_io at 1. rewrite Hv.
  unfold bind_io at 1, step at 1. rewrite Hj.
  unfold bind_io, step. rewrite Hp. now rewrite <- app_assoc.
Qed.

(** X6. The first callback that raises ends the dispatch: [handle] raises
    that exception, having made the calls before it and the raising call,
    and none of the calls after it. *)
Theorem handle_stops_at_raising_callback (self : handler) body signature
    data ns done ev rest e (t t1 : trace) :
  verify body signature (_app_secret _ self) t = (Ok tt, t1) ->
  json_loads body = Ok data ->
  from_dict data = Ok ns ->
  expected_calls self ns = done ++ ev :: rest ->
  (forall x, In x done -> call_outcome self x = Ok tt) ->
  call_outcome self ev = Raise e ->
  run self body signature t
  = (Raise e, t1 ++ [JsonLoads body; FromDict data] ++ done ++ [ev]).
Proof.
  intros Hv Hj Hp Hs Hd He. unfold handle, bind_io at 1. rewrite Hv.
  unfold bind_io at 1, step at 1. rewrite Hj.
  unfold bind_io at 1, step at 1. rewrite Hp.
  rewrite for_each_dispatch_runs, Hs, (run_calls_stops self done ev rest e)
    by assumption.
  now rewrite <- !app_assoc.
Qed.

End HandleProperties.

Lemma handle_propagates_decode_error_witness :
  let self := {| _app_secret := "test_app_secret"; _client := tt;
                 _on_message := Some (fun _ _ _ => Ok tt);
                 _on_status := None |} in
  handle unit (fun key msg => msg) (fun _ => Raise JSONDecodeError) self
    (encode "{") "sha256=7b" []
  = (Raise JSONDecodeError,
     [HmacNew (encode "test_app_secret") (encode "{");
      JsonLoads (encode "{")]).
Proof.
  intros self.
  exact (handle_propagates_decode_error unit (fun key msg => msg)
           (fun _ => Raise JSONDecodeError) self (encode "{") "sha256=7b"
           JSONDecodeError [] _ eq_refl eq_refl).
Defined.

Lemma handle_propagates_parse_error_witness :
  let self := {| _app_secret := "test_app_secret"; _client := tt;
                 _on_message := Some (fun _ _ _ => Ok tt);
                 _on_status := None |} in
  let data := messages_payload [text_message; text_message_without_id] in
  handle unit (fun key msg => msg) (fun _ => Ok data) self
    (encode "{}") "sha256=7b7d" []
  = (Raise (KeyError "id"),
     [HmacNew (encode "test_app_secret") (encode "{}");
      JsonLoads (encode "{}"); FromDict data]).
Proof.
  intros self data.
  exact (handle_propagates_parse_error unit (fun key msg => msg)
           (fun _ => Ok data) self (encode "{}") "sha256=7b7d" data
           (KeyError "id") [] _ eq_refl eq_refl eq_refl).
Defined.

Lemma handle_stops_at_raising_callback_witness :
  let second := ("id", JStr "wamid.2") :: text_message_without_id in
  let third := ("id", JStr "wamid.3") :: text_message_without_id in
  let data := messages_payload [text_message; second; third] in
  let refuse_second (_ : unit) (_ : WebhookNotification) (m : Message) :=
    if py_eq_str (message_id m) "wamid.2" then Raise (UserError "refused")
    else Ok tt in
  let self := {| _app_secret := "test_app_secret"; _client := tt;
                 _on_message := Some refuse_second;
                 _on_status := None |} in
  exists n m1 m2 m3,
    from_dict data = Ok [n] /\ messages n = [m1; m2; m3] /\
    handle unit (fun key msg => msg) (fun _ => Ok data) self
      (encode "{}") "sha256=7b7d" []
    = (Raise (UserError "refused"),
       [HmacNew (encode "test_app_secret") (encode "{}");
        JsonLoads (encode "{}"); FromDict data;
        OnMessage tt n m1; OnMessage tt n m2]).
Proof.
  intros second third data refuse_second self.
  do 4 eexists. split; [reflexivity|]. split; [reflexivity|].
  lazymatch goal with
  | |- _ = (_, [_; _; _; ?a; ?b]) =>
      refine (handle_stops_at_raising_callback unit (fun key msg => msg)
                (fun _ => Ok data) self (encode "{}") "sha256=7b7d" data
                _ [a] b [_] (UserError "refused") [] _
                eq_refl eq_refl eq_refl eq_refl _ eq_refl)
  end.
  intros x [<-|[]]. reflexivity.
Defined.

(** ** The content dispatch table *)

Lemma py_eq_str_true v s : py_eq_str v s = true -> v = JStr s.
Proof.
  destruct v; try discriminate. cbn. intros H.
  now apply String.eqb_eq in H as ->.
Qed.

Lemma py_eq_str_false v s : py_eq_str v s = false -> v <> JStr s.
Proof.
  intros H ->. cbn in H. now rewrite String.eqb_refl in H.
Qed.

Ltac ok_inv H :=
  repeat (let x := fresh "x" in
          let Hx := fresh "Hx" in
          apply bind_ok in H as (x & Hx & H));
  injection H as <-.

(** X7. The variant of a parsed content is decided by the [type] of the
    message, and for an interactive message by the inner [type]: text only
    from ["text"], media only from the five media tags, location only from
    ["location"], a button reply only from ["button"] or from an interactive
    ["button_reply"], a list reply only from an interactive ["list_reply"],
    a reaction only from ["reaction"]; and the unsupported variant, which
    holds the message itself, only from an unrecognized type or an unknown
    interactive type. *)
Theorem content_variant_follows_type (m : fields) (c : MessageContent) :
  _parse_content (JObj m) = Ok c ->
  match c with
  | TextContent _ => type_tag m = JStr "text"
  | MediaContent _ _ _ _ => exists t, In t media_tags /\ type_tag m = JStr t
  | LocationContent _ _ _ _ => type_tag m = JStr "location"
  | ButtonReplyContent _ _ =>
      type_tag m = JStr "button" \/
      (type_tag m = JStr "interactive" /\
       exists ia, lookup "interactive" m = Some (JObj ia) /\
                  type_tag ia = JStr "button_reply")
  | ListReplyContent _ _ _ =>
      type_tag m = JStr "interactive" /\
      exists ia, lookup "interactive" m = Some (JObj ia) /\
                 type_tag ia = JStr "list_reply"
  | ReactionContent _ _ => type_tag m = JStr "reaction"
  | UnsupportedContent raw =>
      raw = JObj m /\ (unrecognized_type m \/ unknown_interactive m)
  end.
Proof.
  unfold _parse_content. rewrite py_get_type_tag. cbn [bind].
  destruct (type_tag m) as [| | | |t| |] eqn:T;
    try (intros H; injection H as <-; split; [reflexivity|];
         left; intros t' _; rewrite T; discriminate).
  destruct (String.eqb_spec t "text") as [->|N1].
  { intros H. ok_inv H. reflexivity. }
  destruct (is_media_tag t) eqn:M.
  { intros H. ok_inv H. exists t. split; [|reflexivity].
    apply existsb_exists in M as (s & Hs & E).
    now apply String.eqb_eq in E as ->. }
  destruct (String.eqb_spec t "location") as [->|N2].
  { intros H. ok_inv H. reflexivity. }
  destruct (String.eqb_spec t "button") as [->|N3].
  { intros H. ok_inv H. now left. }
  destruct (String.eqb_spec t "interactive") as [->|N4].
  { intros H. apply bind_ok in H as (ia & Hia & H).
    apply bind_ok in H as (ty & Hty & H).
    destruct ia as [| | | | | |ia]; try discriminate.
    rewrite py_get_type_tag in Hty. injection Hty as <-.
    assert (L : lookup "interactive" m = Some (JObj ia)).
    { unfold py_getitem in Hia.
      destruct (lookup "interactive" m); [congruence | discriminate]. }
    destruct (py_eq_str (type_tag ia) "button_reply") eqn:B.
    { ok_inv H. right. split; [reflexivity|]. exists ia.
      split; [exact L | now apply py_eq_str_true]. }
    destruct (py_eq_str (type_tag ia) "list_reply") eqn:R.
    { ok_inv H. split; [reflexivity|]. exists ia.
      split; [exact L | now apply py_eq_str_true]. }
    injection H as <-. split; [reflexivity|]. right. exists ia.
    unfold type_tag at 1. unfold type_tag in T.
    destruct (lookup "type" m) as [v|]; [|discriminate]. subst v.
    repeat split; [exact L | now apply py_eq_str_false
                  | now apply py_eq_str_false]. }
  destruct (String.eqb_spec t "reaction") as [->|N5].
  { intros H. ok_inv H. reflexivity. }
  intros H. injection H as <-. split; [reflexivity|]. left.
  intros t' Hin Heq. rewrite T in Heq. injection Heq as <-. cbn in Hin.
  repeat (destruct Hin as [<-|Hin];
          [first [congruence | cbv in M; discriminate]|]).
  destruct Hin.
Qed.

Lemma content_variant_follows_type_witness :
  type_tag text_message = JStr "text".
Proof.
  exact (content_variant_follows_type text_message (TextContent (JStr "Hello"))
           eq_refl).
Defined.

(** X8. The five media tags share one shape: a message whose [type] is
    [image], [video], [audio], [document] or [sticker] and that holds, under
    the key of the same name, an object with [id], [mime_type] and [sha256]
    parses to [MediaContent] with these three values, and with the caption
    of the object or [None] when it has none. *)
Theorem media_tags_share_one_shape (m media : fields) (t : string)
    (i mt sh : json) :
  In t media_tags ->
  lookup "type" m = Some (JStr t) ->
  lookup t m = Some (JObj media) ->
  lookup "id" media = Some i ->
  lookup "mime_type" media = Some mt ->
  lookup "sha256" media = Some sh ->
  _parse_content (JObj m)
  = Ok (MediaContent i mt sh (get_or_none "caption" media)).
Proof.
  intros Ht Hty Hm Hi Hmt Hsh.
  unfold _parse_content. rewrite py_get_type_tag. unfold type_tag.
  rewrite Hty. cbn [bind].
  assert (E : (t =? "text") = false /\ is_media_tag t = true).
  { cbn in Ht. repeat (destruct Ht as [<-|Ht]; [now split|]). destruct Ht. }
  destruct E as [-> ->]. unfold py_getitem, py_get, get_or_none.
  rewrite Hm. cbn [bind]. rewrite Hi. cbn [bind]. rewrite Hmt. cbn [bind].
  rewrite Hsh. cbn [bind]. now destruct (lookup "caption" media).
Qed.

Lemma media_tags_share_one_shape_witness :
  _parse_content
    (JObj [("id", JStr "wamid.doc"); ("from", JStr "5511999999999");
           ("timestamp", JStr "1700000000"); ("type", JStr "document");
           ("document", JObj [("id", JStr "doc_id");
                              ("mime_type", JStr "application/pdf");
                              ("sha256", JStr "def456")])])
  = Ok (MediaContent (JStr "doc_id") (JStr "application/pdf") (JStr "def456")
          JNull).
Proof.
  apply (media_tags_share_one_shape _
           [("id", JStr "doc_id"); ("mime_type", JStr "application/pdf");
            ("sha256", JStr "def456")]
           "document");
    [cbn; tauto | reflexivity ..].
Defined.

(** X9. The optional sub-keys of a location and of a list reply: a
    location message gives [LocationContent] with its latitude and
    longitude and with [name] and [address] read as [None] when missing; an
    interactive [list_reply] gives [ListReplyContent] with its id and title
    and with [description] read as [None] when missing. *)
Theorem location_and_list_reply_optionals (m : fields) :
  (forall loc la lo,
     lookup "type" m = Some (JStr "location") ->
     lookup "location" m = Some (JObj loc) ->
     lookup "latitude" loc = Some la ->
     lookup "longitude" loc = Some lo ->
     _parse_content (JObj m)
     = Ok (LocationContent la lo (get_or_none "name" loc)
             (get_or_none "address" loc))) /\
  (forall ia r i t,
     lookup "type" m = Some (JStr "interactive") ->
     lookup "interactive" m = Some (JObj ia) ->
     lookup "type" ia = Some (JStr "list_reply") ->
     lookup "list_reply" ia = Some (JObj r) ->
     lookup "id" r = Some i ->
     lookup "title" r = Some t ->
     _parse_content (JObj m)
     = Ok (ListReplyContent i t (get_or_none "description" r))).
Proof.
  split.
  - intros loc la lo Hty Hl Hla Hlo.
    unfold _parse_content. rewrite py_get_type_tag. unfold type_tag.
    rewrite Hty. cbn. rewrite Hl. cbn. rewrite Hla. cbn. rewrite Hlo. cbn.
    unfold get_or_none.
    destruct (lookup "name" loc); destruct (lookup "address" loc); reflexivity.
  - intros ia r i t Hty Hia Hity Hr Hi Ht.
    unfold _parse_content. rewrite py_get_type_tag. unfold type_tag.
    rewrite Hty. cbn. rewrite Hia. cbn. rewrite Hity. cbn. rewrite Hr. cbn.
    rewrite Hi. cbn. rewrite Ht. cbn. unfold get_or_none.
    destruct (lookup "description" r); reflexivity.
Qed.

Lemma location_and_list_reply_optionals_witness :
  _parse_content
    (JObj [("type", JStr "location");
           ("location", JObj [("latitude", JFloat (-47) (-1));
                              ("longitude", JFloat (-93) (-1));
                              ("name", JStr "Sao Paulo")])])
  = Ok (LocationContent (JFloat (-47) (-1)) (JFloat (-93) (-1))
          (JStr "Sao Paulo") JNull)
  /\
  _parse_content
    (JObj [("type", JStr "interactive");
           ("interactive",
            JObj [("type", JStr "list_reply");
                  ("list_reply", JObj [("id", JStr "row_1");
                                       ("title", JStr "Option 1")])])])
  = Ok (ListReplyContent (JStr "row_1") (JStr "Option 1") JNull).
Proof.
  split.
  - apply (proj1 (location_and_list_reply_optionals _)
             [("latitude", JFloat (-47) (-1)); ("longitude", JFloat (-93) (-1));
              ("name", JStr "Sao Paulo")]);
      reflexivity.
  - apply (proj2 (location_and_list_reply_optionals _)
             [("type", JStr "list_reply");
              ("list_reply", JObj [("id", JStr "row_1");
                                   ("title", JStr "Option 1")])]
             [("id", JStr "row_1"); ("title", JStr "Option 1")]);
      reflexivity.
Defined.

(** ** Messages and contacts *)

Lemma getitem_ok_lookup d k x :
  py_getitem (JObj d) k = Ok x -> lookup k d = Some x.
Proof.
  unfold py_getitem. destruct (lookup k d); [congruence | discriminate].
Qed.

Lemma getitem_ok_object v k x :
  py_getitem v k = Ok x -> exists d, v = JObj d /\ lookup k d = Some x.
Proof.
  destruct v as [| | | | | |d]; try discriminate.
  intros H. exists d. split; [reflexivity | now apply getitem_ok_lookup].
Qed.

Lemma get_ok_object v k def x :
  py_get v k def = Ok x -> exists d, v = JObj d.
Proof.
  destruct v as [| | | | | |d]; try discriminate. eauto.
Qed.

(** Turn every successful subscript in the context into the lookup it
    stands for. *)
Ltac getitem_facts :=
  repeat match goal with
         | H : py_getitem (JObj ?d) ?k = Ok ?x |- _ =>
             apply getitem_ok_lookup in H
         | H : py_getitem ?v ?k = Ok ?x |- _ =>
             let d := fresh "d" in
             let E := fresh "E" in
             destruct (getitem_ok_object v k x H) as (d & E & _); subst v
         | H : py_get (JObj ?d) ?k ?def = Ok ?x |- _ => clear H
         | H : py_get ?v ?k ?def = Ok ?x |- _ =>
             let d := fresh "d" in
             let E := fresh "E" in
             destruct (get_ok_object v k def x H) as (d & E); subst v
         end.

Ltac use_lookups :=
  unfold required, optional, object_with, has_key; cbn [forallb negb orb];
  repeat match goal with
         | L : lookup ?k ?d = Some _ |- context [lookup ?k ?d] => rewrite L
         end;
  try reflexivity.

Lemma parse_content_ok_shape d c :
  _parse_content (JObj d) = Ok c -> content_shape true d = true.
Proof.
  unfold _parse_content, content_shape. rewrite py_get_type_tag.
  unfold type_tag. cbn [bind].
  destruct (lookup "type" d) as [[| | | |t| |]|]; try reflexivity.
  destruct (t =? "text"); [|destruct (is_media_tag t);
    [|destruct (t =? "location"); [|destruct (t =? "button");
    [|destruct (t =? "interactive"); [|destruct (t =? "reaction")]]]]];
    intros H; try reflexivity;
    try (ok_inv H; getitem_facts; use_lookups; fail).
  apply bind_ok in H as (ia & Hia & H).
  apply bind_ok in H as (ty & Hty & H).
  destruct ia as [| | | | | |ia]; try discriminate.
  rewrite py_get_type_tag in Hty. injection Hty as <-.
  apply getitem_ok_lookup in Hia. unfold required. rewrite Hia.
  unfold interactive_shape. unfold type_tag in H.
  destruct (lookup "type" ia) as [[| | | |s| |]|]; try reflexivity;
    cbn [py_eq_str] in H.
  destruct (s =? "button_reply"); [|destruct (s =? "list_reply")];
    try reflexivity; ok_inv H; getitem_facts; use_lookups.
Qed.

Lemma parse_message_ok_shape m msg :
  _parse_message m = Ok msg -> message_shape true m = true.
Proof.
  unfold _parse_message. intros H.
  apply bind_ok in H as (has_context & Hc & H).
  apply bind_ok in H as (context & Hx & H).
  apply bind_ok in H as (i & Hi & H).
  destruct (getitem_ok_object _ _ _ Hi) as (d & -> & _).
  apply bind_ok in H as (f & Hf & H). apply bind_ok in H as (ts & Hts & H).
  apply bind_ok in H as (ty & Hty & H). apply bind_ok in H as (c & Hcn & H).
  apply parse_content_ok_shape in Hcn.
  apply getitem_ok_lookup in Hi, Hf, Hts.
  cbn in Hc. injection Hc as <-.
  unfold message_shape. rewrite Hcn, andb_true_r.
  unfold required. rewrite Hi, Hf, Hts. rewrite !andb_true_r.
  unfold optional. unfold has_key in Hx.
  destruct (lookup "context" d) as [ctx|] eqn:L; [|reflexivity].
  unfold py_getitem at 1 in Hx. rewrite L in Hx. cbn [bind] in Hx.
  ok_inv Hx. getitem_facts. use_lookups.
Qed.

(** X10. Message parsing succeeds on exactly the message objects of the
    strict shape: [id], [from] and [timestamp] present, a [context] that
    (when present) is an object with [from] and [id], and, for a recognized
    [type], the sub-object it names with its required keys.  Every other
    value, whether an object or not, makes [_parse_message] raise. *)
Theorem parse_message_succeeds_iff_strict (m : json) :
  (exists msg, _parse_message m = Ok msg) <-> message_shape true m = true.
Proof.
  split.
  - intros [msg H]. now apply parse_message_ok_shape in H.
  - intros H. now apply admissible_strict, parse_message_admissible.
Qed.

(** X11. What a parsed message holds: [id], [from] and [timestamp] are the
    values under these keys; [type] is the value under [type], or the empty
    string when the key is missing, kept as it is even when the content is
    unsupported; the content is the parse of the same object; the context is
    [None] exactly when the message has no [context] key, and otherwise
    holds the [from] and [id] of that object. *)
Theorem parse_message_fields (m : fields) (msg : Message) :
  _parse_message (JObj m) = Ok msg ->
  lookup "id" m = Some (message_id msg) /\
  lookup "from" m = Some (message_from_ msg) /\
  lookup "timestamp" m = Some (message_timestamp msg) /\
  message_type msg = type_tag m /\
  _parse_content (JObj m) = Ok (message_content msg) /\
  match message_context msg with
  | Some ctx =>
      exists c, lookup "context" m = Some (JObj c) /\
                lookup "from" c = Some (context_from_ ctx) /\
                lookup "id" c = Some (context_id ctx)
  | None => lookup "context" m = None
  end.
Proof.
  unfold _parse_message. intros H.
  apply bind_ok in H as (has_context & Hc & H).
  apply bind_ok in H as (context & Hx & H).
  apply bind_ok in H as (i & Hi & H). apply bind_ok in H as (f & Hf & H).
  apply bind_ok in H as (ts & Hts & H). apply bind_ok in H as (ty & Hty & H).
  apply bind_ok in H as (c & Hcn & H). injection H as <-. cbn.
  apply getitem_ok_lookup in Hi, Hf, Hts.
  rewrite py_get_type_tag in Hty. injection Hty as <-.
  repeat (split; [assumption || reflexivity|]).
  cbn in Hc. injection Hc as <-. unfold has_key in Hx.
  destruct (lookup "context" m) as [ctx|] eqn:L.
  - unfold py_getitem at 1 in Hx. rewrite L in Hx. cbn [bind] in Hx.
    ok_inv Hx. getitem_facts. cbn. eauto.
  - injection Hx as <-. reflexivity.
Qed.

Lemma parse_message_fields_witness :
  let reply :=
    [("id", JStr "wamid.reply"); ("from", JStr "5511999999999");
     ("timestamp", JStr "1700000000"); ("type", JStr "order");
     ("context", JObj [("from", JStr "15550001111");
                       ("id", JStr "wamid.original")])] in
  exists msg,
    _parse_message (JObj reply) = Ok msg /\
    message_type msg = JStr "order" /\
    message_content msg = UnsupportedContent (JObj reply) /\
    message_context msg
    = Some {| context_from_ := JStr "15550001111";
              context_id := JStr "wamid.original" |}.
Proof.
  intros reply. eexists. split; [reflexivity|].
  split; [|split; reflexivity].
  refine (proj1 (proj2 (proj2 (proj2
            (parse_message_fields reply _ eq_refl))))).
Defined.

(** X12. A contact parses exactly when it is an object with [wa_id] whose
    [profile], if present, is an object; the parsed contact holds that
    [wa_id], and the [name] of the profile or [None] when the profile or its
    name is missing. *)
Theorem parse_contact_outcome (c : json) :
  ((exists r, parse_contact c = Ok r) <-> contact_shape true c = true) /\
  (forall d r, c = JObj d -> parse_contact c = Ok r ->
     lookup "wa_id" d = Some (wa_id r) /\
     name r = get_or_none "name" (object_at "profile" d)).
Proof.
  split; [split|].
  - intros [r H]. unfold parse_contact in H.
    apply bind_ok in H as (w & Hw & H).
    destruct (getitem_ok_object _ _ _ Hw) as (d & -> & L).
    apply bind_ok in H as (p & Hp & H). apply bind_ok in H as (n & Hn & H).
    destruct (get_ok_object _ _ _ _ Hn) as (f & ->).
    unfold contact_shape, required, optional. rewrite L. cbn [andb].
    unfold py_get in Hp. destruct (lookup "profile" d) as [v|];
      [now injection Hp as -> | reflexivity].
  - intros H. now apply admissible_strict, parse_contact_admissible.
  - intros d r -> H. unfold parse_contact in H.
    apply bind_ok in H as (w & Hw & H). apply getitem_ok_lookup in Hw.
    apply bind_ok in H as (p & Hp & H). apply bind_ok in H as (n & Hn & H).
    injection H as <-. cbn. split; [exact Hw|].
    destruct (get_ok_object _ _ _ _ Hn) as (f & ->).
    unfold object_at, get_or_none. unfold py_get in Hp, Hn.
    destruct (lookup "profile" d) as [v|].
    + injection Hp as ->. cbn. destruct (lookup "name" f); congruence.
    + injection Hp as <-. cbn in Hn. cbn. congruence.
Qed.

Lemma parse_contact_outcome_witness :
  let c := [("wa_id", JStr "5511999999999")] in
  exists r, parse_contact (JObj c) = Ok r /\
            wa_id r = JStr "5511999999999" /\ name r = JNull.
Proof.
  intros c.
  destruct (proj2 (proj1 (parse_contact_outcome (JObj c))) eq_refl) as [r H].
  exists r. split; [exact H|].
  destruct (proj2 (parse_contact_outcome (JObj c)) c r eq_refl H) as [W N].
  split; [now injection W | exact N].
Defined.

(** ** Notifications *)

Lemma mapM_app {A B} (f : A -> result B) xs ys :
  mapM f (xs ++ ys) =
  (a <- mapM f xs ;; b <- mapM f ys ;; Ok (a ++ b)).
Proof.
  induction xs as [|x xs IH]; cbn.
  - destruct (mapM f ys); reflexivity.
  - destruct (f x); cbn; [|reflexivity]. rewrite IH.
    destruct (mapM f xs); cbn; [|reflexivity].
    destruct (mapM f ys); reflexivity.
Qed.

(** A comprehension over [d.get(k, [])] that returns ran over the array
    under [k]: the other iterables, a [dict] and a [str], give [str] items,
    on which the element parser raises. *)
Lemma comprehension_over_array {B} (f : json -> result B) k d x items ys :
  (forall s, exists e, f (JStr s) = Raise e) ->
  py_get (JObj d) k (JArr []) = Ok x ->
  py_iter x = Ok items ->
  mapM f items = Ok ys ->
  Forall2 (fun a b => f a = Ok b) (array_at k d) ys.
Proof.
  intros Hs Hg Hi Hm. unfold py_get in Hg. unfold array_at.
  assert (S : forall l, mapM f (map JStr l) = Ok ys -> l = [] /\ ys = []).
  { intros [|s l]; cbn; intros H; [now injection H as <-|].
    destruct (Hs s) as [e E]. rewrite E in H. discriminate. }
  destruct (lookup k d) as [v|].
  - injection Hg as ->.
    destruct x as [| | | |s|l|o]; try discriminate; cbn in Hi;
      injection Hi as <-.
    + apply S in Hm as [_ ->]. constructor.
    + now apply mapM_ok_Forall2.
    + rewrite <- (map_map fst JStr) in Hm. apply S in Hm as [_ ->].
      constructor.
  - injection Hg as <-. cbn in Hi. injection Hi as <-.
    now apply mapM_ok_Forall2.
Qed.

Lemma parse_contact_str s : exists e, parse_contact (JStr s) = Raise e.
Proof. cbn. eauto. Qed.

Lemma parse_message_str s : exists e, _parse_message (JStr s) = Raise e.
Proof.
  unfold _parse_message. cbn [py_contains bind].
  destruct (is_substring "context" s); cbn; eauto.
Qed.

Lemma parse_status_str s : exists e, _parse_status (JStr s) = Raise e.
Proof.
  unfold _parse_status, parse_conversation, parse_pricing, parse_errors.
  cbn [py_contains bind].
  destruct (is_substring "conversation" s); cbn; eauto.
  destruct (is_substring "pricing" s); cbn; eauto.
  destruct (is_substring "errors" s); cbn; eauto.
Qed.

(** X13. The collections of a notification follow the arrays of its change
    value position by position: the contacts, messages and statuses are the
    parses of the elements of [value.contacts], [value.messages] and
    [value.statuses], in the same order and number (none when the key is
    missing), and each metadata field is the value under its key or the
    empty string. *)
Theorem notification_follows_value (c : fields) (n : WebhookNotification) :
  notification_of_change (JObj c) = Ok n ->
  let v := object_at "value" c in
  let meta := object_at "metadata" v in
  Forall2 (fun x y => parse_contact x = Ok y)
    (array_at "contacts" v) (contacts n) /\
  Forall2 (fun x y => _parse_message x = Ok y)
    (array_at "messages" v) (messages n) /\
  Forall2 (fun x y => _parse_status x = Ok y)
    (array_at "statuses" v) (statuses n) /\
  py_get (JObj meta) "display_phone_number" (JStr "")
  = Ok (display_phone_number (metadata n)) /\
  py_get (JObj meta) "phone_number_id" (JStr "")
  = Ok (phone_number_id (metadata n)).
Proof.
  unfold notification_of_change. intros H.
  apply bind_ok in H as (value & Hv & H). apply bind_ok in H as (meta & Hm & H).
  destruct (get_ok_object _ _ _ _ Hm) as (v & ->).
  apply bind_ok in H as (dpn & Hd & H).
  destruct (get_ok_object _ _ _ _ Hd) as (mt & ->).
  apply bind_ok in H as (pni & Hp & H).
  apply bind_ok in H as (cs & Hcs & H). apply bind_ok in H as (ci & Hci & H).
  apply bind_ok in H as (cl & Hcl & H).
  apply bind_ok in H as (ms & Hms & H). apply bind_ok in H as (mi & Hmi & H).
  apply bind_ok in H as (ml & Hml & H).
  apply bind_ok in H as (ss & Hss & H). apply bind_ok in H as (si & Hsi & H).
  apply bind_ok in H as (sl & Hsl & H). injection H as <-. cbn.
  assert (V : object_at "value" c = v).
  { unfold object_at. unfold py_get in Hv.
    destruct (lookup "value" c); now injection Hv as ->. }
  assert (M : object_at "metadata" v = mt).
  { unfold object_at. unfold py_get in Hm.
    destruct (lookup "metadata" v); now injection Hm as ->. }
  rewrite V, M. repeat split; try assumption.
  - exact (comprehension_over_array _ _ _ _ _ _ parse_contact_str Hcs Hci Hcl).
  - exact (comprehension_over_array _ _ _ _ _ _ parse_message_str Hms Hmi Hml).
  - exact (comprehension_over_array _ _ _ _ _ _ parse_status_str Hss Hsi Hsl).
Qed.

Lemma notification_follows_value_witness :
  let c := [("value", JObj [("metadata", METADATA);
                            ("messages", JArr [JObj text_message;
                                               JObj text_message])]);
            ("field", JStr "messages")] in
  exists n,
    notification_of_change (JObj c) = Ok n /\
    Forall2 (fun x y => _parse_message x = Ok y)
      [JObj text_message; JObj text_message] (messages n).
Proof.
  intros c. eexists. split; [reflexivity|].
  exact (proj1 (proj2 (notification_follows_value c _ eq_refl))).
Defined.

Lemma notification_of_change_str s :
  exists e, notification_of_change (JStr s) = Raise e.
Proof. cbn. eauto. Qed.

Lemma notifications_of_entry_str s :
  exists e, notifications_of_entry (JStr s) = Raise e.
Proof. cbn. eauto. Qed.

Lemma notifications_of_entry_ok e l :
  notifications_of_entry e = Ok l ->
  Forall2 (fun c n => notification_of_change c = Ok n) (changes_of_entry e) l.
Proof.
  unfold notifications_of_entry. intros H.
  apply bind_ok in H as (cs & Hcs & H). apply bind_ok in H as (ci & Hci & H).
  destruct (get_ok_object _ _ _ _ Hcs) as (f & ->).
  exact (comprehension_over_array _ _ _ _ _ _ notification_of_change_str
           Hcs Hci H).
Qed.

Lemma Forall2_flat_map_concat {A B C} (R : B -> C -> Prop) (g : A -> list B)
    xs yss :
  Forall2 (fun x ys => Forall2 R (g x) ys) xs yss ->
  Forall2 R (flat_map g xs) (List.concat yss).
Proof.
  induction 1 as [|x ys xs yss H _ IH]; cbn; [constructor|].
  now apply Forall2_app.
Qed.

(** X14. One notification per (entry, change) pair, in payload order: when
    [from_dict] returns, its argument is an object and the notifications are,
    position by position, the notifications built from the changes of its
    entries. *)
Theorem from_dict_one_notification_per_change (data : json)
    (ns : list WebhookNotification) :
  from_dict data = Ok ns ->
  exists d, data = JObj d /\
            Forall2 (fun c n => notification_of_change c = Ok n)
              (all_changes d) ns.
Proof.
  rewrite from_dict_unfold. intros H.
  apply bind_ok in H as (es & Hes & H). apply bind_ok in H as (ei & Hei & H).
  apply bind_ok in H as (nss & Hn & H). injection H as <-.
  destruct (get_ok_object _ _ _ _ Hes) as (d & ->).
  exists d. split; [reflexivity|].
  apply Forall2_flat_map_concat.
  pose proof (comprehension_over_array _ _ _ _ _ _ notifications_of_entry_str
                Hes Hei Hn) as F.
  eapply Forall2_impl; [|exact F].
  intros e l. apply notifications_of_entry_ok.
Qed.

Lemma from_dict_one_notification_per_change_witness :
  exists d,
    messages_payload [text_message] = JObj d /\
    Forall2 (fun c n => notification_of_change c = Ok n) (all_changes d)
      [ {| metadata := {| display_phone_number := JStr "15550001111";
                          phone_number_id := JStr "123456" |};
           contacts := [];
           messages := [ {| message_id := JStr "wamid.abc";
                            message_from_ := JStr "5511999999999";
                            message_timestamp := JStr "1700000000";
                            message_type := JStr "text";
                            message_content := TextContent (JStr "Hello");
                            message_context := None |} ];
           statuses := [] |} ].
Proof.
  exact (from_dict_one_notification_per_change
           (messages_payload [text_message]) _ eq_refl).
Defined.

(** X15. A batch is parsed as its parts in sequence: for a payload whose
    entries are [es1] followed by [es2], [from_dict] gives the notifications
    of [es1] followed by those of [es2], raises what the parse of [es1]
    raises if that fails, and otherwise what the parse of [es2] raises.  The
    other keys of the payload play no part. *)
Theorem from_dict_of_appended_entries (d : fields) (es1 es2 : list json) :
  lookup "entry" d = Some (JArr (es1 ++ es2)) ->
  from_dict (JObj d) =
  (n1 <- from_dict (entries_payload es1) ;;
   n2 <- from_dict (entries_payload es2) ;;
   Ok (n1 ++ n2)).
Proof.
  intros H. rewrite !from_dict_unfold. unfold entries_payload, py_get.
  rewrite H. cbn [lookup String.eqb Ascii.eqb Bool.eqb bind py_iter].
  rewrite mapM_app.
  destruct (mapM notifications_of_entry es1) as [a|]; cbn [bind]; [|reflexivity].
  destruct (mapM notifications_of_entry es2) as [b|]; cbn [bind]; [|reflexivity].
  now rewrite concat_app.
Qed.

Lemma from_dict_of_appended_entries_witness :
  let entry ms :=
    JObj [("changes",
           JArr [JObj [("value", JObj [("messages", JArr (map JObj ms))])]])] in
  from_dict (JObj [("object", JStr "whatsapp_business_account");
                   ("entry", JArr [entry [text_message];
                                   entry [text_message_without_id]])])
  = Raise (KeyError "id").
Proof.
  intros entry.
  exact (from_dict_of_appended_entries
           [("object", JStr "whatsapp_business_account");
            ("entry", JArr [entry [text_message];
                            entry [text_message_without_id]])]
           [entry [text_message]] [entry [text_message_without_id]] eq_refl).
Defined.

(** * Properties of the API error and of the outbound client *)

(** ** The API error *)

(** X16. [WhatsAppAPIError.from_response] returns an error object exactly
    for the envelopes that are objects whose [error], if present, is an
    object whose [error_data], if present, is an object; on every other
    body it raises.  The object it returns carries the status code it was
    given, and for each field the value under its key, with the defaults 0,
    ["unknown"] and ["Unknown error"] for a missing code, type and message
    and [None] for the rest; a key that is present with [null] is not
    defaulted. *)
Theorem from_response_outcome (status : Z) (body : json) :
  ((exists err, from_response status body = Ok err)
   <-> envelope_shape body = true) /\
  (forall err, from_response status body = Ok err ->
     exists d, body = JObj d /\
       let error := object_at "error" d in
       api_status_code err = status /\
       api_error_code err = get_or "code" (JInt 0) error /\
       api_error_type err = get_or "type" (JStr "unknown") error /\
       api_message err = get_or "message" (JStr "Unknown error") error /\
       api_error_subcode err = get_or_none "error_subcode" error /\
       api_fbtrace_id err = get_or_none "fbtrace_id" error /\
       api_details err = get_or_none "details" (object_at "error_data" error)).
Proof.
  assert (G : forall d k def x, py_get (JObj d) k def = Ok x ->
                                x = get_or k def d).
  { intros d k def x. unfold py_get, get_or.
    destruct (lookup k d); congruence. }
  assert (O : forall d k f, py_get (JObj d) k (JObj []) = Ok (JObj f) ->
                            object_at k d = f).
  { intros d k f. unfold py_get, object_at.
    destruct (lookup k d) as [v|]; intros H; injection H as H; now subst. }
  split; [split|].
  - intros [err H]. unfold from_response in H.
    apply bind_ok in H as (e & He & H). apply bind_ok in H as (ed & Hed & H).
    apply bind_ok in H as (c & Hc & H). apply bind_ok in H as (t & Ht & H).
    apply bind_ok in H as (m & Hm & H). apply bind_ok in H as (s & Hs & H).
    apply bind_ok in H as (f & Hf & H). apply bind_ok in H as (dt & Hd & H).
    destruct (get_ok_object _ _ _ _ He) as (d & ->).
    destruct (get_ok_object _ _ _ _ Hed) as (ef & ->).
    destruct (get_ok_object _ _ _ _ Hd) as (df & ->).
    unfold envelope_shape, optional. unfold py_get in He, Hed.
    destruct (lookup "error" d) as [v|]; [|reflexivity].
    injection He as ->.
    destruct (lookup "error_data" ef) as [w|]; [|reflexivity].
    now injection Hed as ->.
  - destruct body as [| | | | | |d]; try discriminate.
    unfold envelope_shape, optional, from_response, py_get at 1.
    destruct (lookup "error" d) as [[| | | | | |ef]|]; try discriminate;
      cbn [bind]; unfold py_get at 1.
    + destruct (lookup "error_data" ef) as [[| | | | | |df]|];
        try discriminate; intros _; cbn [bind]; unfold py_get;
        repeat match goal with
               | |- context [lookup ?k ?f] => destruct (lookup k f)
               end; cbn; eauto.
    + intros _. cbn. eauto.
  - intros err H. unfold from_response in H.
    apply bind_ok in H as (e & He & H). apply bind_ok in H as (ed & Hed & H).
    apply bind_ok in H as (c & Hc & H). apply bind_ok in H as (t & Ht & H).
    apply bind_ok in H as (m & Hm & H). apply bind_ok in H as (s & Hs & H).
    apply bind_ok in H as (f & Hf & H). apply bind_ok in H as (dt & Hd & H).
    injection H as <-.
    destruct (get_ok_object _ _ _ _ He) as (d & ->).
    destruct (get_ok_object _ _ _ _ Hed) as (ef & ->).
    destruct (get_ok_object _ _ _ _ Hd) as (df & ->).
    exists d. split; [reflexivity|]. cbn.
    rewrite (O _ _ _ He), (O _ _ _ Hed).
    apply G in Hc, Ht, Hm, Hs, Hf, Hd. now repeat split.
Qed.

Lemma from_response_outcome_witness :
  from_response 500 (JObj [])
  = Ok {| api_status_code := 500;
          api_error_code := JInt 0;
          api_error_type := JStr "unknown";
          api_message := JStr "Unknown error";
          api_error_subcode := JNull;
          api_fbtrace_id := JNull;
          api_details := JNull |}
  /\ exists e, from_response 400 (JObj [("error", JNull)]) = Raise e.
Proof.
  split.
  - destruct (proj2 (proj1 (from_response_outcome 500 (JObj []))) eq_refl)
      as [err H].
    destruct (proj2 (from_response_outcome 500 (JObj [])) err H)
      as (d & E & S & C & T & M & U & F & D).
    rewrite H. destruct err. cbn in *. congruence.
  - destruct (from_response 400 (JObj [("error", JNull)])) as [err|e] eqn:H;
      [|eauto].
    pose proof (proj1 (proj1 (from_response_outcome 400
                                (JObj [("error", JNull)])))
                  (ex_intro _ err H)) as S.
    discriminate S.
Defined.

(** ** Sending *)

Lemma lookup_dict_set_same k v d : lookup k (dict_set k v d) = Some v.
Proof.
  induction d as [|[k' v'] d IH]; cbn.
  - now rewrite String.eqb_refl.
  - destruct (String.eqb_spec k k') as [->|N]; cbn.
    + now rewrite String.eqb_refl.
    + destruct (String.eqb_spec k k'); [contradiction | exact IH].
Qed.

Lemma lookup_dict_set_other k k' v d :
  k' <> k -> lookup k' (dict_set k v d) = lookup k' d.
Proof.
  intros N. induction d as [|[k0 v0] d IH]; cbn.
  - destruct (String.eqb_spec k' k); [contradiction | reflexivity].
  - destruct (String.eqb_spec k k0) as [->|N0]; cbn.
    + destruct (String.eqb_spec k' k0); [contradiction | reflexivity].
    + destruct (String.eqb_spec k' k0); [reflexivity | exact IH].
Qed.

(** X17. What [_send] does to a payload before posting it, when the
    recipient is a string (or missing, which reads as the empty string):
    [messaging_product] becomes ["whatsapp"] whatever it was;
    [recipient_type] becomes ["group"] exactly when the recipient contains
    ["@g.us"], and is left as it was otherwise; every other key keeps its
    value. *)
Theorem prepare_payload_tags_groups (payload : fields) (to : string) :
  get_or "to" (JStr "") payload = JStr to ->
  exists prepared,
    prepare_payload payload = Ok prepared /\
    lookup "messaging_product" prepared = Some (JStr "whatsapp") /\
    lookup "recipient_type" prepared
    = (if is_substring "@g.us" to then Some (JStr "group")
       else lookup "recipient_type" payload) /\
    (forall k, k <> "messaging_product" -> k <> "recipient_type" ->
               lookup k prepared = lookup k payload).
Proof.
  intros Hto. unfold prepare_payload, py_get.
  rewrite lookup_dict_set_other by discriminate.
  unfold get_or in Hto.
  assert (E : match lookup "to" payload with
              | Some x => Ok x
              | None => Ok (JStr "")
              end = Ok (JStr to)).
  { destruct (lookup "to" payload); now rewrite Hto. }
  rewrite E. cbn [bind py_contains].
  destruct (is_substring "@g.us" to); eexists; (split; [reflexivity|]).
  - rewrite lookup_dict_set_other by discriminate.
    rewrite !lookup_dict_set_same. repeat split.
    intros k N1 N2. now rewrite !lookup_dict_set_other.
  - rewrite lookup_dict_set_same, lookup_dict_set_other by discriminate.
    repeat split. intros k N1 N2. now rewrite lookup_dict_set_other.
Qed.

Lemma prepare_payload_tags_groups_witness :
  prepare_payload
    [("to", JStr "120363000000000000@g.us"); ("type", JStr "text");
     ("text", JObj [("body", JStr "Hi all")]); ("messaging_product", JNull)]
  = Ok [("to", JStr "120363000000000000@g.us"); ("type", JStr "text");
        ("text", JObj [("body", JStr "Hi all")]);
        ("messaging_product", JStr "whatsapp");
        ("recipient_type", JStr "group")].
Proof.
  destruct (prepare_payload_tags_groups
              [("to", JStr "120363000000000000@g.us"); ("type", JStr "text");
               ("text", JObj [("body", JStr "Hi all")]);
               ("messaging_product", JNull)]
              "120363000000000000@g.us" eq_refl) as (p & H & _).
  rewrite H. vm_compute in H. now injection H as <-.
Defined.

Section SendProperties.

Variable http : request -> result http_response.

(** X18. A send makes exactly one request, the POST of the prepared payload
    to [/messages].  It returns a response only when the transport answered
    with a status below 400 and a body from which the response could be
    built; it raises [WhatsAppAPIError] only when the status was 400 or
    more, and then the error is the one built from that status and that
    body. *)
Theorem send_makes_one_request (payload prepared : fields)
    (made : list request) :
  prepare_payload payload = Ok prepared ->
  snd (_send http payload made) = made ++ [messages_request prepared] /\
  (forall r, fst (_send http payload made) = Returned r ->
     exists response data,
       http (messages_request prepared) = Ok response /\
       (status_code response < 400)%Z /\
       response_json response = Ok data /\
       message_response_of data = Ok r) /\
  (forall err, fst (_send http payload made) = RaisedAPI err ->
     exists response body,
       http (messages_request prepared) = Ok response /\
       (400 <= status_code response)%Z /\
       response_json response = Ok body /\
       from_response (status_code response) body = Ok err).
Proof.
  intros Hp. unfold _send. rewrite Hp. cbn [fst snd].
  fold (messages_request prepared).
  split; [reflexivity|].
  destruct (http (messages_request prepared)) as [response|e] eqn:Hh;
    [|split; intros ? H; discriminate].
  unfold decoded_or_api_error.
  destruct (Z.leb_spec 400 (status_code response)) as [L|L].
  - destruct (response_json response) as [body|e] eqn:J;
      [|split; intros ? H; discriminate].
    destruct (from_response (status_code response) body) as [err|e] eqn:F;
      [|split; intros ? H; discriminate].
    split; intros x H; [discriminate|]. injection H as <-.
    exists response, body. now repeat split.
  - destruct (response_json response) as [data|e] eqn:J; cbn;
      [|split; intros ? H; discriminate].
    destruct (message_response_of data) as [r|e] eqn:M; cbn;
      split; intros x H; try discriminate.
    injection H as <-. exists response, data. now repeat split.
Qed.

End SendProperties.

Lemma send_makes_one_request_witness :
  let rejecting (_ : request) :=
    Ok {| status_code := 401;
          response_json :=
            Ok (JObj [("error", JObj [("code", JInt 190);
                                      ("type", JStr "OAuthException");
                                      ("message", JStr "Invalid token")])]) |} in
  let payload := send_text_payload "5511999999999" "Hello" false in
  exists prepared,
    prepare_payload payload = Ok prepared /\
    _send rejecting payload []
    = (RaisedAPI {| api_status_code := 401;
                    api_error_code := JInt 190;
                    api_error_type := JStr "OAuthException";
                    api_message := JStr "Invalid token";
                    api_error_subcode := JNull;
                    api_fbtrace_id := JNull;
                    api_details := JNull |},
       [messages_request prepared]).
Proof.
  intros rejecting payload. eexists. split; [reflexivity|].
  pose proof (send_makes_one_request rejecting payload _ [] eq_refl)
    as (T & _ & _).
  rewrite (surjective_pairing (_send rejecting payload [])), T.
  reflexivity.
Defined.

Lemma parse_response_contact_str s :
  exists e, parse_response_contact (JStr s) = Raise e.
Proof. cbn. eauto. Qed.

Lemma parse_response_message_str s :
  exists e, parse_response_message (JStr s) = Raise e.
Proof. cbn. eauto. Qed.

Lemma getitem_as_get d k x :
  py_getitem (JObj d) k = Ok x -> py_get (JObj d) k (JArr []) = Ok x.
Proof.
  unfold py_getitem, py_get. destruct (lookup k d); [auto | discriminate].
Qed.

(** X19. The response [_send] returns follows the decoded body: the body is
    an object that has the three keys [messaging_product], [contacts] and
    [messages] (a missing one raises, there is no default here); the
    product is the value under its key, and the contacts and message ids
    are read, position by position, from the elements of the two arrays. *)
Theorem message_response_follows_body (data : json) (r : MessageResponse) :
  message_response_of data = Ok r ->
  exists d, data = JObj d /\
    lookup "messaging_product" d = Some (response_messaging_product r) /\
    has_key "contacts" d = true /\ has_key "messages" d = true /\
    Forall2 (fun c x => parse_response_contact c = Ok x)
      (array_at "contacts" d) (response_contacts r) /\
    Forall2 (fun m x => parse_response_message m = Ok x)
      (array_at "messages" d) (response_messages r).
Proof.
  unfold message_response_of. intros H.
  apply bind_ok in H as (p & Hp & H).
  destruct (getitem_ok_object _ _ _ Hp) as (d & -> & L).
  apply bind_ok in H as (cs & Hcs & H). apply bind_ok in H as (ci & Hci & H).
  apply bind_ok in H as (cl & Hcl & H).
  apply bind_ok in H as (ms & Hms & H). apply bind_ok in H as (mi & Hmi & H).
  apply bind_ok in H as (ml & Hml & H). injection H as <-. cbn.
  exists d. split; [reflexivity|]. split; [exact L|].
  split; [exact (getitem_ok_has_key _ _ _ Hcs)|].
  split; [exact (getitem_ok_has_key _ _ _ Hms)|].
  split.
  - exact (comprehension_over_array _ _ _ _ _ _ parse_response_contact_str
             (getitem_as_get _ _ _ Hcs) Hci Hcl).
  - exact (comprehension_over_array _ _ _ _ _ _ parse_response_message_str
             (getitem_as_get _ _ _ Hms) Hmi Hml).
Qed.

Lemma message_response_follows_body_witness :
  let d := [("messaging_product", JStr "whatsapp");
            ("contacts", JArr [JObj [("input", JStr "5511999999999");
                                     ("wa_id", JStr "5511999999999")]]);
            ("messages", JArr [JObj [("id", JStr "wamid.sent")]])] in
  exists r, message_response_of (JObj d) = Ok r /\
            Forall2 (fun m x => parse_response_message m = Ok x)
              [JObj [("id", JStr "wamid.sent")]] (response_messages r).
Proof.
  intros d. eexists. split; [reflexivity|].
  destruct (message_response_follows_body (JObj d) _ eq_refl)
    as (d' & E & _ & _ & _ & _ & M).
  injection E as <-. exact M.
Defined.

(** X20. Every public send method posts a payload that names its recipient
    under [to] and its kind under [type], carries
    [messaging_product = "whatsapp"], and has [recipient_type = "group"]
    when the recipient contains ["@g.us"] and no [recipient_type] at all
    otherwise; preparing such a payload never raises. *)
Theorem send_methods_address_and_tag (to ty : string) (payload : fields) :
  built_by_send to ty payload ->
  exists prepared,
    prepare_payload payload = Ok prepared /\
    lookup "to" prepared = Some (JStr to) /\
    lookup "type" prepared = Some (JStr ty) /\
    lookup "messaging_product" prepared = Some (JStr "whatsapp") /\
    lookup "recipient_type" prepared
    = if is_substring "@g.us" to then Some (JStr "group") else None.
Proof.
  intros H. destruct H; unfold prepare_payload;
    cbn [send_text_payload send_image_payload send_audio_payload
         send_video_payload send_document_payload send_sticker_payload
         send_location_payload send_contacts_payload send_template_payload
         send_buttons_payload send_list_payload
         dict_set String.eqb Ascii.eqb Bool.eqb py_get lookup bind
         py_contains];
    destruct (is_substring "@g.us" to); eexists;
    (split; [reflexivity|]); repeat split.
Qed.

Lemma send_methods_address_and_tag_witness :
  exists prepared,
    prepare_payload
      (send_image_payload "120363000000000000@g.us" "https://img" None)
    = Ok prepared /\
    lookup "to" prepared = Some (JStr "120363000000000000@g.us") /\
    lookup "type" prepared = Some (JStr "image") /\
    lookup "messaging_product" prepared = Some (JStr "whatsapp") /\
    lookup "recipient_type" prepared = Some (JStr "group").
Proof.
  exact (send_methods_address_and_tag _ _ _
           (by_send_image "120363000000000000@g.us" "https://img" None)).
Defined.

(** ** What the payloads hold *)

Lemma no_null_dict_set k v d :
  no_null v = true -> no_null (JObj d) = true ->
  no_null (JObj (dict_set k v d)) = true.
Proof.
  intros Hv. cbn [no_null]. induction d as [|[k' v'] d IH]; cbn [dict_set].
  - intros _. cbn. now rewrite Hv.
  - intros H. cbn in H. apply andb_true_split in H as [H1 H2].
    destruct (k =? k'); cbn; [now rewrite Hv | now rewrite H1, IH].
Qed.

Lemma no_null_set_if_given k v d :
  no_null (JObj d) = true -> no_null (JObj (set_if_given k v d)) = true.
Proof.
  destruct v; [now apply no_null_dict_set | auto].
Qed.

Lemma no_null_map {A} (f : A -> json) l :
  (forall x, no_null (f x) = true) -> forallb no_null (map f l) = true.
Proof.
  intros H. induction l; cbn; [reflexivity | now rewrite H, IHl].
Qed.

Lemma no_null_with_header_footer header footer d :
  no_null (JObj d) = true ->
  no_null (JObj (with_header_footer header footer d)) = true.
Proof.
  intros H. unfold with_header_footer.
  destruct header, footer; repeat apply no_null_dict_set; auto.
Qed.

Lemma no_null_serialize_parameter p : no_null (_serialize_parameter p) = true.
Proof.
  destruct p as [t|l|l|l [f|]]; reflexivity.
Qed.

Lemma no_null_serialize_component c : no_null (_serialize_component c) = true.
Proof.
  destruct c; cbn; now rewrite (no_null_map _ _ no_null_serialize_parameter).
Qed.

Lemma no_null_serialize_row r : no_null (serialize_row r) = true.
Proof.
  unfold serialize_row. now apply no_null_set_if_given.
Qed.

Lemma no_null_serialize_section s : no_null (serialize_section s) = true.
Proof.
  cbn. now rewrite (no_null_map _ _ no_null_serialize_row).
Qed.

Lemma no_null_prepare payload prepared :
  prepare_payload payload = Ok prepared ->
  no_null (JObj payload) = true -> no_null (JObj prepared) = true.
Proof.
  unfold prepare_payload. intros H N.
  apply bind_ok in H as (to & _ & H). apply bind_ok in H as (g & _ & H).
  injection H as <-.
  destruct g; repeat apply no_null_dict_set; auto.
Qed.

(** X21. Apart from [send_contacts], no send method posts a [null]: an
    optional argument that is [None] (a caption, a filename, a name, an
    address, a header, a footer, a row description, the components of a
    template) leaves its key out of the payload, at every depth. *)
Theorem send_methods_post_no_null (to ty : string) (payload prepared : fields) :
  built_by_send to ty payload ->
  ty <> "contacts" ->
  prepare_payload payload = Ok prepared ->
  no_null (JObj prepared) = true.
Proof.
  intros H N P. apply (no_null_prepare _ _ P). clear P.
  assert (E : forall k v, no_null v = true ->
                no_null (JObj [("to", JStr to); ("type", JStr ty); (k, v)])
                = true).
  { intros k v Hv. cbn. now rewrite Hv. }
  destruct H; try (now elim N); apply E; clear E.
  - reflexivity.
  - now apply no_null_set_if_given.
  - reflexivity.
  - now apply no_null_set_if_given.
  - now repeat apply no_null_set_if_given.
  - reflexivity.
  - now repeat apply no_null_set_if_given.
  - destruct (template_components template) as [cs|]; [|reflexivity].
    apply no_null_dict_set; [|reflexivity].
    cbn [no_null]. apply no_null_map, no_null_serialize_component.
  - apply no_null_with_header_footer.
    cbn. now rewrite (no_null_map serialize_button buttons).
  - apply no_null_with_header_footer.
    cbn. now rewrite (no_null_map _ sections no_null_serialize_section).
Qed.

Lemma send_methods_post_no_null_witness :
  exists prepared,
    prepare_payload
      (send_document_payload "5511999999999" "https://doc" None None)
    = Ok prepared /\ no_null (JObj prepared) = true.
Proof.
  eexists. split; [reflexivity|].
  refine (send_methods_post_no_null "5511999999999" "document" _ _
            (by_send_document _ _ None None) _ eq_refl).
  discriminate.
Defined.

(** X22. [_serialize_contact] drops the unset fields of the contact itself
    and only those: the result always has [name], has each of [phones],
    [emails], [addresses], [urls], [org] and [birthday] exactly when it is
    set, and holds no [null] at its top level.  The filter does not reach
    into the nested objects: a name whose [first_name] is unset is sent with
    ["first_name": null]. *)
Theorem serialize_contact_filters_top_level (c : ContactInfo) :
  exists d, _serialize_contact c = JObj d /\
    (forall k v, In (k, v) d -> v <> JNull) /\
    lookup "name" d = Some (JObj (asdict_name (info_name c))) /\
    lookup "phones" d
    = option_map (fun l => JArr (map (fun x => JObj (asdict_phone x)) l))
        (info_phones c) /\
    lookup "emails" d
    = option_map (fun l => JArr (map (fun x => JObj (asdict_email x)) l))
        (info_emails c) /\
    lookup "addresses" d
    = option_map (fun l => JArr (map (fun x => JObj (asdict_address x)) l))
        (info_addresses c) /\
    lookup "urls" d
    = option_map (fun l => JArr (map (fun x => JObj (asdict_url x)) l))
        (info_urls c) /\
    lookup "org" d = option_map (fun o => JObj (asdict_org o)) (info_org c) /\
    lookup "birthday" d = option_map JStr (info_birthday c) /\
    (first_name (info_name c) = None ->
     exists n, lookup "name" d = Some (JObj n) /\
               lookup "first_name" n = Some JNull).
Proof.
  eexists. split; [reflexivity|].
  destruct c as [n [p|] [e|] [a|] [u|] [o|] [b|]]; cbn;
    (split; [intros k v H;
             repeat (destruct H as [H|H]; [injection H as <- <-; discriminate|]);
             destruct H|]);
    repeat (split; [reflexivity|]);
    intros F; eexists; (split; [reflexivity|]); cbn; now rewrite F.
Qed.

(** X23. The serialization of a template parameter is faithful: two
    parameters with the same serialization are the same parameter. *)
Theorem serialize_parameter_injective (p q : TemplateParameter) :
  _serialize_parameter p = _serialize_parameter q -> p = q.
Proof.
  destruct p as [t|l|l|l [f|]], q as [t'|l'|l'|l' [f'|]]; cbn;
    intros H; try discriminate; injection H as H; congruence.
Qed.

Lemma serialize_parameter_injective_witness :
  TemplateDocumentParameter "https://doc" None
  = TemplateDocumentParameter "https://doc" None.
Proof.
  exact (serialize_parameter_injective _ _ eq_refl).
Defined.

Lemma py_str_int_injective i j : py_str_int i = py_str_int j -> i = j.
Proof.
  unfold py_str_int. intros H.
  apply (f_equal DecimalString.NilEmpty.int_of_string) in H.
  rewrite !DecimalString.NilEmpty.isi in H. injection H as H.
  rewrite <- (DecimalZ.of_to i), <- (DecimalZ.of_to j). now rewrite H.
Qed.

Lemma map_serialize_parameter_injective ps qs :
  map _serialize_parameter ps = map _serialize_parameter qs -> ps = qs.
Proof.
  revert qs. induction ps as [|p ps IH]; intros [|q qs] H;
    try discriminate; [reflexivity|].
  cbn [map] in H. injection H as H1 H2.
  f_equal; [now apply serialize_parameter_injective | now apply IH].
Qed.

(** X24. The serialization of a template component is faithful as well:
    the kind, the sub-type, the index (sent as its decimal string) and the
    parameters can all be read back from it, so two components with the same
    serialization are the same component. *)
Theorem serialize_component_injective (c c' : TemplateComponent) :
  _serialize_component c = _serialize_component c' -> c = c'.
Proof.
  destruct c as [ps|ps|s i ps], c' as [qs|qs|s' i' qs];
    cbn [_serialize_component]; intros H; try discriminate;
    injection H as H.
  - f_equal. now apply map_serialize_parameter_injective.
  - f_equal. now apply map_serialize_parameter_injective.
  - f_equal; [assumption | now apply py_str_int_injective
             | now apply map_serialize_parameter_injective].
Qed.

Lemma serialize_component_injective_witness :
  TemplateButtonComponent "quick_reply" 0 [TemplateTextParameter "yes"]
  = TemplateButtonComponent "quick_reply" 0 [TemplateTextParameter "yes"].
Proof.
  exact (serialize_component_injective _ _ eq_refl).
Defined.

Lemma serialize_contact_filters_top_level_witness :
  let c := {| info_name := {| formatted_name := "John Doe";
                              first_name := None; last_name := None;
                              middle_name := None; name_suffix := None;
                              name_prefix := None |};
              info_phones := None; info_emails := None;
              info_addresses := None; info_urls := None; info_org := None;
              info_birthday := Some "1990-01-01" |} in
  exists d n,
    _serialize_contact c = JObj d /\
    map fst d = ["name"; "birthday"] /\
    lookup "name" d = Some (JObj n) /\ lookup "first_name" n = Some JNull.
Proof.
  intros c.
  destruct (serialize_contact_filters_top_level c)
    as (d & E & _ & _ & _ & _ & _ & _ & _ & _ & F).
  destruct (F eq_refl) as (n & Hn & Hf).
  exists d, n. injection E as <-. now repeat split.
Defined.

(** ** Group management *)

Section GroupProperties.

Variable http : request -> result http_response.

Lemma decoded_or_api_error_returned response data :
  decoded_or_api_error response = Returned data ->
  (status_code response < 400)%Z /\ response_json response = Ok data.
Proof.
  unfold decoded_or_api_error.
  destruct (Z.leb_spec 400 (status_code response)) as [L|L].
  - destruct (response_json response) as [b|]; [|discriminate].
    destruct (from_response _ b); discriminate.
  - destruct (response_json response); cbn; intros H; [|discriminate].
    injection H as <-. now split.
Qed.

Lemma decoded_or_api_error_raised_api response err :
  decoded_or_api_error response = RaisedAPI err ->
  (400 <= status_code response)%Z /\
  exists body, response_json response = Ok body /\
               from_response (status_code response) body = Ok err.
Proof.
  unfold decoded_or_api_error.
  destruct (Z.leb_spec 400 (status_code response)) as [L|L].
  - destruct (response_json response) as [b|]; [|discriminate].
    destruct (from_response _ b) eqn:F; intros H; [|discriminate].
    injection H as <-. split; [exact L|]. now exists b.
  - destruct (response_json response); discriminate.
Qed.

(** X25. Every group call goes through [_api], which makes exactly one
    request, with the method, the URL [base_url/path] and the JSON it was
    given.  It returns the decoded body only when the status is below 400,
    and raises [WhatsAppAPIError] only when the status is 400 or more, the
    error being built from that status and the decoded body. *)
Theorem api_makes_one_request (self : WhatsAppClient) (method path : string)
    (body : option json) (made : list request) :
  let req := api_request self method path body in
  snd (_api http self method path body made) = made ++ [req] /\
  request_url req = (_base_url self ++ "/" ++ path)%string /\
  (forall data, fst (_api http self method path body made) = Returned data ->
     exists response,
       http req = Ok response /\ (status_code response < 400)%Z /\
       response_json response = Ok data) /\
  (forall err, fst (_api http self method path body made) = RaisedAPI err ->
     exists response decoded,
       http req = Ok response /\ (400 <= status_code response)%Z /\
       response_json response = Ok decoded /\
       from_response (status_code response) decoded = Ok err).
Proof.
  intros req. unfold _api. fold req. cbn [fst snd].
  split; [reflexivity|]. split; [reflexivity|].
  destruct (http req) as [response|e] eqn:Hh;
    [|split; intros ? H; discriminate].
  split.
  - intros data H. apply decoded_or_api_error_returned in H as [L J].
    now exists response.
  - intros err H.
    apply decoded_or_api_error_raised_api in H as (L & b & J & F).
    now exists response, b.
Qed.

(** X26. The groups [get_groups] returns are read, position by position,
    from the array under [data] of the decoded body of a response with a
    status below 400; a body without [data] gives no group rather than an
    error. *)
Theorem get_groups_follows_data (self : WhatsAppClient)
    (made : list request) :
  let req := api_request self "GET" (_phone_number_id self ++ "/groups")%string
               None in
  (forall groups,
     fst (get_groups http self made) = Returned groups ->
     exists response d,
       http req = Ok response /\
       (status_code response < 400)%Z /\
       response_json response = Ok (JObj d) /\
       Forall2 (fun g x => parse_group_summary g = Ok x) (array_at "data" d)
         groups) /\
  (forall response d,
     http req = Ok response ->
     (status_code response < 400)%Z ->
     response_json response = Ok (JObj d) ->
     lookup "data" d = None ->
     get_groups http self made = (Returned [], made ++ [req])).
Proof.
  intros req. unfold get_groups, _api. fold req. split.
  - intros groups.
    destruct (http req) as [response|e] eqn:Hh; [|discriminate].
    destruct (decoded_or_api_error response) as [data|e|err] eqn:D;
      try discriminate.
    apply decoded_or_api_error_returned in D as [L J]. cbn [fst].
    destruct (py_get data "data" (JArr [])) as [gs|] eqn:G; [|discriminate].
    destruct (get_ok_object _ _ _ _ G) as (d & ->).
    cbn [bind]. destruct (py_iter gs) as [items|] eqn:I; [|discriminate].
    cbn [bind]. destruct (mapM parse_group_summary items) as [l|] eqn:M;
      [|discriminate].
    cbn. intros H. injection H as <-.
    exists response, d. repeat split; try assumption.
    refine (comprehension_over_array _ _ _ _ _ _ _ G I M).
    intros s. cbn. eauto.
  - intros response d Hh L J N. rewrite Hh.
    unfold decoded_or_api_error.
    destruct (Z.leb_spec 400 (status_code response)) as [L'|_]; [lia|].
    rewrite J. cbn. now rewrite N.
Qed.

(** X27. [update_group] posts an object that holds [subject] exactly when
    a subject is given and [description] exactly when a description is
    given, and nothing else: an argument left out is left out of the
    request, not sent as [null], and with neither argument the request
    carries the empty object. *)
Theorem update_group_sends_given_fields (self : WhatsAppClient)
    (group_id : string) (subject description : option string)
    (made : list request) :
  exists payload,
    snd (update_group http self group_id subject description made)
    = made ++ [api_request self "POST" group_id (Some (JObj payload))] /\
    lookup "subject" payload = option_map JStr subject /\
    lookup "description" payload = option_map JStr description /\
    (forall k, k <> "subject" -> k <> "description" ->
               lookup k payload = None) /\
    no_null (JObj payload) = true.
Proof.
  exists (update_group_payload subject description).
  split.
  - unfold update_group, _api.
    destruct (http _) as [response|]; [|reflexivity].
    destruct (decoded_or_api_error response); reflexivity.
  - destruct subject as [s|], description as [ds|]; cbn;
      repeat split; try reflexivity; intros k N1 N2;
      repeat match goal with
             | |- context [String.eqb k ?x] =>
                 destruct (String.eqb_spec k x); [contradiction|]
             end; reflexivity.
Qed.

End GroupProperties.

Lemma get_groups_follows_data_witness :
  let empty_answer (_ : request) :=
    Ok {| status_code := 200; response_json := Ok (JObj []) |} in
  let self := {| _phone_number_id := "123456"; _access_token := "token";
                 _base_url := "https://graph.facebook.com/v22.0" |} in
  get_groups empty_answer self []
  = (Returned [],
     [{| request_method := "GET";
         request_url := "https://graph.facebook.com/v22.0/123456/groups";
         request_json := None |}]).
Proof.
  intros empty_answer self.
  exact (proj2 (get_groups_follows_data empty_answer self []) _ []
           eq_refl eq_refl eq_refl eq_refl).
Defined.
